(** * Drone flight emulator: a shallow embedding of the flight emulation
    script and of the command handlers of the page

    The sources are [client/static/drone_sender.js], which holds the flight
    emulation script ([flight_emulation.js] in the page) after the socket
    module, and [client/static/ui.js].

    Numbers are JavaScript doubles in the source; here they are real numbers
    ([R]), so every statement is about the arithmetic the code writes down,
    without rounding.  [Math.sin], [Math.cos], [Math.sqrt], [Math.exp],
    [Math.abs], [Math.max] and [Math.min] are the functions of the same name
    on [R]; [Math.atan2] is defined below from [atan].  [Math.random()] is an
    argument of the tick: the sequence of its successive results.  A
    comparison of two reals is decided by [Rlt_dec] or [Rle_dec]; on a
    concrete input the definitions are evaluated by rewriting with the
    lemmas of the second part. *)

From Stdlib Require Import Reals Lra Lia List String Bool Arith ZArith.
From stdpp Require list.
Import ListNotations.
Open Scope R_scope.

(** [sublist l k]: [l] is [k] with some elements removed, the others in their
    order (stdpp). *)
Abbreviation sublist := list_relations.list.sublist.

(** ** Comparisons as booleans *)

Definition Rltb (x y : R) : bool := if Rlt_dec x y then true else false.
Definition Rleb (x y : R) : bool := if Rle_dec x y then true else false.

Notation "x <? y" := (Rltb x y) : R_scope.
Notation "x <=? y" := (Rleb x y) : R_scope.

(** [clamp(value, min, max)] *)
Definition clamp (value min max : R) : R := Rmax min (Rmin max value).

(** ** Geodesy *)

Record Point : Type := mkPoint { lat : R; lng : R }.

(** [Math.atan2(y, x)] on the reals (signed zeros do not exist here). *)
Definition atan2 (y x : R) : R :=
  if 0 <? x then atan (y / x)
  else if x <? 0 then (if 0 <=? y then atan (y / x) + PI else atan (y / x) - PI)
  else if 0 <? y then PI / 2
  else if y <? 0 then - (PI / 2)
  else 0.

(** [computeDistance(a, b)]: haversine distance in metres. *)
Definition computeDistance (a b : Point) : R :=
  let R0 := 6371000 in
  let dLat := (lat b - lat a) * PI / 180 in
  let dLon := (lng b - lng a) * PI / 180 in
  let lat1 := lat a * PI / 180 in
  let lat2 := lat b * PI / 180 in
  let A := sin (dLat / 2) ^ 2 + cos lat1 * cos lat2 * sin (dLon / 2) ^ 2 in
  R0 * 2 * atan2 (sqrt A) (sqrt (1 - A)).

(** ** Route filtering *)

Section FilterRoute.

(** The loop of [filterRoute] reads nothing of a point but [pt.lat] and
    [pt.lng]; [coords] is that read.  The points themselves (the same
    objects, in the same order) are what is pushed. *)
Context {A : Type} (coords : A -> Point).

(** The test of one loop turn:
    [!filtered.length || computeDistance(pt, filtered[filtered.length - 1]) > 5].
    [last filtered pt] is [filtered[filtered.length - 1]] whenever
    [filtered] is not empty, the only case in which [||] evaluates it. *)
Definition keeps (filtered : list A) (pt : A) : bool :=
  (List.length filtered =? 0)%nat
  || (5 <? computeDistance (coords pt) (coords (last filtered pt))).

Definition filterStep (filtered : list A) (pt : A) : list A :=
  if keeps filtered pt then filtered ++ [pt] else filtered.

Definition filterRoute (route : list A) : list A :=
  fold_left filterStep route [].

(** Every pair of neighbours [a, b] of a list (b right after a) satisfies
    [5 < computeDistance(b, a)], the comparison as the loop makes it. *)
Fixpoint spaced (l : list A) : Prop :=
  match l with
  | a :: (b :: _) as tl =>
      5 < computeDistance (coords b) (coords a) /\ spaced tl
  | _ => True
  end.

End FilterRoute.

(** ** The vehicle state *)

(** [state.mode] holds one of the four strings "onGround", "takeOff",
    "cruise" and "landing". *)
Inductive Mode : Type := OnGround | TakeOff | Cruise | Landing.

Record Wind : Type := mkWind { speed : R; direction : R }.

Record JamZone : Type := mkJamZone { center : Point; radius : R }.

(** An element of [state.route] is a point object.  The repeat-mission branch
    of the tick stores [state.position] itself, the object that every later
    move updates in place, as the first element of the new route: [Live] is
    that alias, [Fixed p] is any other point object (none of them is ever
    written to). *)
Inductive Waypoint : Type := Fixed (p : Point) | Live.

(** The coordinates read from a route element while [state.position] is
    [pos]. *)
Definition resolve (pos : Point) (wp : Waypoint) : Point :=
  match wp with Fixed p => p | Live => pos end.

(** What the aliases hold once [state.position] has been replaced by a new
    object: the old object keeps the coordinates [pos] it had. *)
Definition freeze (pos : Point) (wp : Waypoint) : Waypoint :=
  Fixed (resolve pos wp).

Record State : Type := mkState {
  position : Point;
  altitude : R;
  targetAltitude : R;
  verticalSpeed : R;
  homePosition : option Point;
  flightStarted : bool;
  route : list Waypoint;
  waypointIndex : nat;
  vx : R;
  vy : R;
  horizontalSpeed : R;
  timeMultiplier : R;
  fullFlightTime : Z;
  altStability : R;
  hoverMode : bool;
  repeatMission : bool;
  wind : Wind;
  engineRPM : R;
  batteryLevel : R;
  batteryTemperature : R;
  flightTime : R;
  totalDistance : R;
  mode : Mode;
  cruiseAltitude : R;
  jamZone : option JamZone;
  gpsQuality : R;
  crashed : bool;
  desiredSpeed : option R
}.

(** One setter per field: [set_f v s] is [s] after the assignment [state.f = v]. *)

Definition set_position (v : Point) (s : State) : State :=
  mkState v (altitude s) (targetAltitude s) (verticalSpeed s)
    (homePosition s) (flightStarted s) (route s) (waypointIndex s) (vx s)
    (vy s) (horizontalSpeed s) (timeMultiplier s) (fullFlightTime s)
    (altStability s) (hoverMode s) (repeatMission s) (wind s) (engineRPM s)
    (batteryLevel s) (batteryTemperature s) (flightTime s) (totalDistance s)
    (mode s) (cruiseAltitude s) (jamZone s) (gpsQuality s) (crashed s)
    (desiredSpeed s).

Definition set_altitude (v : R) (s : State) : State :=
  mkState (position s) v (targetAltitude s) (verticalSpeed s)
    (homePosition s) (flightStarted s) (route s) (waypointIndex s) (vx s)
    (vy s) (horizontalSpeed s) (timeMultiplier s) (fullFlightTime s)
    (altStability s) (hoverMode s) (repeatMission s) (wind s) (engineRPM s)
    (batteryLevel s) (batteryTemperature s) (flightTime s) (totalDistance s)
    (mode s) (cruiseAltitude s) (jamZone s) (gpsQuality s) (crashed s)
    (desiredSpeed s).

Definition set_targetAltitude (v : R) (s : State) : State :=
  mkState (position s) (altitude s) v (verticalSpeed s) (homePosition s)
    (flightStarted s) (route s) (waypointIndex s) (vx s) (vy s)
    (horizontalSpeed s) (timeMultiplier s) (fullFlightTime s)
    (altStability s) (hoverMode s) (repeatMission s) (wind s) (engineRPM s)
    (batteryLevel s) (batteryTemperature s) (flightTime s) (totalDistance s)
    (mode s) (cruiseAltitude s) (jamZone s) (gpsQuality s) (crashed s)
    (desiredSpeed s).

Definition set_verticalSpeed (v : R) (s : State) : State :=
  mkState (position s) (altitude s) (targetAltitude s) v (homePosition s)
    (flightStarted s) (route s) (waypointIndex s) (vx s) (vy s)
    (horizontalSpeed s) (timeMultiplier s) (fullFlightTime s)
    (altStability s) (hoverMode s) (repeatMission s) (wind s) (engineRPM s)
    (batteryLevel s) (batteryTemperature s) (flightTime s) (totalDistance s)
    (mode s) (cruiseAltitude s) (jamZone s) (gpsQuality s) (crashed s)
    (desiredSpeed s).

Definition set_homePosition (v : option Point) (s : State) : State :=
  mkState (position s) (altitude s) (targetAltitude s) (verticalSpeed s) v
    (flightStarted s) (route s) (waypointIndex s) (vx s) (vy s)
    (horizontalSpeed s) (timeMultiplier s) (fullFlightTime s)
    (altStability s) (hoverMode s) (repeatMission s) (wind s) (engineRPM s)
    (batteryLevel s) (batteryTemperature s) (flightTime s) (totalDistance s)
    (mode s) (cruiseAltitude s) (jamZone s) (gpsQuality s) (crashed s)
    (desiredSpeed s).

Definition set_flightStarted (v : bool) (s : State) : State :=
  mkState (position s) (altitude s) (targetAltitude s) (verticalSpeed s)
    (homePosition s) v (route s) (waypointIndex s) (vx s) (vy s)
    (horizontalSpeed s) (timeMultiplier s) (fullFlightTime s)
    (altStability s) (hoverMode s) (repeatMission s) (wind s) (engineRPM s)
    (batteryLevel s) (batteryTemperature s) (flightTime s) (totalDistance s)
    (mode s) (cruiseAltitude s) (jamZone s) (gpsQuality s) (crashed s)
    (desiredSpeed s).

Definition set_route (v : list Waypoint) (s : State) : State :=
  mkState (position s) (altitude s) (targetAltitude s) (verticalSpeed s)
    (homePosition s) (flightStarted s) v (waypointIndex s) (vx s) (vy s)
    (horizontalSpeed s) (timeMultiplier s) (fullFlightTime s)
    (altStability s) (hoverMode s) (repeatMission s) (wind s) (engineRPM s)
    (batteryLevel s) (batteryTemperature s) (flightTime s) (totalDistance s)
    (mode s) (cruiseAltitude s) (jamZone s) (gpsQuality s) (crashed s)
    (desiredSpeed s).

Definition set_waypointIndex (v : nat) (s : State) : State :=
  mkState (position s) (altitude s) (targetAltitude s) (verticalSpeed s)
    (homePosition s) (flightStarted s) (route s) v (vx s) (vy s)
    (horizontalSpeed s) (timeMultiplier s) (fullFlightTime s)
    (altStability s) (hoverMode s) (repeatMission s) (wind s) (engineRPM s)
    (batteryLevel s) (batteryTemperature s) (flightTime s) (totalDistance s)
    (mode s) (cruiseAltitude s) (jamZone s) (gpsQuality s) (crashed s)
    (desiredSpeed s).

Definition set_vx (v : R) (s : State) : State :=
  mkState (position s) (altitude s) (targetAltitude s) (verticalSpeed s)
    (homePosition s) (flightStarted s) (route s) (waypointIndex s) v (vy s)
    (horizontalSpeed s) (timeMultiplier s) (fullFlightTime s)
    (altStability s) (hoverMode s) (repeatMission s) (wind s) (engineRPM s)
    (batteryLevel s) (batteryTemperature s) (flightTime s) (totalDistance s)
    (mode s) (cruiseAltitude s) (jamZone s) (gpsQuality s) (crashed s)
    (desiredSpeed s).

Definition set_vy (v : R) (s : State) : State :=
  mkState (position s) (altitude s) (targetAltitude s) (verticalSpeed s)
    (homePosition s) (flightStarted s) (route s) (waypointIndex s) (vx s) v
    (horizontalSpeed s) (timeMultiplier s) (fullFlightTime s)
    (altStability s) (hoverMode s) (repeatMission s) (wind s) (engineRPM s)
    (batteryLevel s) (batteryTemperature s) (flightTime s) (totalDistance s)
    (mode s) (cruiseAltitude s) (jamZone s) (gpsQuality s) (crashed s)
    (desiredSpeed s).

Definition set_horizontalSpeed (v : R) (s : State) : State :=
  mkState (position s) (altitude s) (targetAltitude s) (verticalSpeed s)
    (homePosition s) (flightStarted s) (route s) (waypointIndex s) (vx s)
    (vy s) v (timeMultiplier s) (fullFlightTime s) (altStability s)
    (hoverMode s) (repeatMission s) (wind s) (engineRPM s) (batteryLevel s)
    (batteryTemperature s) (flightTime s) (totalDistance s) (mode s)
    (cruiseAltitude s) (jamZone s) (gpsQuality s) (crashed s)
    (desiredSpeed s).

Definition set_timeMultiplier (v : R) (s : State) : State :=
  mkState (position s) (altitude s) (targetAltitude s) (verticalSpeed s)
    (homePosition s) (flightStarted s) (route s) (waypointIndex s) (vx s)
    (vy s) (horizontalSpeed s) v (fullFlightTime s) (altStability s)
    (hoverMode s) (repeatMission s) (wind s) (engineRPM s) (batteryLevel s)
    (batteryTemperature s) (flightTime s) (totalDistance s) (mode s)
    (cruiseAltitude s) (jamZone s) (gpsQuality s) (crashed s)
    (desiredSpeed s).

Definition set_fullFlightTime (v : Z) (s : State) : State :=
  mkState (position s) (altitude s) (targetAltitude s) (verticalSpeed s)
    (homePosition s) (flightStarted s) (route s) (waypointIndex s) (vx s)
    (vy s) (horizontalSpeed s) (timeMultiplier s) v (altStability s)
    (hoverMode s) (repeatMission s) (wind s) (engineRPM s) (batteryLevel s)
    (batteryTemperature s) (flightTime s) (totalDistance s) (mode s)
    (cruiseAltitude s) (jamZone s) (gpsQuality s) (crashed s)
    (desiredSpeed s).

Definition set_altStability (v : R) (s : State) : State :=
  mkState (position s) (altitude s) (targetAltitude s) (verticalSpeed s)
    (homePosition s) (flightStarted s) (route s) (waypointIndex s) (vx s)
    (vy s) (horizontalSpeed s) (timeMultiplier s) (fullFlightTime s) v
    (hoverMode s) (repeatMission s) (wind s) (engineRPM s) (batteryLevel s)
    (batteryTemperature s) (flightTime s) (totalDistance s) (mode s)
    (cruiseAltitude s) (jamZone s) (gpsQuality s) (crashed s)
    (desiredSpeed s).

Definition set_hoverMode (v : bool) (s : State) : State :=
  mkState (position s) (altitude s) (targetAltitude s) (verticalSpeed s)
    (homePosition s) (flightStarted s) (route s) (waypointIndex s) (vx s)
    (vy s) (horizontalSpeed s) (timeMultiplier s) (fullFlightTime s)
    (altStability s) v (repeatMission s) (wind s) (engineRPM s)
    (batteryLevel s) (batteryTemperature s) (flightTime s) (totalDistance s)
    (mode s) (cruiseAltitude s) (jamZone s) (gpsQuality s) (crashed s)
    (desiredSpeed s).

Definition set_repeatMission (v : bool) (s : State) : State :=
  mkState (position s) (altitude s) (targetAltitude s) (verticalSpeed s)
    (homePosition s) (flightStarted s) (route s) (waypointIndex s) (vx s)
    (vy s) (horizontalSpeed s) (timeMultiplier s) (fullFlightTime s)
    (altStability s) (hoverMode s) v (wind s) (engineRPM s) (batteryLevel s)
    (batteryTemperature s) (flightTime s) (totalDistance s) (mode s)
    (cruiseAltitude s) (jamZone s) (gpsQuality s) (crashed s)
    (desiredSpeed s).

Definition set_wind (v : Wind) (s : State) : State :=
  mkState (position s) (altitude s) (targetAltitude s) (verticalSpeed s)
    (homePosition s) (flightStarted s) (route s) (waypointIndex s) (vx s)
    (vy s) (horizontalSpeed s) (timeMultiplier s) (fullFlightTime s)
    (altStability s) (hoverMode s) (repeatMission s) v (engineRPM s)
    (batteryLevel s) (batteryTemperature s) (flightTime s) (totalDistance s)
    (mode s) (cruiseAltitude s) (jamZone s) (gpsQuality s) (crashed s)
    (desiredSpeed s).

Definition set_engineRPM (v : R) (s : State) : State :=
  mkState (position s) (altitude s) (targetAltitude s) (verticalSpeed s)
    (homePosition s) (flightStarted s) (route s) (waypointIndex s) (vx s)
    (vy s) (horizontalSpeed s) (timeMultiplier s) (fullFlightTime s)
    (altStability s) (hoverMode s) (repeatMission s) (wind s) v
    (batteryLevel s) (batteryTemperature s) (flightTime s) (totalDistance s)
    (mode s) (cruiseAltitude s) (jamZone s) (gpsQuality s) (crashed s)
    (desiredSpeed s).

Definition set_batteryLevel (v : R) (s : State) : State :=
  mkState (position s) (altitude s) (targetAltitude s) (verticalSpeed s)
    (homePosition s) (flightStarted s) (route s) (waypointIndex s) (vx s)
    (vy s) (horizontalSpeed s) (timeMultiplier s) (fullFlightTime s)
    (altStability s) (hoverMode s) (repeatMission s) (wind s) (engineRPM s)
    v (batteryTemperature s) (flightTime s) (totalDistance s) (mode s)
    (cruiseAltitude s) (jamZone s) (gpsQuality s) (crashed s)
    (desiredSpeed s).

Definition set_batteryTemperature (v : R) (s : State) : State :=
  mkState (position s) (altitude s) (targetAltitude s) (verticalSpeed s)
    (homePosition s) (flightStarted s) (route s) (waypointIndex s) (vx s)
    (vy s) (horizontalSpeed s) (timeMultiplier s) (fullFlightTime s)
    (altStability s) (hoverMode s) (repeatMission s) (wind s) (engineRPM s)
    (batteryLevel s) v (flightTime s) (totalDistance s) (mode s)
    (cruiseAltitude s) (jamZone s) (gpsQuality s) (crashed s)
    (desiredSpeed s).

Definition set_flightTime (v : R) (s : State) : State :=
  mkState (position s) (altitude s) (targetAltitude s) (verticalSpeed s)
    (homePosition s) (flightStarted s) (route s) (waypointIndex s) (vx s)
    (vy s) (horizontalSpeed s) (timeMultiplier s) (fullFlightTime s)
    (altStability s) (hoverMode s) (repeatMission s) (wind s) (engineRPM s)
    (batteryLevel s) (batteryTemperature s) v (totalDistance s) (mode s)
    (cruiseAltitude s) (jamZone s) (gpsQuality s) (crashed s)
    (desiredSpeed s).

Definition set_totalDistance (v : R) (s : State) : State :=
  mkState (position s) (altitude s) (targetAltitude s) (verticalSpeed s)
    (homePosition s) (flightStarted s) (route s) (waypointIndex s) (vx s)
    (vy s) (horizontalSpeed s) (timeMultiplier s) (fullFlightTime s)
    (altStability s) (hoverMode s) (repeatMission s) (wind s) (engineRPM s)
    (batteryLevel s) (batteryTemperature s) (flightTime s) v (mode s)
    (cruiseAltitude s) (jamZone s) (gpsQuality s) (crashed s)
    (desiredSpeed s).

Definition set_mode (v : Mode) (s : State) : State :=
  mkState (position s) (altitude s) (targetAltitude s) (verticalSpeed s)
    (homePosition s) (flightStarted s) (route s) (waypointIndex s) (vx s)
    (vy s) (horizontalSpeed s) (timeMultiplier s) (fullFlightTime s)
    (altStability s) (hoverMode s) (repeatMission s) (wind s) (engineRPM s)
    (batteryLevel s) (batteryTemperature s) (flightTime s) (totalDistance s)
    v (cruiseAltitude s) (jamZone s) (gpsQuality s) (crashed s)
    (desiredSpeed s).

Definition set_cruiseAltitude (v : R) (s : State) : State :=
  mkState (position s) (altitude s) (targetAltitude s) (verticalSpeed s)
    (homePosition s) (flightStarted s) (route s) (waypointIndex s) (vx s)
    (vy s) (horizontalSpeed s) (timeMultiplier s) (fullFlightTime s)
    (altStability s) (hoverMode s) (repeatMission s) (wind s) (engineRPM s)
    (batteryLevel s) (batteryTemperature s) (flightTime s) (totalDistance s)
    (mode s) v (jamZone s) (gpsQuality s) (crashed s) (desiredSpeed s).

Definition set_jamZone (v : option JamZone) (s : State) : State :=
  mkState (position s) (altitude s) (targetAltitude s) (verticalSpeed s)
    (homePosition s) (flightStarted s) (route s) (waypointIndex s) (vx s)
    (vy s) (horizontalSpeed s) (timeMultiplier s) (fullFlightTime s)
    (altStability s) (hoverMode s) (repeatMission s) (wind s) (engineRPM s)
    (batteryLevel s) (batteryTemperature s) (flightTime s) (totalDistance s)
    (mode s) (cruiseAltitude s) v (gpsQuality s) (crashed s)
    (desiredSpeed s).

Definition set_gpsQuality (v : R) (s : State) : State :=
  mkState (position s) (altitude s) (targetAltitude s) (verticalSpeed s)
    (homePosition s) (flightStarted s) (route s) (waypointIndex s) (vx s)
    (vy s) (horizontalSpeed s) (timeMultiplier s) (fullFlightTime s)
    (altStability s) (hoverMode s) (repeatMission s) (wind s) (engineRPM s)
    (batteryLevel s) (batteryTemperature s) (flightTime s) (totalDistance s)
    (mode s) (cruiseAltitude s) (jamZone s) v (crashed s) (desiredSpeed s).

Definition set_crashed (v : bool) (s : State) : State :=
  mkState (position s) (altitude s) (targetAltitude s) (verticalSpeed s)
    (homePosition s) (flightStarted s) (route s) (waypointIndex s) (vx s)
    (vy s) (horizontalSpeed s) (timeMultiplier s) (fullFlightTime s)
    (altStability s) (hoverMode s) (repeatMission s) (wind s) (engineRPM s)
    (batteryLevel s) (batteryTemperature s) (flightTime s) (totalDistance s)
    (mode s) (cruiseAltitude s) (jamZone s) (gpsQuality s) v
    (desiredSpeed s).

Definition set_desiredSpeed (v : option R) (s : State) : State :=
  mkState (position s) (altitude s) (targetAltitude s) (verticalSpeed s)
    (homePosition s) (flightStarted s) (route s) (waypointIndex s) (vx s)
    (vy s) (horizontalSpeed s) (timeMultiplier s) (fullFlightTime s)
    (altStability s) (hoverMode s) (repeatMission s) (wind s) (engineRPM s)
    (batteryLevel s) (batteryTemperature s) (flightTime s) (totalDistance s)
    (mode s) (cruiseAltitude s) (jamZone s) (gpsQuality s) (crashed s) v.
(** The emulator: the [state] object, the two variables of the altitude PID
    that live next to it in the closure, and what the page has shown so far
    ([alert] boxes, [console.log] lines, lines of the operator's command
    log), most recent last.  Only the message text of a log line is kept. *)
Record World : Type := mkWorld {
  state : State;
  altErrorIntegral : R;
  lastAltError : R;
  alerts : list string;
  console : list string;
  commandLog : list string
}.

Definition upd (f : State -> State) (w : World) : World :=
  mkWorld (f (state w)) (altErrorIntegral w) (lastAltError w) (alerts w)
    (console w) (commandLog w).

Definition set_altErrorIntegral (v : R) (w : World) : World :=
  mkWorld (state w) v (lastAltError w) (alerts w) (console w) (commandLog w).

Definition set_lastAltError (v : R) (w : World) : World :=
  mkWorld (state w) (altErrorIntegral w) v (alerts w) (console w)
    (commandLog w).

Definition alert (msg : string) (w : World) : World :=
  mkWorld (state w) (altErrorIntegral w) (lastAltError w) (alerts w ++ [msg])
    (console w) (commandLog w).

Definition log (msg : string) (w : World) : World :=
  mkWorld (state w) (altErrorIntegral w) (lastAltError w) (alerts w)
    (console w ++ [msg]) (commandLog w).

Definition logCommand (msg : string) (w : World) : World :=
  mkWorld (state w) (altErrorIntegral w) (lastAltError w) (alerts w)
    (console w) (commandLog w ++ [msg]).

(** The [state] object as the script creates it. *)
Definition initialState : State :=
  {| position := mkPoint 55.7522 37.6156;
     altitude := 0;
     targetAltitude := 0;
     verticalSpeed := 0;
     homePosition := None;
     flightStarted := false;
     route := [];
     waypointIndex := 0;
     vx := 0;
     vy := 0;
     horizontalSpeed := 50 / 3.6;
     timeMultiplier := 100;
     fullFlightTime := 30;
     altStability := 1;
     hoverMode := false;
     repeatMission := false;
     wind := mkWind 0 0;
     engineRPM := 2000;
     batteryLevel := 100;
     batteryTemperature := 30;
     flightTime := 0;
     totalDistance := 0;
     mode := OnGround;
     cruiseAltitude := 100;
     jamZone := None;
     gpsQuality := 1;
     crashed := false;
     desiredSpeed := None |}.

Definition initialWorld : World :=
  mkWorld initialState 0 0 [] [] [].

Definition maxAcceleration : R := 5.
Definition minSpeed : R := 0.5.
Definition maxIntegral : R := 10.
Definition Kp_alt : R := 0.4.
Definition Ki_alt : R := 0.05.
Definition Kd_alt : R := 0.15.

(** ** The tick: [updateFlightPhysics(dt)] *)

(** [getVirtualTarget(currentPos, waypoint, brakingDistance, safetyMargin)] *)
Definition getVirtualTarget (currentPos waypoint : Point)
    (brakingDistance safetyMargin : R) : Point :=
  let d := computeDistance currentPos waypoint in
  if brakingDistance + safetyMargin <? d then
    let ratio := (d - brakingDistance - safetyMargin) / d in
    mkPoint (lat waypoint + (lat currentPos - lat waypoint) * ratio)
            (lng waypoint + (lng currentPos - lng waypoint) * ratio)
  else waypoint.

(** The braking law, the statements from [if (distanceToVirtual < ...)] to
    [Math.max(minSpeed, desiredSpeed)], as a function of the variables they
    read. *)
Definition brakedSpeed (baseSpeed brakingDistance safetyMargin
    distanceToVirtual : R) : R :=
  let desiredSpeed :=
    if distanceToVirtual <? brakingDistance + safetyMargin
    then baseSpeed * (distanceToVirtual / (brakingDistance + safetyMargin))
    else baseSpeed in
  Rmax minSpeed desiredSpeed.

(** The value of [desiredSpeed] after the statements that compute it in the
    navigation branch; [d] is the local variable of that name, the distance
    from [currentPos] to [targetWaypoint]. *)
Definition desiredSpeedFor (baseSpeed d : R) (currentPos targetWaypoint : Point)
    : R :=
  if 10 <=? d then
    let maxDeceleration := 2 in
    let brakingDistance := baseSpeed ^ 2 / (2 * maxDeceleration) in
    let safetyMargin := 10 in
    let virtualTarget :=
      getVirtualTarget currentPos targetWaypoint brakingDistance safetyMargin in
    let distanceToVirtual := computeDistance currentPos virtualTarget in
    brakedSpeed baseSpeed brakingDistance safetyMargin distanceToVirtual
  else baseSpeed.

(** The statements shared, word for word, by the navigation branch and the
    landing branch: turn towards [targetWaypoint] at [targetSpeed] with the
    acceleration limit, then move by the velocity plus the wind.  The new
    longitude uses the latitude already updated. *)
Definition steer (dt targetSpeed : R) (targetWaypoint : Point) (s : State)
    : State :=
  let currentPos := position s in
  let desiredBearing :=
    atan2 (lat targetWaypoint - lat currentPos)
          (lng targetWaypoint - lng currentPos) in
  let desiredVx := cos desiredBearing * targetSpeed in
  let desiredVy := sin desiredBearing * targetSpeed in
  let ax := desiredVx - vx s in
  let ay := desiredVy - vy s in
  let aMag := sqrt (ax * ax + ay * ay) in
  let ax' := if maxAcceleration <? aMag then ax * (maxAcceleration / aMag) else ax in
  let ay' := if maxAcceleration <? aMag then ay * (maxAcceleration / aMag) else ay in
  let s := set_vx (vx s + ax' * dt) s in
  let s := set_vy (vy s + ay' * dt) s in
  let windSpeedMs := speed (wind s) / 3.6 in
  let windRad := direction (wind s) * PI / 180 in
  let windVx := cos windRad * windSpeedMs in
  let windVy := sin windRad * windSpeedMs in
  let totalVx := vx s + windVx in
  let totalVy := vy s + windVy in
  let newLat := lat (position s) + (totalVy * dt) / 111320 in
  let newLng :=
    lng (position s) + (totalVx * dt) / (111320 * cos (newLat * PI / 180)) in
  set_position (mkPoint newLat newLng) s.

(** The body of [if (d < 10)]: the waypoint is reached.  Returns the world
    with the new values of the locals [targetWaypoint] and [d].  [wp] is the
    route element just reached; it stands for [route[i]] only where the
    index [i] is known to be in range. *)
Definition waypointReached (wp : Waypoint) (targetWaypoint : Point) (d : R)
    (w : World) : World * Point * R :=
  let currentPos := position (state w) in
  let w := upd (fun s => set_waypointIndex (S (waypointIndex s)) s) w in
  let s := state w in
  if (List.length (route s) <=? waypointIndex s)%nat then
    if repeatMission s && (1 <? List.length (route s))%nat then
      let route' :=
        match homePosition s with
        | Some home => [Live; Fixed home]
        | None => [Live; nth 0 (route s) wp]
        end in
      let w := upd (fun s => set_waypointIndex 1 (set_route route' s)) w in
      (log "Repeating mission" w, targetWaypoint, d)
    else
      let w := upd (fun s => set_targetAltitude 0 (set_mode Landing s)) w in
      let w := log "Switching to landing mode" w in
      let targetWaypoint := resolve currentPos (last (route s) wp) in
      (w, targetWaypoint, computeDistance currentPos targetWaypoint)
  else
    let targetWaypoint :=
      resolve currentPos (nth (waypointIndex s) (route s) wp) in
    (w, targetWaypoint, computeDistance currentPos targetWaypoint).

(** The branch [state.mode !== "landing"] of the horizontal movement.
    [None]: [state.route[state.waypointIndex]] is [undefined] and
    [computeDistance] throws on reading its [lat]; nothing has been written
    by then. *)
Definition navigate (dt : R) (w : World) : option World :=
  let currentPos := position (state w) in
  match nth_error (route (state w)) (waypointIndex (state w)) with
  | None => None
  | Some wp =>
      let targetWaypoint := resolve currentPos wp in
      let d := computeDistance currentPos targetWaypoint in
      let '(w, targetWaypoint, d) :=
        if d <? 10 then waypointReached wp targetWaypoint d w
        else (w, targetWaypoint, d) in
      let baseSpeed := horizontalSpeed (state w) in
      let desired := desiredSpeedFor baseSpeed d currentPos targetWaypoint in
      let w := upd (set_desiredSpeed (Some desired)) w in
      Some (upd (steer dt desired targetWaypoint) w)
  end.

(** The branch of the "landing" mode: towards the last point of the route at
    the full [horizontalSpeed].  The route is not empty in this branch, so
    the default given to [last] is never read. *)
Definition landingApproach (dt : R) (w : World) : World :=
  let s := state w in
  let targetWaypoint := resolve (position s) (last (route s) Live) in
  upd (steer dt (horizontalSpeed s) targetWaypoint) w.

(** Horizontal movement. *)
Definition horizontalMovement (dt : R) (w : World) : option World :=
  let s := state w in
  if negb (hoverMode s) && flightStarted s && (0 <? List.length (route s))%nat
  then
    match mode s with
    | Landing => Some (landingApproach dt w)
    | _ => navigate dt w
    end
  else Some w.

(** The mode-dependent part of the vertical control. *)
Definition modeControl (w : World) : World :=
  match mode (state w) with
  | TakeOff =>
      let w :=
        if altitude (state w) <? 1
        then upd (fun s => set_targetAltitude (cruiseAltitude s) s) w
        else w in
      if cruiseAltitude (state w) * 0.95 <=? altitude (state w) then
        log "Switching to cruise mode"
          (set_altErrorIntegral 0 (upd (set_mode Cruise) w))
      else w
  | Landing =>
      let w := upd (set_targetAltitude 0) w in
      if altitude (state w) <=? 1 then
        if 8000 <? engineRPM (state w) then
          log "Drone crashed due to high engine RPM during landing"
            (upd (set_crashed true) w)
        else
          log "Drone landed, switching to onGround mode"
            (upd (fun s =>
                    set_flightStarted false
                      (set_mode OnGround
                         (set_verticalSpeed 0 (set_altitude 0 s)))) w)
      else w
  | _ => w
  end.

(** The altitude PID with the wind noise, the integration of the vertical
    speed and of the altitude, and the floor at the ground.  Returns the
    world and the local [verticalAccel].  [rnd 0] is the first
    [Math.random()] of the tick. *)
Definition verticalControl (dt : R) (rnd : nat -> R) (w : World) : World * R :=
  let s := state w in
  let altError := targetAltitude s - altitude s in
  let w := set_altErrorIntegral (altErrorIntegral w + altError * dt) w in
  let w :=
    set_altErrorIntegral
      (clamp (altErrorIntegral w) (- maxIntegral) maxIntegral) w in
  let altErrorDerivative := (altError - lastAltError w) / dt in
  let w := set_lastAltError altError w in
  let verticalAccel :=
    Kp_alt * altError + Ki_alt * altErrorIntegral w
    + Kd_alt * altErrorDerivative in
  let verticalDisturbance := (rnd 0%nat - 0.5) * 0.5 * (speed (wind s) / 10) in
  let verticalAccel := verticalAccel + verticalDisturbance in
  let verticalAccel := clamp verticalAccel (-3) 3 in
  let w :=
    upd (fun s => set_verticalSpeed (0.9 * verticalSpeed s + verticalAccel * dt) s)
      w in
  let w := upd (fun s => set_altitude (altitude s + verticalSpeed s * dt) s) w in
  let w :=
    if altitude (state w) <? 0
    then upd (fun s => set_verticalSpeed 0 (set_altitude 0 s)) w
    else w in
  (w, verticalAccel).

(** [expFactor] of the jam zone block, for a vehicle at distance [dJam]. *)
Definition expFactorOf (z : JamZone) (dJam : R) : R :=
  1.5 * exp ((radius z - dJam) / radius z) - 1.

(** The errors added to "all parameters" inside the zone, and the loss of
    GPS quality.  [rnd 1] to [rnd 7] are the seven [Math.random()] calls, in
    the order of the statements. *)
Definition jamErrors (rnd : nat -> R) (expFactor : R) (s : State) : State :=
  let s := set_vx (vx s + (rnd 1%nat - 0.5) * 1.0 * expFactor) s in
  let s := set_vy (vy s + (rnd 2%nat - 0.5) * 1.0 * expFactor) s in
  let s := set_verticalSpeed (verticalSpeed s + (rnd 3%nat - 0.5) * 1.0 * expFactor) s in
  let s := set_altitude (altitude s + (rnd 4%nat - 0.5) * 2.0 * expFactor) s in
  let s :=
    set_position
      (mkPoint (lat (position s) + (rnd 5%nat - 0.5) * 0.001 * expFactor)
               (lng (position s) + (rnd 6%nat - 0.5) * 0.001 * expFactor)) s in
  let s := set_engineRPM (engineRPM s + (rnd 7%nat - 0.5) * 100 * expFactor) s in
  set_gpsQuality (clamp (gpsQuality s - 0.1 * expFactor) 0.1 1) s.

(** The statements of [if (dJam < 0.1 * state.jamZone.radius)]. *)
Definition jamCrash (w : World) : World :=
  log "Drone crashed in jam zone center!"
    (upd (fun s =>
            set_verticalSpeed (-5)
              (set_vy 0 (set_vx 0 (set_flightStarted false (set_crashed true s)))))
       w).

(** The jam zone block, and the GPS quality outside of any zone. *)
Definition jamInterference (rnd : nat -> R) (w : World) : World :=
  match jamZone (state w) with
  | Some z =>
      let dJam := computeDistance (position (state w)) (center z) in
      if dJam <? radius z then
        let expFactor := expFactorOf z dJam in
        let w := if dJam <? 0.1 * radius z then jamCrash w else w in
        upd (jamErrors rnd expFactor) w
      else
        upd (fun s => set_gpsQuality (clamp (gpsQuality s + 0.005) 0 1) s) w
  | None =>
      upd (fun s =>
             set_gpsQuality
               (clamp (gpsQuality s + (rnd 1%nat - 0.5) * 0.001) 0.8 1) s) w
  end.

(** [totalLoad] of the engine and battery block. *)
Definition totalLoadOf (verticalAccel : R) (s : State) : R :=
  let horizontalAccel := sqrt (vx s * vx s + vy s * vy s) in
  Rabs verticalAccel + horizontalAccel.

(** Engine speed, battery level and temperature, and the two counters. *)
Definition powerAndCounters (dt : R) (prevPos : Point) (verticalAccel : R)
    (s : State) : State :=
  let totalLoad := totalLoadOf verticalAccel s in
  let desiredRPM := 2000 + 500 * totalLoad in
  let s := set_engineRPM (engineRPM s + (desiredRPM - engineRPM s) * 0.05) s in
  let dischargeRate := 0.01 * totalLoad in
  let s := set_batteryLevel (batteryLevel s - dischargeRate * dt) s in
  let s := if batteryLevel s <? 0 then set_batteryLevel 0 s else s in
  let s :=
    if 3000 <? engineRPM s
    then set_batteryTemperature (batteryTemperature s + 0.01 * dt * totalLoad) s
    else set_batteryTemperature (batteryTemperature s - 0.02 * dt) s in
  let s := set_batteryTemperature (clamp (batteryTemperature s) 30 60) s in
  let distIncrement := computeDistance prevPos (position s) in
  let s := set_totalDistance (totalDistance s + distIncrement) s in
  if flightStarted s then set_flightTime (flightTime s + dt) s else s.

(** The world after the statements that follow the horizontal movement, and
    the [verticalAccel] of that tick. *)
Definition afterJam (dt : R) (rnd : nat -> R) (w : World) : World * R :=
  let '(w, verticalAccel) := verticalControl dt rnd (modeControl w) in
  (jamInterference rnd w, verticalAccel).

(** [updateFlightPhysics(dt)].  [None] is the [TypeError] of [navigate]; the
    world is then as it was before the call. *)
Definition updateFlightPhysics (dt : R) (rnd : nat -> R) (w : World)
    : option World :=
  if crashed (state w) then Some w
  else
    let prevPos := position (state w) in
    match horizontalMovement dt w with
    | None => None
    | Some w =>
        let '(w, verticalAccel) := afterJam dt rnd w in
        Some (upd (powerAndCounters dt prevPos verticalAccel) w)
    end.

(** The world once a call [updateFlightPhysics(dt)] is over, whether it
    returned or threw. *)
Definition runPhysics (dt : R) (rnd : nat -> R) (w : World) : World :=
  match updateFlightPhysics dt rnd w with
  | Some w' => w'
  | None => w
  end.

(** The tick as the interval timer runs it: [updateFlightPhysics(0.1)]; an
    exception ends that run of the callback. *)
Definition tick (rnd : nat -> R) (w : World) : World := runPhysics 0.1 rnd w.

(** ** The commands: [window.FlightEmulation] *)

(** Every command returns [undefined]: what its caller and the operator can
    observe of it is the world it leaves, alert boxes and logs included. *)

(** [startFlight()].  The length test reads the route before it is
    filtered.  [state.position = { ...state.route[0] }] makes a new position
    object: an element of the route that was the old one keeps the old
    coordinates from then on ([freeze]). *)
Definition startFlight (w : World) : World :=
  if (List.length (route (state w)) <? 2)%nat then w
  else
    let w :=
      upd (fun s => set_route (filterRoute (resolve (position s)) (route s)) s)
        w in
    let w :=
      if negb (flightStarted (state w)) then
        upd (fun s =>
               let old := position s in
               let first := resolve old (nth 0 (route s) Live) in
               let s := set_route (map (freeze old) (route s)) (set_position first s) in
               let s := set_vx 0 s in
               let s := set_vy 0 s in
               let s := set_waypointIndex 1 s in
               let s := set_flightTime 0 s in
               let s := set_totalDistance 0 s in
               let s :=
                 match homePosition s with
                 | None => set_homePosition (Some first) s
                 | Some _ => s
                 end in
               let s := set_mode TakeOff s in
               set_crashed false s) w
      else w in
    let w := set_altErrorIntegral 0 w in
    let w :=
      set_lastAltError (targetAltitude (state w) - altitude (state w)) w in
    let w := upd (fun s => set_hoverMode false (set_flightStarted true s)) w in
    log "Flight started, mode:" w.

Definition stopFlight (w : World) : World :=
  log "Flight stopped"
    (upd (fun s => set_waypointIndex 0 (set_route [] (set_flightStarted false s)))
       w).

(** [setRoute(route)]: the caller's points are objects of its own. *)
Definition setRoute (r : list Point) (w : World) : World :=
  log "Route set:"
    (upd (fun s =>
            set_waypointIndex 0
              (set_route (map Fixed (filterRoute (fun p => p) r)) s)) w).

Definition setHome (w : World) : World :=
  log "Home set:" (upd (fun s => set_homePosition (Some (position s)) s) w).

Definition takeOff (w : World) : World :=
  if flightStarted (state w) then alert "Drone already in flight" w
  else
    let w := upd (set_altitude 0) w in
    let w := upd (fun s => set_targetAltitude 100 (set_cruiseAltitude 100 s)) w in
    let w := upd (set_mode TakeOff) w in
    let w := upd (set_flightStarted true) w in
    let w := upd (set_hoverMode false) w in
    let w := set_altErrorIntegral 0 w in
    let w :=
      set_lastAltError (targetAltitude (state w) - altitude (state w)) w in
    log "Take Off initiated, mode:" w.

Definition land (w : World) : World :=
  if negb (flightStarted (state w)) then alert "Drone is not in flight" w
  else
    log "Landing initiated, mode:"
      (upd (fun s => set_hoverMode false (set_targetAltitude 0 (set_mode Landing s)))
         w).

Definition hover (w : World) : World :=
  if negb (flightStarted (state w)) then w
  else log "Hover mode activated" (upd (set_hoverMode true) w).

(** The argument of [updateParameters]: each field is absent ([None]) or the
    text of a slider, given here by the number that [parseFloat] or
    [parseInt] reads from it. *)
Record Parameters : Type := mkParameters {
  param_speed : option R;
  param_time_multiplier : option R;
  param_fullFlightTime : option Z;
  param_altStability : option R
}.

Definition updateParameters (params : Parameters) (w : World) : World :=
  let w :=
    match param_speed params with
    | Some v => upd (set_horizontalSpeed (v / 3.6)) w
    | None => w
    end in
  let w :=
    match param_time_multiplier params with
    | Some v => upd (set_timeMultiplier v) w
    | None => w
    end in
  let w :=
    match param_fullFlightTime params with
    | Some v => upd (set_fullFlightTime v) w
    | None => w
    end in
  let w :=
    match param_altStability params with
    | Some v => upd (set_altStability v) w
    | None => w
    end in
  log "Updated parameters:" w.

(** [updateWind(params)], with the two numbers that [parseFloat] reads. *)
Definition updateWind (windSpeed windDirection : R) (w : World) : World :=
  log "Updated wind:" (upd (set_wind (mkWind windSpeed windDirection)) w).

Definition setJamZone (jamZoneInfo : JamZone) (w : World) : World :=
  log "Jam zone set:" (upd (set_jamZone (Some jamZoneInfo)) w).

Definition clearJamZone (w : World) : World :=
  log "Jam zone cleared" (upd (set_jamZone None) w).

Definition setRepeat (val : bool) (w : World) : World :=
  log "Repeat Mission set to:" (upd (set_repeatMission val) w).

(** ** The handlers of the page ([ui.js]) that write to the state *)

(** The values of the four sliders of the flight parameters panel. *)
Record Sliders : Type := mkSliders {
  speedSlider : R;
  multiplierSlider : R;
  fullFlightTimeSlider : Z;
  altStabilitySlider : R
}.

(** The sliders as the page loads them. *)
Definition defaultSliders : Sliders := mkSliders 50 10 30 1.

(** [resetBtn.onclick].  The statements on the map and its markers are left
    out: they do not touch the state. *)
Definition reset (sl : Sliders) (w : World) : World :=
  let w := stopFlight w in
  let w := upd (set_position (mkPoint 35.6895 139.6917)) w in
  let w := upd (set_altitude 0) w in
  let w := upd (set_targetAltitude 0) w in
  let w := upd (set_verticalSpeed 0) w in
  let w := upd (set_homePosition None) w in
  let w := upd (set_flightStarted false) w in
  let w := upd (set_route []) w in
  let w := upd (set_waypointIndex 0) w in
  let w := upd (set_horizontalSpeed (speedSlider sl / 3.6)) w in
  let w := upd (set_timeMultiplier (multiplierSlider sl)) w in
  let w := upd (set_fullFlightTime (fullFlightTimeSlider sl)) w in
  let w := upd (set_altStability (altStabilitySlider sl)) w in
  let w := upd (set_hoverMode false) w in
  let w := upd (set_crashed false) w in
  logCommand "Flight Control: Reset pressed" w.

(** [startFlight.onclick]; [uiRoute] is the page's own list of clicked
    waypoints. *)
Definition startFlightPressed (uiRoute : list Point) (w : World) : World :=
  if (List.length uiRoute <? 2)%nat
  then alert "Please set at least 2 waypoints for the route" w
  else
    logCommand "Flight Control: Start Flight pressed"
      (startFlight (setRoute uiRoute w)).

(** The manual control panel.  Each button moves [state.position] in place
    or changes the target altitude. *)
Definition north (w : World) : World :=
  logCommand "Manual Control: North pressed"
    (upd (fun s =>
            set_position (mkPoint (lat (position s) + 0.0001) (lng (position s))) s)
       w).

Definition south (w : World) : World :=
  logCommand "Manual Control: South pressed"
    (upd (fun s =>
            set_position (mkPoint (lat (position s) - 0.0001) (lng (position s))) s)
       w).

Definition east (w : World) : World :=
  logCommand "Manual Control: East pressed"
    (upd (fun s =>
            set_position (mkPoint (lat (position s)) (lng (position s) + 0.0001)) s)
       w).

Definition west (w : World) : World :=
  logCommand "Manual Control: West pressed"
    (upd (fun s =>
            set_position (mkPoint (lat (position s)) (lng (position s) - 0.0001)) s)
       w).

Definition altUp (w : World) : World :=
  logCommand "Manual Control: Increase Altitude pressed"
    (upd (fun s => set_targetAltitude (targetAltitude s + 5) s) w).

Definition altDown (w : World) : World :=
  logCommand "Manual Control: Decrease Altitude pressed"
    (upd (fun s => set_targetAltitude (Rmax 0 (targetAltitude s - 5)) s) w).

(** [returnHome.onclick], as far as the state and the logs go (the markers
    and lines of the map are left out). *)
Definition returnHomePressed (w : World) : World :=
  match homePosition (state w) with
  | None => alert "Please set Home first" w
  | Some home =>
      let currentPos := position (state w) in
      logCommand "Flight Control: Return Home pressed"
        (startFlight (setRoute [currentPos; home] w))
  end.

(** [updateDroneData]: the status line of the page. *)
Definition dataStatus (s : State) : string :=
  if Req_dec_T (altitude s) 0 then
    if negb (flightStarted s) then
      (if crashed s then "CRASHED" else "LANDED")
    else "FLYING"
  else "FLYING".

(** ** The telemetry callback

    The locals that the interval callback computes from the state after the
    tick, before [toFixed] turns them into text. *)

(** [x % y] on numbers: the remainder of the division truncated towards
    zero. *)
Definition truncate (x : R) : Z :=
  if 0 <=? x then Int_part x else (- Int_part (- x))%Z.

Definition jsRem (x y : R) : R := x - y * IZR (truncate (x / y)).



Definition course (s : State) : R :=
  jsRem (atan2 (vx s) (vy s) * 180 / PI + 360) 360.

Definition gpsLevel (s : State) : nat :=
  if 0.8 <? gpsQuality s then 3%nat
  else if 0.5 <? gpsQuality s then 2%nat else 1%nat.

Definition satelliteCount (s : State) : nat :=
  if 0.8 <? gpsQuality s then 10%nat
  else if 0.5 <? gpsQuality s then 6%nat else 2%nat.

Definition isGPSBeingUsed (s : State) : nat :=
  if 0.5 <? gpsQuality s then 1%nat else 0%nat.

Definition gpsSignal (s : State) : string :=
  if 0.8 <? gpsQuality s then "Good"
  else if 0.5 <? gpsQuality s then "Fair" else "Poor".

Definition batteryVoltage (s : State) : R :=
  12.6 - (100 - batteryLevel s) * 0.015.

Definition batteryCurrent (s : State) : R :=
  5 + sqrt (vx s * vx s + vy s * vy s).

(** ** Commands and runs *)

Inductive Command : Type :=
| SetRoute (r : list Point)
| StartFlight
| StopFlight
| SetHome
| TakeOffCmd
| Land
| Hover
| UpdateParameters (params : Parameters)
| UpdateWind (windSpeed windDirection : R)
| SetJamZone (jamZoneInfo : JamZone)
| ClearJamZone
| SetRepeat (val : bool)
| Reset (sl : Sliders)
| North | South | East | West | AltUp | AltDown.

Definition exec (c : Command) (w : World) : World :=
  match c with
  | SetRoute r => setRoute r w
  | StartFlight => startFlight w
  | StopFlight => stopFlight w
  | SetHome => setHome w
  | TakeOffCmd => takeOff w
  | Land => land w
  | Hover => hover w
  | UpdateParameters params => updateParameters params w
  | UpdateWind windSpeed windDirection => updateWind windSpeed windDirection w
  | SetJamZone jamZoneInfo => setJamZone jamZoneInfo w
  | ClearJamZone => clearJamZone w
  | SetRepeat val => setRepeat val w
  | Reset sl => reset sl w
  | North => north w
  | South => south w
  | East => east w
  | West => west w
  | AltUp => altUp w
  | AltDown => altDown w
  end.

(** What happens between two observations of the state: a command, or one
    run of the interval timer with the random numbers it draws. *)
Inductive Event : Type :=
| Cmd (c : Command)
| Tick (rnd : nat -> R).

Definition step (w : World) (e : Event) : World :=
  match e with
  | Cmd c => exec c w
  | Tick rnd => tick rnd w
  end.

(** The world after a finite sequence of events, from the initial one. *)
Definition run (events : list Event) : World :=
  fold_left step events initialWorld.

(** [Math.random()] returns a number of [0, 1). *)
Definition unitInterval (rnd : nat -> R) : Prop :=
  forall k : nat, 0 <= rnd k < 1.

(** ** Quantities named in the statements *)

(** The vertical speed and the altitude that the integration produces,
    before the floor at the ground. *)
Definition integratedSpeed (dt verticalAccel : R) (s : State) : R :=
  0.9 * verticalSpeed s + verticalAccel * dt.

Definition integratedAltitude (dt verticalAccel : R) (s : State) : R :=
  altitude s + integratedSpeed dt verticalAccel s * dt.

(** The [totalLoad] that a call [updateFlightPhysics(dt)] computes from the
    world [w] it starts in (0 when the call throws before it gets there). *)
Definition tickLoad (dt : R) (rnd : nat -> R) (w : World) : R :=
  match horizontalMovement dt w with
  | Some w1 =>
      totalLoadOf (snd (afterJam dt rnd w1)) (state (fst (afterJam dt rnd w1)))
  | None => 0
  end.

(** The world with the fields erased that the tick writes for the
    telemetry and the page to show (battery level and temperature, GPS
    quality, the two counters, the desired speed) or that only the sliders
    write (time multiplier, full flight time, altitude stability). *)
Definition flightView (w : World) : World :=
  upd (fun s =>
         set_desiredSpeed None
           (set_gpsQuality 0
              (set_totalDistance 0
                 (set_flightTime 0
                    (set_batteryTemperature 0
                       (set_batteryLevel 0
                          (set_altStability 0
                             (set_fullFlightTime 0
                                (set_timeMultiplier 0 s))))))))) w.

(** A vehicle at rest: not crashed, not navigating (on the ground, hovering
    or without a route), in the ground or cruise mode, with no jam zone and
    no wind, not moving, at its target altitude, the controller's memory
    empty. *)
Definition atRest (w : World) : Prop :=
  crashed (state w) = false
  /\ (flightStarted (state w) = false \/ hoverMode (state w) = true
      \/ route (state w) = [])
  /\ (mode (state w) = OnGround \/ mode (state w) = Cruise)
  /\ jamZone (state w) = None
  /\ speed (wind (state w)) = 0
  /\ vx (state w) = 0 /\ vy (state w) = 0
  /\ verticalSpeed (state w) = 0
  /\ targetAltitude (state w) = altitude (state w)
  /\ 0 <= altitude (state w)
  /\ altErrorIntegral w = 0 /\ lastAltError w = 0.

(** ** Sample inputs *)

(** In the air after a take-off, and the same with the battery empty. *)
Definition airborne : World := takeOff initialWorld.
Definition airborneBatteryEmpty : World := upd (set_batteryLevel 0) airborne.

(** The point the page centres its map on, and a point 0.001 degree (about
    111 m) north of it on the same meridian. *)
Definition tokyo : Point := mkPoint 35.6895 139.6917.
Definition tokyoNorth : Point := mkPoint 35.6905 139.6917.

(** On the ground, with a route of two waypoints already stored. *)
Definition groundedWithRoute : World :=
  upd (set_route [Fixed tokyo; Fixed tokyoNorth]) initialWorld.

Definition tokyoFar : Point := mkPoint 36.6895 139.6917.

(** Random draws that are all 0, and all 0.5. *)
Definition rndZero : nat -> R := fun _ => 0.
Definition rndHalf : nat -> R := fun _ => 0.5.

(** A jam zone of radius 100 m drawn around the point where the vehicle
    stands when the page is loaded; the world once that zone is set; and the
    world one tick later. *)
Definition jamAtLaunch : JamZone := mkJamZone (mkPoint 55.7522 37.6156) 100.

Definition jammedOnGround : World := run [Cmd (SetJamZone jamAtLaunch)].

Definition crashedAtLaunch : World :=
  run [Cmd (SetJamZone jamAtLaunch); Tick rndZero].

(** A zone of radius 200 m whose centre lies 0.001 degree (about 111 m)
    north of that point, on its meridian: the vehicle stands in the zone,
    outside of its innermost tenth. *)
Definition jamNorthOfLaunch : JamZone := mkJamZone (mkPoint 55.7532 37.6156) 200.

Definition jammedInRing : World := run [Cmd (SetJamZone jamNorthOfLaunch)].

(** The crashed vehicle of [crashedAtLaunch], given a route of two waypoints. *)
Definition crashedWithRoute : World :=
  exec (SetRoute [tokyo; tokyoNorth]) crashedAtLaunch.

(** Home set where the vehicle stands, and the vehicle then nudged north. *)
Definition homeSetThenNorth : World := run [Cmd SetHome; Cmd North].

(** A take-off, a wind, a jam zone and the repeat flag, all set by
    commands. *)
Definition busyWorld : World :=
  run [Cmd TakeOffCmd; Cmd (UpdateWind 10 90); Cmd (SetJamZone jamAtLaunch);
       Cmd (SetRepeat true)].

(** In flight with the repeat flag set, standing on the second and last
    waypoint of its route. *)
Definition arrivingAtLast : World :=
  upd (fun s =>
         set_repeatMission true
           (set_flightStarted true
              (set_waypointIndex 1 (set_position tokyoNorth s))))
    groundedWithRoute.

(** Back on the ground after a flight along its two waypoints: the index
    is past the end of the route, which is still stored. *)
Definition missionComplete : World :=
  upd (set_waypointIndex 2) groundedWithRoute.

(** [expFactor] at the very centre of a zone. *)
Definition centreFactor : R := 1.5 * exp 1 - 1.

(** [expFactor] for the vehicle of [jammedInRing]: the arc of 0.001 degree
    of meridian that separates it from the centre measures
    6371000 x 0.001 x PI / 180 metres. *)
Definition ringFactor : R :=
  expFactorOf jamNorthOfLaunch (6371000 * (0.001 * PI / 180)).

(** * Properties *)

(** ** Boolean comparisons *)

Lemma Rltb_true (x y : R) : x < y -> (x <? y) = true.
Proof. intros H. unfold Rltb. destruct (Rlt_dec x y); [reflexivity | contradiction]. Qed.

Lemma Rltb_false (x y : R) : y <= x -> (x <? y) = false.
Proof. intros H. unfold Rltb. destruct (Rlt_dec x y); [lra | reflexivity]. Qed.

Lemma Rleb_true (x y : R) : x <= y -> (x <=? y) = true.
Proof. intros H. unfold Rleb. destruct (Rle_dec x y); [reflexivity | contradiction]. Qed.


Lemma Rltb_spec (x y : R) : reflect (x < y) (x <? y).
Proof. unfold Rltb. destruct (Rlt_dec x y); constructor; assumption. Qed.

Lemma Rleb_spec (x y : R) : reflect (x <= y) (x <=? y).
Proof. unfold Rleb. destruct (Rle_dec x y); constructor; assumption. Qed.

Lemma clamp_bounds (v lo hi : R) : lo <= hi -> lo <= clamp v lo hi <= hi.
Proof.
  intros H. unfold clamp. split.
  - apply Rmax_l.
  - apply Rmax_lub; [assumption | apply Rmin_l].
Qed.

(** ** Geodesy *)

Lemma atan2_nonneg (y x : R) : 0 <= y -> 0 <= atan2 y x.
Proof.
  intros Hy. unfold atan2.
  destruct (Rltb_spec 0 x) as [Hx | Hx].
  - destruct (Req_dec y 0) as [-> | Hne].
    + unfold Rdiv. rewrite Rmult_0_l, atan_0. lra.
    + left. rewrite <- atan_0. apply atan_increasing.
      apply Rdiv_lt_0_compat; lra.
  - destruct (Rltb_spec x 0) as [Hx' | Hx'].
    + rewrite Rleb_true by assumption.
      pose proof (atan_bound (y / x)) as [Hlo _].
      pose proof PI_RGT_0. lra.
    + destruct (Rltb_spec 0 y).
      * pose proof PI_RGT_0. lra.
      * destruct (Rltb_spec y 0); lra.
Qed.

Lemma computeDistance_nonneg (a b : Point) : 0 <= computeDistance a b.
Proof.
  unfold computeDistance.
  apply Rmult_le_pos; [lra |].
  apply atan2_nonneg, sqrt_pos.
Qed.

Lemma atan2_0_1 : atan2 0 1 = 0.
Proof.
  unfold atan2. rewrite Rltb_true by lra.
  unfold Rdiv. rewrite Rmult_0_l. apply atan_0.
Qed.

Lemma computeDistance_same (p : Point) : computeDistance p p = 0.
Proof.
  unfold computeDistance.
  replace ((lat p - lat p) * PI / 180 / 2) with 0 by lra.
  replace ((lng p - lng p) * PI / 180 / 2) with 0 by lra.
  rewrite sin_0.
  replace (0 ^ 2 + cos (lat p * PI / 180) * cos (lat p * PI / 180) * 0 ^ 2)
    with 0 by (simpl; ring).
  rewrite Rminus_0_r, sqrt_0, sqrt_1, atan2_0_1. ring.
Qed.

Lemma sin_half_sq_sym (u v : R) :
  sin ((u - v) * PI / 180 / 2) ^ 2 = sin ((v - u) * PI / 180 / 2) ^ 2.
Proof.
  replace ((u - v) * PI / 180 / 2) with (- ((v - u) * PI / 180 / 2)) by lra.
  rewrite sin_neg. simpl. ring.
Qed.

Lemma computeDistance_sym (a b : Point) :
  computeDistance a b = computeDistance b a.
Proof.
  unfold computeDistance.
  rewrite (sin_half_sq_sym (lat b) (lat a)), (sin_half_sq_sym (lng b) (lng a)).
  rewrite (Rmult_comm (cos (lat a * PI / 180)) (cos (lat b * PI / 180))).
  reflexivity.
Qed.

(** The haversine angle of an arc [t] of a meridian is [t] itself. *)
Lemma atan2_sin_cos (t : R) :
  0 <= t < PI / 2 -> atan2 (sqrt (sin t ^ 2)) (sqrt (1 - sin t ^ 2)) = t.
Proof.
  intros [H0 H1].
  assert (Hc : 0 < cos t) by (apply cos_gt_0; lra).
  assert (Hs : 0 <= sin t) by (apply sin_ge_0; lra).
  replace (1 - sin t ^ 2) with (cos t ^ 2)
    by (pose proof (sin2_cos2 t) as E; unfold Rsqr in E; simpl; lra).
  rewrite !sqrt_pow2 by lra.
  unfold atan2. rewrite Rltb_true by assumption.
  change (sin t / cos t) with (tan t).
  apply atan_tan. lra.
Qed.

Lemma sin_sq_abs (x : R) : sin x ^ 2 = sin (Rabs x) ^ 2.
Proof.
  unfold Rabs. destruct (Rcase_abs x); [| reflexivity].
  rewrite sin_neg. simpl. ring.
Qed.

(** Along a meridian the distance is the arc length. *)
Lemma computeDistance_meridian (a b : Point) :
  lng a = lng b -> Rabs (lat b - lat a) < 180 ->
  computeDistance a b = 6371000 * (Rabs (lat b - lat a) * PI / 180).
Proof.
  intros Hl Hd. unfold computeDistance.
  rewrite Hl.
  replace ((lng b - lng b) * PI / 180 / 2) with 0 by lra.
  rewrite sin_0.
  set (x := (lat b - lat a) * PI / 180 / 2).
  replace (sin x ^ 2 + cos (lat a * PI / 180) * cos (lat b * PI / 180) * 0 ^ 2)
    with (sin x ^ 2) by (simpl; ring).
  rewrite (sin_sq_abs x).
  assert (Hx : Rabs x = Rabs (lat b - lat a) * PI / 180 / 2).
  { unfold x. unfold Rdiv. rewrite !Rabs_mult.
    pose proof PI_RGT_0.
    rewrite (Rabs_pos_eq PI), (Rabs_pos_eq (/ 180)), (Rabs_pos_eq (/ 2)) by lra.
    reflexivity. }
  rewrite atan2_sin_cos.
  - rewrite Hx. lra.
  - split; [apply Rabs_pos |].
    rewrite Hx. pose proof PI_RGT_0. pose proof (Rabs_pos (lat b - lat a)).
    apply Rmult_lt_reg_r with (r := 2); [lra |].
    replace (Rabs (lat b - lat a) * PI / 180 / 2 * 2)
      with (Rabs (lat b - lat a) * (PI / 180)) by lra.
    replace (PI / 2 * 2) with (180 * (PI / 180)) by lra.
    apply Rmult_lt_compat_r; lra.
Qed.

(** ** Route filtering *)

Section FilterRouteFacts.

Context {A : Type} (coords : A -> Point).

Lemma keeps_nil (pt : A) : keeps coords [] pt = true.
Proof. reflexivity. Qed.

Lemma keeps_cons (a : A) (l : list A) (pt : A) :
  keeps coords (a :: l) pt
  = (5 <? computeDistance (coords pt) (coords (last (a :: l) pt))).
Proof. reflexivity. Qed.

Lemma spaced_snoc (l : list A) (x : A) :
  spaced coords l -> (l <> [] -> 5 < computeDistance (coords x) (coords (last l x))) ->
  spaced coords (l ++ [x]).
Proof.
  induction l as [| a [| b tl] IH]; intros Hs Hx.
  - exact I.
  - simpl. split; [apply Hx; discriminate | exact I].
  - destruct Hs as [Hab Htl].
    change ((a :: b :: tl) ++ [x]) with (a :: b :: (tl ++ [x])).
    split; [exact Hab |].
    apply IH; [exact Htl |].
    intros _. apply Hx. discriminate.
Qed.

Lemma spaced_middle (l : list A) (x : A) (r : list A) :
  spaced coords (l ++ x :: r) -> l <> [] -> 5 < computeDistance (coords x) (coords (last l x)).
Proof.
  induction l as [| a [| b tl] IH]; intros Hs Hne.
  - contradiction.
  - destruct Hs as [Hax _]. exact Hax.
  - destruct Hs as [_ Htl].
    change (last (a :: b :: tl) x) with (last (b :: tl) x).
    apply IH; [exact Htl | discriminate].
Qed.

Lemma spaced_nth (l : list A) (i : nat) (a b : A) :
  spaced coords l ->
  nth_error l i = Some a -> nth_error l (S i) = Some b -> 5 < computeDistance (coords b) (coords a).
Proof.
  revert i. induction l as [| x [| y tl] IH]; intros i Hs Ha Hb.
  - destruct i; discriminate.
  - destruct i as [| [| i]]; discriminate.
  - destruct Hs as [Hyx Htl].
    destruct i as [| i].
    + injection Ha as <-. injection Hb as <-. exact Hyx.
    + apply (IH i Htl Ha Hb).
Qed.

(** The loop keeps what it has and keeps it spaced. *)
Lemma fold_filterStep_spaced (route acc : list A) :
  spaced coords acc -> spaced coords (fold_left (filterStep coords) route acc).
Proof.
  revert acc. induction route as [| pt rest IH]; intros acc Hs.
  - exact Hs.
  - simpl. apply IH. unfold filterStep.
    destruct (keeps coords acc pt) eqn:Hk; [| exact Hs].
    apply spaced_snoc; [exact Hs |].
    intros Hne. destruct acc as [| a l]; [contradiction |].
    rewrite keeps_cons in Hk.
    destruct (Rltb_spec 5 (computeDistance (coords pt) (coords (last (a :: l) pt))));
      [assumption | discriminate].
Qed.

(** On an input that is already spaced the loop pushes every point. *)
Lemma fold_filterStep_fixed (route acc : list A) :
  spaced coords (acc ++ route) ->
  fold_left (filterStep coords) route acc = acc ++ route.
Proof.
  revert acc. induction route as [| pt rest IH]; intros acc Hs.
  - symmetry. apply app_nil_r.
  - simpl. unfold filterStep at 2.
    assert (Hk : keeps coords acc pt = true).
    { destruct acc as [| a l]; [reflexivity |].
      rewrite keeps_cons. apply Rltb_true.
      apply (spaced_middle (a :: l) pt rest Hs). discriminate. }
    rewrite Hk.
    rewrite IH; rewrite <- app_assoc; [reflexivity | exact Hs].
Qed.

(** The loop only appends, and what it appends is taken from the input in
    the input's order. *)
Lemma fold_filterStep_extends (route acc : list A) :
  exists tl : list A,
    fold_left (filterStep coords) route acc = acc ++ tl /\ sublist tl route.
Proof.
  revert acc. induction route as [| pt rest IH]; intros acc.
  - exists []. split; [symmetry; apply app_nil_r | constructor].
  - simpl. unfold filterStep at 2.
    destruct (keeps coords acc pt).
    + destruct (IH (acc ++ [pt])) as [tl [E S]].
      exists (pt :: tl). split.
      * rewrite E, <- app_assoc. reflexivity.
      * apply list_relations.list.sublist_skip. exact S.
    + destruct (IH acc) as [tl [E S]].
      exists tl. split; [exact E |].
      apply list_relations.list.sublist_cons. exact S.
Qed.

Lemma filterRoute_spaced (route : list A) :
  spaced coords (filterRoute coords route).
Proof. apply fold_filterStep_spaced. exact I. Qed.

Lemma filterRoute_fixed (route : list A) :
  spaced coords route -> filterRoute coords route = route.
Proof. intros Hs. apply (fold_filterStep_fixed route []). exact Hs. Qed.

Lemma filterRoute_cons (first : A) (rest : list A) :
  exists tl : list A,
    filterRoute coords (first :: rest) = first :: tl /\ sublist tl rest.
Proof.
  unfold filterRoute. simpl. unfold filterStep at 2.
  rewrite keeps_nil. apply (fold_filterStep_extends rest [first]).
Qed.

Lemma filterRoute_length (route : list A) :
  (List.length (filterRoute coords route) <= List.length route)%nat.
Proof.
  destruct (fold_filterStep_extends route []) as [tl [E S]].
  unfold filterRoute. rewrite E. simpl.
  clear E. induction S; simpl; lia.
Qed.

End FilterRouteFacts.

Lemma PI_gt_3 : 3 < PI.
Proof. pose proof PI2_3_2. lra. Qed.

Lemma tokyoNorth_distance :
  computeDistance tokyoNorth tokyo = 6371000 * (0.001 * PI / 180).
Proof.
  assert (E : Rabs (lat tokyo - lat tokyoNorth) = 0.001).
  { simpl. rewrite Rabs_left1 by lra. lra. }
  rewrite computeDistance_meridian.
  - rewrite E. reflexivity.
  - reflexivity.
  - rewrite E. lra.
Qed.

Lemma tokyoNorth_far : 5 < computeDistance tokyoNorth tokyo.
Proof. rewrite tokyoNorth_distance. pose proof PI_gt_3. lra. Qed.

(** Two clicks on one point and a third one farther north: the repeated
    point is dropped. *)
Lemma filterRoute_sample :
  filterRoute (fun p => p) [tokyo; tokyo; tokyoNorth] = [tokyo; tokyoNorth].
Proof.
  unfold filterRoute. simpl. unfold filterStep, keeps. simpl.
  rewrite computeDistance_same, (Rltb_false 5 0) by lra. simpl.
  rewrite (Rltb_true _ _ tokyoNorth_far). reflexivity.
Qed.

(** C4. Whatever the input, two neighbours of the filtered route are more
    than 5 m apart (haversine distance, in either order of the two points),
    and filtering a filtered route gives it back unchanged. *)
Theorem filterRoute_spacing_idempotent :
  forall (A : Type) (coords : A -> Point) (route : list A),
    (forall (i : nat) (a b : A),
        nth_error (filterRoute coords route) i = Some a ->
        nth_error (filterRoute coords route) (S i) = Some b ->
        5 < computeDistance (coords a) (coords b)
        /\ 5 < computeDistance (coords b) (coords a))
    /\ filterRoute coords (filterRoute coords route) = filterRoute coords route.
Proof.
  intros A coords route. split.
  - intros i a b Ha Hb.
    pose proof (spaced_nth coords _ i a b (filterRoute_spaced coords route) Ha Hb)
      as Hfar.
    split; [rewrite computeDistance_sym |]; exact Hfar.
  - apply filterRoute_fixed, filterRoute_spaced.
Qed.

Lemma filterRoute_spacing_idempotent_witness :
  (5 < computeDistance tokyo tokyoNorth
   /\ 5 < computeDistance tokyoNorth tokyo)
  /\ filterRoute (fun p => p) (filterRoute (fun p => p) [tokyo; tokyo; tokyoNorth])
     = filterRoute (fun p => p) [tokyo; tokyo; tokyoNorth].
Proof.
  destruct (filterRoute_spacing_idempotent Point (fun p => p)
              [tokyo; tokyo; tokyoNorth]) as [Hspace Hidem].
  split; [| exact Hidem].
  apply (Hspace 0%nat tokyo tokyoNorth);
    rewrite filterRoute_sample; reflexivity.
Defined.

(** ** The start command *)

Lemma startFlight_rejected (w : World) :
  (List.length (route (state w)) < 2)%nat -> startFlight w = w.
Proof.
  intros H. unfold startFlight.
  destruct (Nat.ltb_spec (List.length (route (state w))) 2); [reflexivity | lia].
Qed.

(** The state after an accepted start from the ground (flight-active flag
    cleared): the fields written by the launch branch. *)
Lemma startFlight_launch (w : World) (first : Waypoint) (rest : list Waypoint) :
  route (state w) = first :: rest -> rest <> [] ->
  flightStarted (state w) = false ->
  let origin := resolve (position (state w)) first in
  position (state (startFlight w)) = origin
  /\ homePosition (state (startFlight w))
     = Some (match homePosition (state w) with
             | Some home => home
             | None => origin
             end)
  /\ crashed (state (startFlight w)) = false
  /\ mode (state (startFlight w)) = TakeOff
  /\ flightStarted (state (startFlight w)) = true.
Proof.
  intros Hr Hne Hfs origin. unfold startFlight.
  rewrite Hr. destruct rest as [| second rest]; [contradiction |].
  change (List.length (first :: second :: rest) <? 2)%nat with false.
  cbv iota. 
  destruct (filterRoute_cons (resolve (position (state w))) first (second :: rest))
    as [tl [E _]].
  cbn -[filterRoute]. rewrite Hfs. cbn -[filterRoute]. rewrite Hr, E.
  cbn -[filterRoute].
  destruct (homePosition (state w)) as [home |] eqn:Hh; cbn; rewrite ?Hh;
    repeat split; reflexivity.
Qed.



(** ** What each part of the tick writes *)

(** Case analysis on the tests a definition makes. *)
Ltac split_tests :=
  repeat (cbn;
          match goal with
          | |- context [if ?c then _ else _] => destruct c eqn:?
          | |- context [match ?x with _ => _ end] => destruct x eqn:?
          end).

(** Unfolding of the writes to the world, down to its fields. *)
Ltac writes :=
  cbv beta iota delta
    [
      log alert logCommand upd set_altErrorIntegral set_lastAltError
      state altErrorIntegral lastAltError alerts console commandLog
      set_position set_altitude set_targetAltitude set_verticalSpeed
      set_homePosition set_flightStarted set_route set_waypointIndex
      set_vx set_vy set_horizontalSpeed set_timeMultiplier
      set_fullFlightTime set_altStability set_hoverMode
      set_repeatMission set_wind set_engineRPM set_batteryLevel
      set_batteryTemperature set_flightTime set_totalDistance set_mode
      set_cruiseAltitude set_jamZone set_gpsQuality set_crashed
      set_desiredSpeed position altitude targetAltitude verticalSpeed
      homePosition flightStarted route waypointIndex vx vy
      horizontalSpeed timeMultiplier fullFlightTime altStability
      hoverMode repeatMission wind engineRPM batteryLevel
      batteryTemperature flightTime totalDistance mode cruiseAltitude
      jamZone gpsQuality crashed desiredSpeed fst snd ].

Lemma Some_inj {T : Type} (x y : T) : Some x = Some y -> x = y.
Proof. congruence. Qed.

Lemma state_upd (f : State -> State) (w : World) :
  state (upd f w) = f (state w).
Proof. reflexivity. Qed.

Lemma steer_writes (dt targetSpeed : R) (target : Point) (s : State) :
  exists (vx' vy' : R) (pos' : Point),
    steer dt targetSpeed target s = set_position pos' (set_vy vy' (set_vx vx' s)).
Proof. unfold steer. cbn. do 3 eexists. reflexivity. Qed.

Lemma waypointReached_writes (wp : Waypoint) (target : Point) (d : R)
    (w : World) :
  exists (idx : nat) (rt : list Waypoint) (md : Mode) (ta : R)
         (con : list string),
    fst (fst (waypointReached wp target d w))
    = mkWorld
        (set_targetAltitude ta
           (set_mode md (set_route rt (set_waypointIndex idx (state w)))))
        (altErrorIntegral w) (lastAltError w) (alerts w) con (commandLog w).
Proof.
  destruct w as [[] integ lastErr al con cl].
  unfold waypointReached. split_tests; writes; do 5 eexists; reflexivity.
Qed.

Lemma upd_steer_writes (dt targetSpeed : R) (target : Point) (w : World) :
  exists (vx' vy' : R) (pos' : Point),
    upd (steer dt targetSpeed target) w
    = upd (fun s => set_position pos' (set_vy vy' (set_vx vx' s))) w.
Proof.
  destruct (steer_writes dt targetSpeed target (state w)) as (vx' & vy' & pos' & E).
  exists vx', vy', pos'. unfold upd. rewrite E. reflexivity.
Qed.

Lemma navigate_writes (dt : R) (w w1 : World) :
  navigate dt w = Some w1 ->
  exists (idx : nat) (rt : list Waypoint) (md : Mode) (ta : R) (ds : option R)
         (vx' vy' : R) (pos' : Point) (con : list string),
    w1 = mkWorld
           (set_position pos'
              (set_vy vy'
                 (set_vx vx'
                    (set_desiredSpeed ds
                       (set_targetAltitude ta
                          (set_mode md
                             (set_route rt (set_waypointIndex idx (state w)))))))))
           (altErrorIntegral w) (lastAltError w) (alerts w) con (commandLog w).
Proof.
  unfold navigate.
  destruct (nth_error (route (state w)) (waypointIndex (state w))) as [wp |];
    [| discriminate].
  set (target := resolve (position (state w)) wp).
  set (d := computeDistance (position (state w)) target).
  destruct (d <? 10).
  - destruct (waypointReached_writes wp target d w)
      as (idx & rt & md & ta & con & E).
    destruct (waypointReached wp target d w) as [[w2 target2] d2].
    cbn in E. subst w2. intros H. injection H as <-.
    match goal with
    | |- context [upd (steer ?a ?b ?c) ?x] =>
        destruct (upd_steer_writes a b c x) as (vx' & vy' & pos' & ->)
    end.
    destruct w as [[] integ lastErr al con0 cl]. writes.
    do 9 eexists. reflexivity.
  - intros H. injection H as <-.
    match goal with
    | |- context [upd (steer ?a ?b ?c) ?x] =>
        destruct (upd_steer_writes a b c x) as (vx' & vy' & pos' & ->)
    end.
    destruct w as [[] integ lastErr al con0 cl]. writes.
    do 9 eexists. reflexivity.
Qed.

Lemma horizontalMovement_writes (dt : R) (w w1 : World) :
  horizontalMovement dt w = Some w1 ->
  exists (idx : nat) (rt : list Waypoint) (md : Mode) (ta : R) (ds : option R)
         (vx' vy' : R) (pos' : Point) (con : list string),
    w1 = mkWorld
           (set_position pos'
              (set_vy vy'
                 (set_vx vx'
                    (set_desiredSpeed ds
                       (set_targetAltitude ta
                          (set_mode md
                             (set_route rt (set_waypointIndex idx (state w)))))))))
           (altErrorIntegral w) (lastAltError w) (alerts w) con (commandLog w).
Proof.
  unfold horizontalMovement.
  destruct (negb (hoverMode (state w)) && flightStarted (state w)
            && (0 <? List.length (route (state w)))%nat).
  - destruct (mode (state w)); try apply navigate_writes.
    intros H. injection H as <-. unfold landingApproach.
    match goal with
    | |- context [upd (steer ?a ?b ?c) ?x] =>
        destruct (upd_steer_writes a b c x) as (vx' & vy' & pos' & ->)
    end.
    destruct w as [[] integ lastErr al con0 cl]. writes.
    do 9 eexists. reflexivity.
  - intros H. injection H as <-.
    destruct w as [[] integ lastErr al con0 cl]. writes.
    do 9 eexists. reflexivity.
Qed.

Lemma modeControl_writes (w : World) :
  exists (ta : R) (md : Mode) (alt vs : R) (fs cr : bool) (integ : R)
         (con : list string),
    modeControl w
    = mkWorld
        (set_crashed cr
           (set_flightStarted fs
              (set_verticalSpeed vs
                 (set_altitude alt
                    (set_mode md (set_targetAltitude ta (state w)))))))
        integ (lastAltError w) (alerts w) con (commandLog w).
Proof.
  destruct w as [[] integ lastErr al con cl].
  unfold modeControl. split_tests; writes; do 8 eexists; reflexivity.
Qed.

Lemma verticalControl_writes (dt : R) (rnd : nat -> R) (w : World) :
  exists (vs alt integ lastErr : R),
    fst (verticalControl dt rnd w)
    = mkWorld (set_altitude alt (set_verticalSpeed vs (state w)))
        integ lastErr (alerts w) (console w) (commandLog w)
    /\ 0 <= alt.
Proof.
  destruct w as [[] integ lastErr al con cl].
  unfold verticalControl. writes.
  match goal with
  | |- context [if ?c <? 0 then _ else _] => destruct (Rltb_spec c 0)
  end; writes; do 4 eexists; (split; [reflexivity | lra]).
Qed.

(** The floor at the ground, in full. *)
Lemma verticalControl_floor (dt : R) (rnd : nat -> R) (w : World) :
  let verticalAccel := snd (verticalControl dt rnd w) in
  let w' := fst (verticalControl dt rnd w) in
  (integratedAltitude dt verticalAccel (state w) < 0 ->
   altitude (state w') = 0 /\ verticalSpeed (state w') = 0)
  /\ (0 <= integratedAltitude dt verticalAccel (state w) ->
      altitude (state w') = integratedAltitude dt verticalAccel (state w)
      /\ verticalSpeed (state w') = integratedSpeed dt verticalAccel (state w)).
Proof.
  destruct w as [[] integ lastErr al con cl].
  unfold verticalControl, integratedAltitude, integratedSpeed. writes.
  match goal with
  | |- context [if ?c <? 0 then _ else _] => destruct (Rltb_spec c 0)
  end; writes; split; intros; try lra; split; reflexivity.
Qed.

Lemma verticalAccel_bounds (dt : R) (rnd : nat -> R) (w : World) :
  -3 <= snd (verticalControl dt rnd w) <= 3.
Proof.
  unfold verticalControl. cbn [snd]. apply clamp_bounds. lra.
Qed.

(** ** The jam zone block, case by case *)

Lemma jamInterference_none (rnd : nat -> R) (w : World) :
  jamZone (state w) = None ->
  jamInterference rnd w
  = upd (fun s =>
           set_gpsQuality
             (clamp (gpsQuality s + (rnd 1%nat - 0.5) * 0.001) 0.8 1) s) w.
Proof. intros H. unfold jamInterference. rewrite H. reflexivity. Qed.

Lemma jamInterference_outside (rnd : nat -> R) (w : World) (z : JamZone) :
  jamZone (state w) = Some z ->
  radius z <= computeDistance (position (state w)) (center z) ->
  jamInterference rnd w
  = upd (fun s => set_gpsQuality (clamp (gpsQuality s + 0.005) 0 1) s) w.
Proof.
  intros H Hd. unfold jamInterference. rewrite H.
  rewrite Rltb_false by assumption. reflexivity.
Qed.

Lemma jamInterference_ring (rnd : nat -> R) (w : World) (z : JamZone) :
  jamZone (state w) = Some z ->
  0.1 * radius z <= computeDistance (position (state w)) (center z) < radius z ->
  jamInterference rnd w
  = upd (jamErrors rnd
           (expFactorOf z (computeDistance (position (state w)) (center z)))) w.
Proof.
  intros H [Hlo Hhi]. unfold jamInterference. rewrite H.
  rewrite Rltb_true, Rltb_false by assumption. reflexivity.
Qed.

Lemma jamInterference_core (rnd : nat -> R) (w : World) (z : JamZone) :
  jamZone (state w) = Some z ->
  computeDistance (position (state w)) (center z) < 0.1 * radius z ->
  jamInterference rnd w
  = upd (jamErrors rnd
           (expFactorOf z (computeDistance (position (state w)) (center z))))
      (jamCrash w).
Proof.
  intros H Hd. unfold jamInterference. rewrite H.
  pose proof (computeDistance_nonneg (position (state w)) (center z)).
  rewrite Rltb_true by lra. rewrite Rltb_true by assumption. reflexivity.
Qed.

Lemma jamInterference_writes (rnd : nat -> R) (w : World) :
  exists (cr fs : bool) (vx' vy' vs alt : R) (pos' : Point) (rpm gps : R)
         (con : list string),
    jamInterference rnd w
    = mkWorld
        (set_gpsQuality gps
           (set_engineRPM rpm
              (set_position pos'
                 (set_altitude alt
                    (set_verticalSpeed vs
                       (set_vy vy'
                          (set_vx vx'
                             (set_flightStarted fs
                                (set_crashed cr (state w))))))))))
        (altErrorIntegral w) (lastAltError w) (alerts w) con (commandLog w).
Proof.
  destruct w as [[] integ lastErr al con cl].
  unfold jamInterference, jamCrash, jamErrors.
  split_tests; writes; do 10 eexists; reflexivity.
Qed.

(** ** The engine and battery block *)

Lemma totalLoadOf_nonneg (verticalAccel : R) (s : State) :
  0 <= totalLoadOf verticalAccel s.
Proof.
  unfold totalLoadOf.
  pose proof (Rabs_pos verticalAccel).
  pose proof (sqrt_pos (vx s * vx s + vy s * vy s)). lra.
Qed.

Lemma powerAndCounters_writes (dt : R) (prevPos : Point) (verticalAccel : R)
    (s : State) :
  exists (rpm temp dist time : R),
    powerAndCounters dt prevPos verticalAccel s
    = set_flightTime time
        (set_totalDistance dist
           (set_batteryTemperature temp
              (set_batteryLevel
                 (Rmax 0 (batteryLevel s - 0.01 * totalLoadOf verticalAccel s * dt))
                 (set_engineRPM rpm s)))).
Proof.
  destruct s. unfold powerAndCounters.
  set (load := totalLoadOf verticalAccel _). writes.
  match goal with
  | |- context [if ?c <? 0 then _ else _] => destruct (Rltb_spec c 0) as [Hb | Hb]
  end; writes.
  - rewrite Rmax_left by lra.
    split_tests; writes; subst; do 4 eexists; reflexivity.
  - rewrite Rmax_right by lra.
    split_tests; writes; subst; do 4 eexists; reflexivity.
Qed.

(** ** The tick as the sequence of its parts *)

Lemma updateFlightPhysics_crashed (dt : R) (rnd : nat -> R) (w : World) :
  crashed (state w) = true -> updateFlightPhysics dt rnd w = Some w.
Proof. intros H. unfold updateFlightPhysics. rewrite H. reflexivity. Qed.

Lemma updateFlightPhysics_parts (dt : R) (rnd : nat -> R) (w w1 : World) :
  crashed (state w) = false ->
  horizontalMovement dt w = Some w1 ->
  updateFlightPhysics dt rnd w
  = Some (upd (powerAndCounters dt (position (state w))
                 (snd (afterJam dt rnd w1)))
            (fst (afterJam dt rnd w1))).
Proof.
  intros Hc Hh. unfold updateFlightPhysics. rewrite Hc, Hh.
  destruct (afterJam dt rnd w1) as [w2 verticalAccel]. reflexivity.
Qed.

Lemma updateFlightPhysics_throws (dt : R) (rnd : nat -> R) (w : World) :
  crashed (state w) = false ->
  horizontalMovement dt w = None ->
  updateFlightPhysics dt rnd w = None.
Proof.
  intros Hc Hh. unfold updateFlightPhysics. rewrite Hc, Hh. reflexivity.
Qed.

(** The horizontal movement is skipped on the ground and while hovering. *)
Lemma horizontalMovement_idle (dt : R) (w : World) :
  flightStarted (state w) = false \/ hoverMode (state w) = true ->
  horizontalMovement dt w = Some w.
Proof.
  intros [H | H]; unfold horizontalMovement; rewrite H;
    [rewrite andb_false_r | ]; reflexivity.
Qed.

Lemma afterJam_writes (dt : R) (rnd : nat -> R) (w : World) :
  exists (ta : R) (md : Mode) (cr fs : bool) (vx' vy' vs alt : R) (pos' : Point)
         (rpm gps integ lastErr : R) (con : list string),
    fst (afterJam dt rnd w)
    = mkWorld
        (set_gpsQuality gps
           (set_engineRPM rpm
              (set_position pos'
                 (set_altitude alt
                    (set_verticalSpeed vs
                       (set_vy vy'
                          (set_vx vx'
                             (set_flightStarted fs
                                (set_crashed cr
                                   (set_mode md
                                      (set_targetAltitude ta (state w))))))))))))
        integ lastErr (alerts w) con (commandLog w).
Proof.
  unfold afterJam.
  destruct (modeControl_writes w)
    as (ta & md & alt0 & vs0 & fs0 & cr0 & integ0 & con0 & Em).
  destruct (verticalControl_writes dt rnd (modeControl w))
    as (vs1 & alt1 & integ1 & lastErr1 & Ev & _).
  destruct (verticalControl dt rnd (modeControl w)) as [w2 verticalAccel].
  cbn [fst] in *.
  destruct (jamInterference_writes rnd w2)
    as (cr & fs & vx' & vy' & vs & alt & pos' & rpm & gps & con & Ej).
  rewrite Ej, Ev, Em. destruct w as [[] integ lastErr al con1 cl]. writes.
  do 14 eexists. reflexivity.
Qed.

(** ** The battery *)

Lemma updateFlightPhysics_battery (dt : R) (rnd : nat -> R) (w w' : World) :
  crashed (state w) = false ->
  updateFlightPhysics dt rnd w = Some w' ->
  batteryLevel (state w')
  = Rmax 0 (batteryLevel (state w) - 0.01 * tickLoad dt rnd w * dt).
Proof.
  intros Hc Hu. unfold tickLoad.
  destruct (horizontalMovement dt w) as [w1 |] eqn:Hh.
  - rewrite (updateFlightPhysics_parts dt rnd w w1 Hc Hh) in Hu.
    apply Some_inj in Hu. subst w'.
    destruct (horizontalMovement_writes dt w w1 Hh)
      as (idx & rt & md0 & ta0 & ds & vx0 & vy0 & pos0 & con0 & E1).
    destruct (afterJam_writes dt rnd w1)
      as (ta & md & cr & fs & vx' & vy' & vs & alt & pos' & rpm & gps & integ
          & lastErr & con & E2).
    set (verticalAccel := snd (afterJam dt rnd w1)).
    destruct (powerAndCounters_writes dt (position (state w)) verticalAccel
                (state (fst (afterJam dt rnd w1))))
      as (rpm' & temp & dist & time & E3).
    rewrite state_upd, E3.
    cbn [batteryLevel set_flightTime set_totalDistance set_batteryTemperature
         set_batteryLevel].
    rewrite E2, E1. reflexivity.
  - rewrite (updateFlightPhysics_throws dt rnd w Hc Hh) in Hu. discriminate.
Qed.

Lemma tickLoad_nonneg (dt : R) (rnd : nat -> R) (w : World) :
  0 <= tickLoad dt rnd w.
Proof.
  unfold tickLoad. destruct (horizontalMovement dt w); [| lra].
  apply totalLoadOf_nonneg.
Qed.

Lemma runPhysics_battery_le (dt : R) (rnd : nat -> R) (w : World) :
  0 <= dt -> 0 <= batteryLevel (state w) ->
  0 <= batteryLevel (state (runPhysics dt rnd w)) <= batteryLevel (state w).
Proof.
  intros Hdt Hb. pose proof (tickLoad_nonneg dt rnd w) as Hl.
  unfold runPhysics.
  destruct (updateFlightPhysics dt rnd w) as [w' |] eqn:Hu; [| lra].
  destruct (crashed (state w)) eqn:Hc.
  - rewrite (updateFlightPhysics_crashed dt rnd w Hc) in Hu.
    apply Some_inj in Hu. subst w'. lra.
  - rewrite (updateFlightPhysics_battery dt rnd w w' Hc Hu).
    split; [apply Rmax_l |].
    apply Rmax_lub; [exact Hb |].
    assert (0 <= 0.01 * tickLoad dt rnd w * dt)
      by (apply Rmult_le_pos; [apply Rmult_le_pos |]; lra).
    lra.
Qed.

(** No command writes the battery level. *)
Lemma exec_batteryLevel (c : Command) (w : World) :
  batteryLevel (state (exec c w)) = batteryLevel (state w).
Proof.
  destruct c;
    try (unfold exec, setRoute, stopFlight, setHome, takeOff, land, hover,
           updateParameters, updateWind, setJamZone, clearJamZone, setRepeat,
           reset, north, south, east, west, altUp, altDown;
         repeat match goal with
                | |- context [if ?b then _ else _] => destruct b
                | |- context [match ?o with Some _ => _ | None => _ end] =>
                    destruct o
                end;
         reflexivity).
  (* StartFlight *)
  unfold exec, startFlight.
  destruct (List.length (route (state w)) <? 2)%nat; [reflexivity |].
  destruct (flightStarted (state w)) eqn:Hfs;
    cbn -[filterRoute]; rewrite Hfs; cbn -[filterRoute];
    [reflexivity |].
  destruct (homePosition (state w)); reflexivity.
Qed.

(** In every state that commands and ticks can produce the battery level is
    in its range. *)
Lemma run_battery_range (events : list Event) :
  0 <= batteryLevel (state (run events)) <= 100.
Proof.
  unfold run.
  assert (Hinit : 0 <= batteryLevel (state initialWorld) <= 100)
    by (simpl; lra).
  revert Hinit. generalize initialWorld as w.
  induction events as [| e events IH]; intros w Hw; [exact Hw |].
  cbn [fold_left]. apply IH. destruct e as [c | rnd].
  - cbn [step]. rewrite exec_batteryLevel. exact Hw.
  - cbn [step]. unfold tick.
    assert (Hdt : 0 <= 0.1) by lra.
    pose proof (runPhysics_battery_le 0.1 rnd w Hdt (proj1 Hw)). lra.
Qed.



(** ** A tick inside the jam zone *)

(** The mode logic and the vertical control leave the position and the zone
    as they are. *)
Lemma beforeJam_position (dt : R) (rnd : nat -> R) (w : World) :
  position (state (fst (verticalControl dt rnd (modeControl w))))
  = position (state w)
  /\ jamZone (state (fst (verticalControl dt rnd (modeControl w))))
     = jamZone (state w).
Proof.
  destruct (modeControl_writes w)
    as (ta & md & alt0 & vs0 & fs0 & cr0 & integ0 & con0 & Em).
  destruct (verticalControl_writes dt rnd (modeControl w))
    as (vs1 & alt1 & integ1 & lastErr1 & Ev & _).
  rewrite Ev, Em. split; reflexivity.
Qed.

(** Inside the zone the errors are added after the floor at the ground. *)
Lemma afterJam_inside (dt : R) (rnd : nat -> R) (w : World) (z : JamZone) :
  jamZone (state w) = Some z ->
  computeDistance (position (state w)) (center z) < radius z ->
  let w2 := fst (verticalControl dt rnd (modeControl w)) in
  let expFactor :=
    expFactorOf z (computeDistance (position (state w)) (center z)) in
  altitude (state (fst (afterJam dt rnd w)))
  = altitude (state w2) + (rnd 4%nat - 0.5) * 2.0 * expFactor.
Proof.
  intros Hz Hd w2 expFactor. unfold afterJam.
  destruct (beforeJam_position dt rnd w) as [Hp Hj].
  fold w2 in Hp, Hj.
  destruct (verticalControl dt rnd (modeControl w)) as [w2' verticalAccel].
  cbn [fst] in *. subst w2.
  unfold jamInterference. rewrite Hj, Hz, Hp.
  rewrite Rltb_true by assumption. fold expFactor.
  destruct (computeDistance (position (state w)) (center z) <? 0.1 * radius z);
    reflexivity.
Qed.

(** In the innermost tenth of the zone: the crash, and then the errors. *)
Lemma afterJam_core (dt : R) (rnd : nat -> R) (w : World) (z : JamZone) :
  jamZone (state w) = Some z ->
  computeDistance (position (state w)) (center z) < 0.1 * radius z ->
  fst (afterJam dt rnd w)
  = upd (jamErrors rnd
           (expFactorOf z (computeDistance (position (state w)) (center z))))
      (jamCrash (fst (verticalControl dt rnd (modeControl w)))).
Proof.
  intros Hz Hd. unfold afterJam.
  destruct (beforeJam_position dt rnd w) as [Hp Hj].
  destruct (verticalControl dt rnd (modeControl w)) as [w2 verticalAccel].
  cbn [fst] in *.
  rewrite (jamInterference_core rnd w2 z); rewrite ?Hp, ?Hj; auto.
Qed.

(** The engine and battery block leaves the motion and the flags as they
    are. *)
Lemma powerAndCounters_frame (dt : R) (prevPos : Point) (verticalAccel : R)
    (s : State) :
  let s' := powerAndCounters dt prevPos verticalAccel s in
  position s' = position s /\ altitude s' = altitude s
  /\ verticalSpeed s' = verticalSpeed s /\ vx s' = vx s /\ vy s' = vy s
  /\ crashed s' = crashed s /\ flightStarted s' = flightStarted s
  /\ homePosition s' = homePosition s /\ gpsQuality s' = gpsQuality s
  /\ mode s' = mode s /\ jamZone s' = jamZone s.
Proof.
  destruct (powerAndCounters_writes dt prevPos verticalAccel s)
    as (rpm & temp & dist & time & E).
  cbv zeta. rewrite E. repeat split; reflexivity.
Qed.

(** What a tick leaves of a vehicle that the movement of that tick has
    brought (or left) within a tenth of the radius of the zone's centre. *)
Lemma runPhysics_core (dt : R) (rnd : nat -> R) (w w1 : World) (z : JamZone) :
  crashed (state w) = false ->
  horizontalMovement dt w = Some w1 ->
  jamZone (state w1) = Some z ->
  computeDistance (position (state w1)) (center z) < 0.1 * radius z ->
  let expFactor :=
    expFactorOf z (computeDistance (position (state w1)) (center z)) in
  let w' := runPhysics dt rnd w in
  crashed (state w') = true
  /\ flightStarted (state w') = false
  /\ vx (state w') = 0 + (rnd 1%nat - 0.5) * 1.0 * expFactor
  /\ vy (state w') = 0 + (rnd 2%nat - 0.5) * 1.0 * expFactor
  /\ verticalSpeed (state w') = -5 + (rnd 3%nat - 0.5) * 1.0 * expFactor.
Proof.
  intros Hc Hh Hz Hd expFactor w'. subst w'. unfold runPhysics.
  rewrite (updateFlightPhysics_parts dt rnd w w1 Hc Hh).
  rewrite state_upd.
  destruct (powerAndCounters_frame dt (position (state w))
              (snd (afterJam dt rnd w1)) (state (fst (afterJam dt rnd w1))))
    as (_ & _ & Hvs & Hvx & Hvy & Hcr & Hfs & _).
  rewrite Hvs, Hvx, Hvy, Hcr, Hfs.
  rewrite (afterJam_core dt rnd w1 z Hz Hd). fold expFactor.
  repeat split; reflexivity.
Qed.

Lemma expFactorOf_centre (z : JamZone) :
  radius z <> 0 -> expFactorOf z 0 = centreFactor.
Proof.
  intros H. unfold expFactorOf, centreFactor.
  replace ((radius z - 0) / radius z) with 1 by (field; assumption).
  reflexivity.
Qed.

Lemma centreFactor_gt_2 : 2 < centreFactor.
Proof.
  unfold centreFactor.
  assert (1 + 1 < exp 1) by (apply exp_ineq1; lra). lra.
Qed.

Lemma crashedAtLaunch_tick : crashedAtLaunch = tick rndZero jammedOnGround.
Proof. reflexivity. Qed.

Lemma jammedOnGround_distance :
  computeDistance (position (state jammedOnGround)) (center jamAtLaunch) = 0.
Proof. apply computeDistance_same. Qed.

(** The state one tick after the zone is drawn around the vehicle, whatever
    the random draws. *)
Lemma jammedOnGround_tick (rnd : nat -> R) :
  crashed (state (tick rnd jammedOnGround)) = true
  /\ flightStarted (state (tick rnd jammedOnGround)) = false
  /\ vx (state (tick rnd jammedOnGround)) = (rnd 1%nat - 0.5) * centreFactor
  /\ vy (state (tick rnd jammedOnGround)) = (rnd 2%nat - 0.5) * centreFactor
  /\ verticalSpeed (state (tick rnd jammedOnGround))
     = -5 + (rnd 3%nat - 0.5) * centreFactor.
Proof.
  unfold tick.
  assert (Hh : horizontalMovement 0.1 jammedOnGround = Some jammedOnGround)
    by (apply horizontalMovement_idle; left; reflexivity).
  assert (Hd : computeDistance (position (state jammedOnGround))
                 (center jamAtLaunch) < 0.1 * radius jamAtLaunch)
    by (rewrite jammedOnGround_distance; simpl; lra).
  destruct (runPhysics_core 0.1 rnd jammedOnGround jammedOnGround
              jamAtLaunch eq_refl Hh eq_refl Hd)
    as (Hcr & Hfs & Hvx & Hvy & Hvs).
  rewrite jammedOnGround_distance, expFactorOf_centre in Hvx, Hvy, Hvs
    by (simpl; lra).
  rewrite Hcr, Hfs, Hvx, Hvy, Hvs.
  replace 1.0 with 1 by lra.
  split; [reflexivity | split; [reflexivity |]].
  split; [ring | split; ring].
Qed.

Lemma crashedAtLaunch_state :
  crashed (state crashedAtLaunch) = true
  /\ flightStarted (state crashedAtLaunch) = false
  /\ vx (state crashedAtLaunch) = - 0.5 * centreFactor
  /\ vy (state crashedAtLaunch) = - 0.5 * centreFactor
  /\ verticalSpeed (state crashedAtLaunch) = -5 - 0.5 * centreFactor.
Proof.
  rewrite crashedAtLaunch_tick.
  destruct (jammedOnGround_tick rndZero) as (Hcr & Hfs & Hvx & Hvy & Hvs).
  rewrite Hcr, Hfs, Hvx, Hvy, Hvs. unfold rndZero.
  split; [reflexivity | split; [reflexivity |]].
  split; [lra | split; lra].
Qed.

(** C2. The zone is drawn around the vehicle, which stands on the ground at
    its centre.  The next tick sets the crashed flag and clears the
    flight-active flag, but the errors of the zone are added after the crash
    has zeroed the velocity: whatever the random draws, the horizontal
    velocity is left at ((r1 - 0.5) x expFactor, (r2 - 0.5) x expFactor) and
    the vertical speed at -5 + (r3 - 0.5) x expFactor, for the draws r1, r2,
    r3 of that tick.  With every draw at 0 both components of the horizontal
    velocity are below -1 m/s, not zero. *)
Theorem jam_crash_velocity_not_zero :
  crashed (state jammedOnGround) = false
  /\ jamZone (state jammedOnGround) = Some jamAtLaunch
  /\ computeDistance (position (state jammedOnGround)) (center jamAtLaunch)
     < 0.1 * radius jamAtLaunch
  /\ (forall rnd : nat -> R,
         crashed (state (tick rnd jammedOnGround)) = true
         /\ flightStarted (state (tick rnd jammedOnGround)) = false
         /\ vx (state (tick rnd jammedOnGround))
            = (rnd 1%nat - 0.5) * centreFactor
         /\ vy (state (tick rnd jammedOnGround))
            = (rnd 2%nat - 0.5) * centreFactor
         /\ verticalSpeed (state (tick rnd jammedOnGround))
            = -5 + (rnd 3%nat - 0.5) * centreFactor)
  /\ vx (state (tick rndZero jammedOnGround)) < -1
  /\ vy (state (tick rndZero jammedOnGround)) < -1.
Proof.
  split; [reflexivity | split; [reflexivity |]].
  split; [rewrite jammedOnGround_distance; simpl; lra |].
  split; [exact jammedOnGround_tick |].
  destruct (jammedOnGround_tick rndZero) as (_ & _ & Hvx & Hvy & _).
  pose proof centreFactor_gt_2 as Hf.
  rewrite Hvx, Hvy. unfold rndZero. split; lra.
Qed.

(** ** The altitude *)

Lemma clamp_inside (v lo hi : R) : lo <= v <= hi -> clamp v lo hi = v.
Proof.
  intros [Hlo Hhi]. unfold clamp.
  rewrite Rmin_right by assumption. apply Rmax_right. assumption.
Qed.

(** A vehicle at rest at its target altitude, in still air, stays there. *)
Lemma verticalControl_rest (dt : R) (rnd : nat -> R) (w : World) :
  targetAltitude (state w) = altitude (state w) ->
  altErrorIntegral w = 0 -> lastAltError w = 0 ->
  speed (wind (state w)) = 0 -> verticalSpeed (state w) = 0 ->
  0 <= altitude (state w) ->
  snd (verticalControl dt rnd w) = 0
  /\ altitude (state (fst (verticalControl dt rnd w))) = altitude (state w)
  /\ verticalSpeed (state (fst (verticalControl dt rnd w))) = 0.
Proof.
  intros Ht Hi Hl Hw Hv Ha.
  assert (Hacc : snd (verticalControl dt rnd w) = 0).
  { unfold verticalControl. cbn [snd].
    unfold set_altErrorIntegral, set_lastAltError. cbn [altErrorIntegral lastAltError state].
    rewrite Ht, Hi, Hl, Hw.
    replace (altitude (state w) - altitude (state w)) with 0 by lra.
    replace (0 + 0 * dt) with 0 by lra.
    rewrite (clamp_inside 0 (- maxIntegral) maxIntegral)
      by (unfold maxIntegral; lra).
    replace (Kp_alt * 0 + Ki_alt * 0 + Kd_alt * ((0 - 0) / dt)
             + (rnd 0%nat - 0.5) * 0.5 * (0 / 10)) with 0
      by (unfold Rdiv; ring).
    apply clamp_inside. lra. }
  destruct (verticalControl_floor dt rnd w) as [_ Hkeep].
  rewrite Hacc in Hkeep. unfold integratedAltitude, integratedSpeed in Hkeep.
  rewrite Hv in Hkeep.
  replace (altitude (state w) + (0.9 * 0 + 0 * dt) * dt)
    with (altitude (state w)) in Hkeep by lra.
  replace (0.9 * 0 + 0 * dt) with 0 in Hkeep by lra.
  destruct (Hkeep Ha) as [Halt Hvs].
  repeat split; assumption.
Qed.

(** The altitude that a tick leaves when the vehicle ends it inside the
    zone: the floored altitude plus the error of the zone. *)
Lemma runPhysics_inside_altitude (dt : R) (rnd : nat -> R) (w w1 : World)
    (z : JamZone) :
  crashed (state w) = false ->
  horizontalMovement dt w = Some w1 ->
  jamZone (state w1) = Some z ->
  computeDistance (position (state w1)) (center z) < radius z ->
  altitude (state (runPhysics dt rnd w))
  = altitude (state (fst (verticalControl dt rnd (modeControl w1))))
    + (rnd 4%nat - 0.5) * 2.0
      * expFactorOf z (computeDistance (position (state w1)) (center z))
  /\ 0 <= altitude (state (fst (verticalControl dt rnd (modeControl w1)))).
Proof.
  intros Hc Hh Hz Hd. unfold runPhysics.
  rewrite (updateFlightPhysics_parts dt rnd w w1 Hc Hh), state_upd.
  destruct (powerAndCounters_frame dt (position (state w))
              (snd (afterJam dt rnd w1)) (state (fst (afterJam dt rnd w1))))
    as (_ & Halt & _).
  rewrite Halt, (afterJam_inside dt rnd w1 z Hz Hd).
  split; [reflexivity |].
  destruct (verticalControl_writes dt rnd (modeControl w1))
    as (vs & alt & integ & lastErr & E & Hpos).
  rewrite E. exact Hpos.
Qed.

(** Outside of any zone the floor at the ground is the last word. *)
Lemma runPhysics_outside_altitude (dt : R) (rnd : nat -> R) (w w1 : World) :
  crashed (state w) = false ->
  horizontalMovement dt w = Some w1 ->
  (jamZone (state w1) = None
   \/ exists z : JamZone,
        jamZone (state w1) = Some z
        /\ radius z <= computeDistance (position (state w1)) (center z)) ->
  0 <= altitude (state (runPhysics dt rnd w)).
Proof.
  intros Hc Hh Hout. unfold runPhysics.
  rewrite (updateFlightPhysics_parts dt rnd w w1 Hc Hh), state_upd.
  destruct (powerAndCounters_frame dt (position (state w))
              (snd (afterJam dt rnd w1)) (state (fst (afterJam dt rnd w1))))
    as (_ & Halt & _).
  rewrite Halt. unfold afterJam.
  destruct (beforeJam_position dt rnd w1) as [Hp Hj].
  destruct (verticalControl_writes dt rnd (modeControl w1))
    as (vs & alt & integ & lastErr & E & Hpos).
  destruct (verticalControl dt rnd (modeControl w1)) as [w2 verticalAccel].
  cbn [fst] in *.
  destruct Hout as [Hnone | [z [Hz Hd]]].
  - rewrite jamInterference_none by (rewrite Hj; exact Hnone).
    rewrite E. exact Hpos.
  - rewrite (jamInterference_outside rnd w2 z)
      by (rewrite ?Hj, ?Hp; assumption).
    rewrite E. exact Hpos.
Qed.

Lemma PI_le_4 : PI <= 4.
Proof. exact PI_4. Qed.

Lemma jammedInRing_distance :
  computeDistance (position (state jammedInRing)) (center jamNorthOfLaunch)
  = 6371000 * (0.001 * PI / 180).
Proof.
  change (position (state jammedInRing)) with (mkPoint 55.7522 37.6156).
  assert (E : Rabs (lat (center jamNorthOfLaunch) - lat (mkPoint 55.7522 37.6156))
              = 0.001).
  { simpl. rewrite Rabs_pos_eq by lra. lra. }
  rewrite computeDistance_meridian.
  - rewrite E. reflexivity.
  - reflexivity.
  - rewrite E. lra.
Qed.

Lemma jammedInRing_in_ring :
  0.1 * radius jamNorthOfLaunch
  <= computeDistance (position (state jammedInRing)) (center jamNorthOfLaunch)
  < radius jamNorthOfLaunch.
Proof.
  rewrite jammedInRing_distance. simpl.
  pose proof PI_gt_3. pose proof PI_le_4. lra.
Qed.

Lemma expFactorOf_inside (z : JamZone) (d : R) :
  0 <= d < radius z -> 0.5 < expFactorOf z d.
Proof.
  intros [H0 H1]. unfold expFactorOf.
  assert (Hx : 0 < (radius z - d) / radius z)
    by (apply Rdiv_lt_0_compat; lra).
  assert (1 + (radius z - d) / radius z < exp ((radius z - d) / radius z))
    by (apply exp_ineq1; lra).
  lra.
Qed.

Lemma ringFactor_gt_half : 0.5 < ringFactor.
Proof.
  unfold ringFactor. apply expFactorOf_inside.
  rewrite <- jammedInRing_distance. split.
  - apply computeDistance_nonneg.
  - apply jammedInRing_in_ring.
Qed.

(** The tick of the vehicle parked in the zone, outside of its innermost
    tenth, whatever the random draws. *)
Lemma jammedInRing_tick (rnd : nat -> R) :
  altitude (state (tick rnd jammedInRing)) = (rnd 4%nat - 0.5) * 2 * ringFactor
  /\ crashed (state (tick rnd jammedInRing)) = false.
Proof.
  assert (Hh : horizontalMovement 0.1 jammedInRing = Some jammedInRing)
    by (apply horizontalMovement_idle; left; reflexivity).
  pose proof jammedInRing_in_ring as [Hlo Hhi].
  split.
  - destruct (runPhysics_inside_altitude 0.1 rnd jammedInRing jammedInRing
                jamNorthOfLaunch eq_refl Hh eq_refl Hhi) as [Halt _].
    change (modeControl jammedInRing) with jammedInRing in Halt.
    assert (Hground : 0 <= altitude (state jammedInRing)) by (simpl; lra).
    destruct (verticalControl_rest 0.1 rnd jammedInRing
                eq_refl eq_refl eq_refl eq_refl eq_refl Hground)
      as (_ & Hrest & _).
    rewrite Hrest, jammedInRing_distance in Halt.
    change (altitude (state jammedInRing)) with 0 in Halt.
    unfold tick. rewrite Halt. fold ringFactor.
    replace 2.0 with 2 by lra. ring.
  - unfold tick, runPhysics.
    rewrite (updateFlightPhysics_parts 0.1 rnd jammedInRing jammedInRing
               eq_refl Hh), state_upd.
    destruct (powerAndCounters_frame 0.1 (position (state jammedInRing))
                (snd (afterJam 0.1 rnd jammedInRing))
                (state (fst (afterJam 0.1 rnd jammedInRing))))
      as (_ & _ & _ & _ & _ & Hcr & _).
    rewrite Hcr. unfold afterJam.
    change (modeControl jammedInRing) with jammedInRing.
    destruct (beforeJam_position 0.1 rnd jammedInRing) as [Hp Hj].
    change (modeControl jammedInRing) with jammedInRing in Hp, Hj.
    destruct (verticalControl_writes 0.1 rnd jammedInRing)
      as (vs & alt & integ & lastErr & E & _).
    destruct (verticalControl 0.1 rnd jammedInRing) as [w2 verticalAccel].
    cbn [fst] in *.
    rewrite (jamInterference_ring rnd w2 jamNorthOfLaunch);
      rewrite ?Hp, ?Hj; try (split; assumption); try reflexivity.
    rewrite state_upd. unfold jamErrors.
    cbn [crashed set_gpsQuality set_engineRPM set_position set_altitude
         set_verticalSpeed set_vy set_vx].
    rewrite E. reflexivity.
Qed.

(** C3. The vehicle stands on the ground (altitude 0, not crashed) 111 m from
    the centre of a zone of radius 200 m.  In the next tick the integration
    leaves the altitude at 0, the floor has nothing to do, and the zone's
    error is then added to it: whatever the random draws, the tick ends with
    the altitude at (r4 - 0.5) x 2 x expFactor, for the draw r4 of the
    altitude error and an expFactor above 0.5, and with the vehicle not
    crashed.  With every draw at 0 the altitude ends below -0.5 m. *)
Theorem jam_error_sinks_altitude :
  altitude (state jammedInRing) = 0
  /\ crashed (state jammedInRing) = false
  /\ (forall rnd : nat -> R,
         altitude (state (tick rnd jammedInRing))
         = (rnd 4%nat - 0.5) * 2 * ringFactor
         /\ crashed (state (tick rnd jammedInRing)) = false)
  /\ 0.5 < ringFactor
  /\ altitude (state (tick rndZero jammedInRing)) < - 0.5.
Proof.
  split; [reflexivity | split; [reflexivity |]].
  split; [exact jammedInRing_tick |].
  pose proof ringFactor_gt_half as Hf.
  split; [exact Hf |].
  destruct (jammedInRing_tick rndZero) as [Halt _].
  rewrite Halt. unfold rndZero. lra.
Qed.

(** ** The crashed flag *)

Lemma filterRoute_pair :
  filterRoute (fun p => p) [tokyo; tokyoNorth] = [tokyo; tokyoNorth].
Proof.
  apply filterRoute_fixed. simpl. split; [exact tokyoNorth_far | exact I].
Qed.

Lemma setRoute_fields (r : list Point) (w : World) :
  crashed (state (setRoute r w)) = crashed (state w)
  /\ flightStarted (state (setRoute r w)) = flightStarted (state w)
  /\ route (state (setRoute r w)) = map Fixed (filterRoute (fun p => p) r).
Proof. split; [| split]; reflexivity. Qed.

Lemma crashedWithRoute_state :
  crashed (state crashedWithRoute) = true
  /\ flightStarted (state crashedWithRoute) = false
  /\ route (state crashedWithRoute) = [Fixed tokyo; Fixed tokyoNorth].
Proof.
  destruct crashedAtLaunch_state as (Hcr & Hfs & _).
  unfold crashedWithRoute, exec.
  destruct (setRoute_fields [tokyo; tokyoNorth] crashedAtLaunch)
    as (-> & -> & ->).
  rewrite filterRoute_pair.
  split; [exact Hcr | split; [exact Hfs | reflexivity]].
Qed.

(** A tick does nothing to a crashed vehicle, and neither do any number of
    them. *)
Lemma ticks_crashed (rnds : list (nat -> R)) (w : World) :
  crashed (state w) = true -> fold_left step (map Tick rnds) w = w.
Proof.
  intros Hc. induction rnds as [| rnd rnds IH]; [reflexivity |].
  cbn [map fold_left step]. unfold tick, runPhysics.
  rewrite (updateFlightPhysics_crashed 0.1 rnd w Hc). exact IH.
Qed.

(** The commands that can clear the crashed flag. *)
Lemma exec_clears_crashed (c : Command) (w : World) :
  crashed (state w) = true ->
  crashed (state (exec c w)) = false ->
  (exists sl : Sliders, c = Reset sl)
  \/ (c = StartFlight
      /\ flightStarted (state w) = false
      /\ (2 <= List.length (route (state w)))%nat).
Proof.
  intros Hc H. destruct c;
    try (exfalso; revert H; unfold exec, setRoute, stopFlight, setHome, takeOff,
           land, hover, updateParameters, updateWind, setJamZone, clearJamZone,
           setRepeat, north, south, east, west, altUp, altDown;
         repeat match goal with
                | |- context [if ?b then _ else _] => destruct b
                | |- context [match ?o with Some _ => _ | None => _ end] =>
                    destruct o
                end;
         cbn; rewrite ?Hc; discriminate).
  - (* StartFlight *)
    right. split; [reflexivity |].
    unfold exec, startFlight in H.
    destruct (Nat.ltb_spec (List.length (route (state w))) 2) as [Hlt | Hge].
    + rewrite Hc in H. discriminate.
    + destruct (flightStarted (state w)) eqn:Hfs.
      * exfalso. revert H. cbn -[filterRoute]. rewrite Hfs. cbn -[filterRoute].
        rewrite Hc. discriminate.
      * split; [reflexivity | exact Hge].
  - (* Reset *)
    left. exists sl. reflexivity.
Qed.

Lemma reset_crashed (sl : Sliders) (w : World) :
  crashed (state (reset sl w)) = false.
Proof. reflexivity. Qed.

(** C7, as the code has it.  A tick leaves a crashed world exactly as it is,
    and so does any number of ticks; the crashed flag itself is cleared only
    by a reset or by a start command accepted while the flight-active flag is
    off (a route of two points or more). *)
Theorem crashed_frozen_until_reset_or_start :
  forall w : World,
    crashed (state w) = true ->
    (forall (dt : R) (rnd : nat -> R), updateFlightPhysics dt rnd w = Some w)
    /\ (forall rnds : list (nat -> R), fold_left step (map Tick rnds) w = w)
    /\ (forall c : Command,
           crashed (state (exec c w)) = false ->
           (exists sl : Sliders, c = Reset sl)
           \/ (c = StartFlight
               /\ flightStarted (state w) = false
               /\ (2 <= List.length (route (state w)))%nat)).
Proof.
  intros w Hc. split; [| split].
  - intros dt rnd. apply updateFlightPhysics_crashed. exact Hc.
  - intros rnds. apply ticks_crashed. exact Hc.
  - intros c. apply exec_clears_crashed. exact Hc.
Qed.

Lemma crashed_frozen_until_reset_or_start_witness :
  updateFlightPhysics 0.1 rndHalf crashedAtLaunch = Some crashedAtLaunch.
Proof.
  apply (crashed_frozen_until_reset_or_start crashedAtLaunch).
  exact (proj1 crashedAtLaunch_state).
Defined.

(** The vehicle has crashed at the centre of the zone and a route of two
    waypoints is set: the start command, which is not the reset, clears the
    crashed flag and puts the vehicle back in flight. *)
Lemma crashed_cleared_by_start :
  crashed (state crashedWithRoute) = true
  /\ crashed (state (exec StartFlight crashedWithRoute)) = false
  /\ flightStarted (state (exec StartFlight crashedWithRoute)) = true.
Proof.
  destruct crashedWithRoute_state as (Hcr & Hfs & Hr).
  split; [exact Hcr |].
  assert (Hne : [Fixed tokyoNorth] <> []) by discriminate.
  destruct (startFlight_launch crashedWithRoute (Fixed tokyo) [Fixed tokyoNorth]
              Hr Hne Hfs) as (_ & _ & Hcr' & _ & Hfs').
  split; assumption.
Qed.

(** ** The home position *)

Lemma runPhysics_homePosition (dt : R) (rnd : nat -> R) (w : World) :
  homePosition (state (runPhysics dt rnd w)) = homePosition (state w).
Proof.
  unfold runPhysics.
  destruct (crashed (state w)) eqn:Hc.
  - rewrite (updateFlightPhysics_crashed dt rnd w Hc). reflexivity.
  - destruct (horizontalMovement dt w) as [w1 |] eqn:Hh.
    + rewrite (updateFlightPhysics_parts dt rnd w w1 Hc Hh), state_upd.
      destruct (powerAndCounters_frame dt (position (state w))
                  (snd (afterJam dt rnd w1)) (state (fst (afterJam dt rnd w1))))
        as (_ & _ & _ & _ & _ & _ & _ & Hhome & _).
      rewrite Hhome.
      destruct (afterJam_writes dt rnd w1)
        as (ta & md & cr & fs & vx' & vy' & vs & alt & pos' & rpm & gps & integ
            & lastErr & con & E2).
      destruct (horizontalMovement_writes dt w w1 Hh)
        as (idx & rt & md0 & ta0 & ds & vx0 & vy0 & pos0 & con0 & E1).
      rewrite E2, E1. reflexivity.
    + rewrite (updateFlightPhysics_throws dt rnd w Hc Hh). reflexivity.
Qed.

Lemma exec_homePosition (c : Command) (w : World) :
  homePosition (state w) <> None ->
  c <> SetHome -> (forall sl : Sliders, c <> Reset sl) ->
  homePosition (state (exec c w)) = homePosition (state w).
Proof.
  intros Hset HnotHome HnotReset.
  destruct c; try contradiction;
    try (unfold exec, setRoute, stopFlight, takeOff, land, hover,
           updateParameters, updateWind, setJamZone, clearJamZone, setRepeat,
           north, south, east, west, altUp, altDown;
         repeat match goal with
                | |- context [if ?b then _ else _] => destruct b
                | |- context [match ?o with Some _ => _ | None => _ end] =>
                    destruct o
                end;
         reflexivity).
  - (* StartFlight *)
    unfold exec, startFlight.
    destruct (List.length (route (state w)) <? 2)%nat; [reflexivity |].
    destruct (homePosition (state w)) as [home |] eqn:Hh; [| contradiction].
    destruct (flightStarted (state w)) eqn:Hfs;
      cbn -[filterRoute]; rewrite Hfs; cbn -[filterRoute]; rewrite ?Hh;
      cbn -[filterRoute]; rewrite ?Hh; reflexivity.
  - (* Reset *)
    exfalso. apply (HnotReset sl). reflexivity.
Qed.

(** C8, as the code has it.  Once a home position is set, ticks leave it
    alone and so do all commands but two: the reset, which clears it, and
    the set-home command, which replaces it by the current position. *)
Theorem homePosition_kept_but_by_setHome_and_reset :
  forall w : World,
    homePosition (state w) <> None ->
    (forall c : Command,
        c <> SetHome -> (forall sl : Sliders, c <> Reset sl) ->
        homePosition (state (exec c w)) = homePosition (state w))
    /\ (forall (dt : R) (rnd : nat -> R),
           homePosition (state (runPhysics dt rnd w)) = homePosition (state w))
    /\ homePosition (state (exec SetHome w)) = Some (position (state w))
    /\ (forall sl : Sliders, homePosition (state (exec (Reset sl) w)) = None).
Proof.
  intros w Hset. split; [| split; [| split]].
  - intros c. apply exec_homePosition. exact Hset.
  - intros dt rnd. apply runPhysics_homePosition.
  - reflexivity.
  - intros sl. reflexivity.
Qed.

Lemma homePosition_kept_but_by_setHome_and_reset_witness :
  homePosition (state (exec StartFlight homeSetThenNorth))
  = homePosition (state homeSetThenNorth).
Proof.
  apply (homePosition_kept_but_by_setHome_and_reset homeSetThenNorth).
  - simpl. discriminate.
  - discriminate.
  - intros sl. discriminate.
Defined.

(** Home is set, the vehicle is nudged north, and the set-home command is
    given again: the home position changes, with no reset. *)
Lemma homePosition_replaced_by_setHome :
  homePosition (state homeSetThenNorth) <> None
  /\ homePosition (state (exec SetHome homeSetThenNorth))
     <> homePosition (state homeSetThenNorth).
Proof.
  split.
  - simpl. discriminate.
  - simpl. intros H. injection H as H. lra.
Qed.

(** ** The start command turned down *)

Lemma filterRoute_twice_same :
  filterRoute (fun p => p) [tokyo; tokyo] = [tokyo].
Proof.
  unfold filterRoute. simpl. unfold filterStep, keeps. simpl.
  rewrite computeDistance_same, (Rltb_false 5 0) by lra. reflexivity.
Qed.

(** C6. The start command turned down for want of two waypoints changes
    nothing, and shows nothing either: with an empty route [startFlight]
    returns the world it was given, alert boxes and logs included.  Through
    the page: two clicks on one point pass the page's own test (two
    waypoints), the filter leaves one point, [startFlight] returns without a
    word, no alert is shown and the command log records the start as
    pressed.  The sibling commands do tell: [land] on the ground raises an
    alert, and so does the page when its own list has fewer than two
    points. *)
Theorem start_rejected_without_notice :
  route (state initialWorld) = []
  /\ startFlight initialWorld = initialWorld
  /\ route (state (startFlightPressed [tokyo; tokyo] initialWorld))
     = [Fixed tokyo]
  /\ flightStarted (state (startFlightPressed [tokyo; tokyo] initialWorld))
     = false
  /\ alerts (startFlightPressed [tokyo; tokyo] initialWorld) = []
  /\ commandLog (startFlightPressed [tokyo; tokyo] initialWorld)
     = ["Flight Control: Start Flight pressed"%string]
  /\ alerts (land initialWorld) = ["Drone is not in flight"%string]
  /\ alerts (startFlightPressed [tokyo] initialWorld)
     = ["Please set at least 2 waypoints for the route"%string].
Proof.
  split; [reflexivity | split; [reflexivity |]].
  assert (Hr : route (state (setRoute [tokyo; tokyo] initialWorld)) = [Fixed tokyo]).
  { destruct (setRoute_fields [tokyo; tokyo] initialWorld) as (_ & _ & ->).
    rewrite filterRoute_twice_same. reflexivity. }
  assert (Hs : startFlight (setRoute [tokyo; tokyo] initialWorld)
               = setRoute [tokyo; tokyo] initialWorld).
  { apply startFlight_rejected. rewrite Hr. simpl. lia. }
  unfold startFlightPressed.
  change (List.length [tokyo; tokyo] <? 2)%nat with false.
  change (List.length [tokyo] <? 2)%nat with true.
  cbv iota. rewrite Hs.
  split; [exact Hr |].
  repeat split; reflexivity.
Qed.

(** ** The reset *)

(** More of the state one tick after the zone is drawn around the vehicle:
    the GPS quality and the battery level have gone down. *)
Lemma crashedAtLaunch_gps_battery :
  gpsQuality (state crashedAtLaunch) < 1
  /\ batteryLevel (state crashedAtLaunch) < 100.
Proof.
  rewrite crashedAtLaunch_tick. unfold tick.
  assert (Hh : horizontalMovement 0.1 jammedOnGround = Some jammedOnGround)
    by (apply horizontalMovement_idle; left; reflexivity).
  assert (Hd : computeDistance (position (state jammedOnGround))
                 (center jamAtLaunch) < 0.1 * radius jamAtLaunch)
    by (rewrite jammedOnGround_distance; simpl; lra).
  assert (Hc : crashed (state jammedOnGround) = false) by reflexivity.
  pose proof centreFactor_gt_2 as Hf.
  pose proof (afterJam_core 0.1 rndZero jammedOnGround jamAtLaunch eq_refl Hd)
    as Hcore.
  rewrite jammedOnGround_distance, expFactorOf_centre in Hcore by (simpl; lra).
  destruct (beforeJam_position 0.1 rndZero jammedOnGround) as [_ _].
  destruct (modeControl_writes jammedOnGround)
    as (ta & md & alt0 & vs0 & fs0 & cr0 & integ0 & con0 & Em).
  destruct (verticalControl_writes 0.1 rndZero (modeControl jammedOnGround))
    as (vs1 & alt1 & integ1 & lastErr1 & Ev & _).
  split.
  - unfold runPhysics.
    rewrite (updateFlightPhysics_parts 0.1 rndZero _ _ Hc Hh), state_upd.
    destruct (powerAndCounters_frame 0.1 (position (state jammedOnGround))
                (snd (afterJam 0.1 rndZero jammedOnGround))
                (state (fst (afterJam 0.1 rndZero jammedOnGround))))
      as (_ & _ & _ & _ & _ & _ & _ & _ & Hgps & _).
    rewrite Hgps, Hcore, state_upd.
    unfold jamErrors, jamCrash.
    cbn [gpsQuality set_gpsQuality set_engineRPM set_position set_altitude
         set_verticalSpeed set_vy set_vx set_flightStarted set_crashed log upd
         state].
    rewrite Ev, Em.
    cbn [gpsQuality set_altitude set_verticalSpeed set_crashed
         set_flightStarted set_mode set_targetAltitude state].
    change (gpsQuality (state jammedOnGround)) with 1.
    unfold clamp. apply Rmax_lub_lt; [clear; lra |].
    apply Rle_lt_trans with (1 - 0.1 * centreFactor);
      [apply Rmin_r | clear - Hf; lra].
  - assert (Hload : 0 < tickLoad 0.1 rndZero jammedOnGround).
    { unfold tickLoad. rewrite Hh. unfold totalLoadOf. rewrite Hcore, state_upd.
      unfold jamErrors, jamCrash.
      cbn [vx vy set_gpsQuality set_engineRPM set_position set_altitude
           set_verticalSpeed set_vy set_vx set_flightStarted set_crashed log
           upd state].
      unfold rndZero.
      set (a := 0 + (0 - 0.5) * 1.0 * centreFactor).
      assert (Ha : a < -1) by (unfold a; clear - Hf; lra).
      pose proof (Rabs_pos (snd (afterJam 0.1 (fun _ => 0) jammedOnGround)))
        as Habs.
      assert (Hsq : 0 < sqrt (a * a + a * a))
        by (apply sqrt_lt_R0; clear - Ha; nra).
      clear - Habs Hsq. lra. }
    unfold runPhysics.
    destruct (updateFlightPhysics 0.1 rndZero jammedOnGround) as [w' |] eqn:Hu.
    + rewrite (updateFlightPhysics_battery 0.1 rndZero jammedOnGround w' Hc Hu).
      change (batteryLevel (state jammedOnGround)) with 100.
      apply Rmax_lub_lt; clear - Hload; lra.
    + rewrite (updateFlightPhysics_parts 0.1 rndZero _ _ Hc Hh) in Hu.
      discriminate.
Qed.

(** What the reset does not write. *)
Lemma reset_keeps (sl : Sliders) (w : World) :
  vx (state (reset sl w)) = vx (state w)
  /\ vy (state (reset sl w)) = vy (state w)
  /\ mode (state (reset sl w)) = mode (state w)
  /\ engineRPM (state (reset sl w)) = engineRPM (state w)
  /\ batteryLevel (state (reset sl w)) = batteryLevel (state w)
  /\ batteryTemperature (state (reset sl w)) = batteryTemperature (state w)
  /\ gpsQuality (state (reset sl w)) = gpsQuality (state w)
  /\ flightTime (state (reset sl w)) = flightTime (state w)
  /\ totalDistance (state (reset sl w)) = totalDistance (state w)
  /\ wind (state (reset sl w)) = wind (state w)
  /\ jamZone (state (reset sl w)) = jamZone (state w)
  /\ repeatMission (state (reset sl w)) = repeatMission (state w).
Proof. repeat split; reflexivity. Qed.

(** C1, as the code has it.  Whatever the state, the reset leaves the
    vehicle on the ground at the point the page centres its map on, (35.6895,
    139.6917), with altitude, target altitude and vertical speed 0, no home,
    no route, waypoint index 0, and the flight-active, hover and crashed
    flags off, as they are in the initial state; and with the speed, the
    time multiplier, the full flight time and the altitude stability read
    from the sliders. *)
Theorem reset_restores :
  forall (sl : Sliders) (w : World),
    position (state (reset sl w)) = mkPoint 35.6895 139.6917
    /\ altitude (state (reset sl w)) = altitude initialState
    /\ targetAltitude (state (reset sl w)) = targetAltitude initialState
    /\ verticalSpeed (state (reset sl w)) = verticalSpeed initialState
    /\ homePosition (state (reset sl w)) = homePosition initialState
    /\ flightStarted (state (reset sl w)) = flightStarted initialState
    /\ route (state (reset sl w)) = route initialState
    /\ waypointIndex (state (reset sl w)) = waypointIndex initialState
    /\ hoverMode (state (reset sl w)) = hoverMode initialState
    /\ crashed (state (reset sl w)) = crashed initialState
    /\ horizontalSpeed (state (reset sl w)) = speedSlider sl / 3.6
    /\ timeMultiplier (state (reset sl w)) = multiplierSlider sl
    /\ fullFlightTime (state (reset sl w)) = fullFlightTimeSlider sl
    /\ altStability (state (reset sl w)) = altStabilitySlider sl.
Proof. intros sl w. repeat split; reflexivity. Qed.

(** The reset does not give back the initial state: not even from the
    initial state itself (the position), nor after commands (mode, wind, jam
    zone, repeat flag), nor after a tick inside a jam zone (velocity, GPS
    quality, battery level). *)
Lemma reset_is_not_initial :
  position (state (exec (Reset defaultSliders) initialWorld))
  <> position initialState
  /\ mode (state (exec (Reset defaultSliders) busyWorld)) <> mode initialState
  /\ wind (state (exec (Reset defaultSliders) busyWorld)) <> wind initialState
  /\ jamZone (state (exec (Reset defaultSliders) busyWorld))
     <> jamZone initialState
  /\ repeatMission (state (exec (Reset defaultSliders) busyWorld))
     <> repeatMission initialState
  /\ vx (state (exec (Reset defaultSliders) crashedAtLaunch)) <> vx initialState
  /\ gpsQuality (state (exec (Reset defaultSliders) crashedAtLaunch))
     <> gpsQuality initialState
  /\ batteryLevel (state (exec (Reset defaultSliders) crashedAtLaunch))
     <> batteryLevel initialState.
Proof.
  split; [simpl; intros H; injection H as H _; lra |].
  split; [simpl; discriminate |].
  split; [simpl; intros H; injection H as H _; lra |].
  split; [simpl; discriminate |].
  split; [simpl; discriminate |].
  unfold exec.
  destruct (reset_keeps defaultSliders crashedAtLaunch)
    as (-> & _ & _ & _ & -> & _ & -> & _).
  destruct crashedAtLaunch_state as (_ & _ & Hvx & _).
  destruct crashedAtLaunch_gps_battery as [Hgps Hbat].
  pose proof centreFactor_gt_2 as Hf.
  rewrite Hvx.
  change (vx initialState) with 0.
  change (gpsQuality initialState) with 1.
  change (batteryLevel initialState) with 100.
  split; [lra | split; lra].
Qed.

(** ** The desired speed *)

Lemma Rdiv_nonneg (x y : R) : 0 <= x -> 0 < y -> 0 <= x / y.
Proof. intros Hx Hy. unfold Rdiv. apply Rle_mult_inv_pos; assumption. Qed.















(** * Further properties of the code *)

(** ** The distance function *)



(** X2. Between two points of one meridian less than 180 degrees apart the
    distance is the length of the arc: 6371000 x PI / 180 metres for each
    degree of latitude. *)
Theorem computeDistance_meridian_arc :
  forall a b : Point,
    lng a = lng b -> Rabs (lat b - lat a) < 180 ->
    computeDistance a b = 6371000 * PI / 180 * Rabs (lat b - lat a).
Proof.
  intros a b Hl Hd. rewrite computeDistance_meridian by assumption.
  unfold Rdiv. ring.
Qed.

Lemma computeDistance_meridian_arc_witness :
  computeDistance tokyo tokyoFar = 6371000 * PI / 180 * Rabs (lat tokyoFar - lat tokyo).
Proof.
  apply (computeDistance_meridian_arc tokyo tokyoFar).
  - reflexivity.
  - simpl. rewrite Rabs_pos_eq by lra. lra.
Defined.

(** ** Routes that collapse *)

Lemma fold_filterStep_cluster {A : Type} (coords : A -> Point) (p : A)
    (l : list A) :
  Forall (fun q => computeDistance (coords q) (coords p) <= 5) l ->
  fold_left (filterStep coords) l [p] = [p].
Proof.
  induction 1 as [| q l Hq _ IH]; [reflexivity |].
  simpl. unfold filterStep at 2. rewrite keeps_cons. simpl last.
  rewrite Rltb_false by exact Hq. exact IH.
Qed.

Lemma filterRoute_cluster {A : Type} (coords : A -> Point) (p : A) (l : list A) :
  Forall (fun q => computeDistance (coords q) (coords p) <= 5) l ->
  filterRoute coords (p :: l) = [p].
Proof.
  intros H. unfold filterRoute. simpl. unfold filterStep at 2.
  rewrite keeps_nil. apply fold_filterStep_cluster. exact H.
Qed.

(** X3. Points that all lie within 5 m of the first one are filtered down to
    that first point.  So when the operator's clicks are such a cluster,
    however many, the start button leaves the vehicle where and as it was:
    the one-point route is stored, the start is turned down, no alert is
    raised. *)
Theorem cluster_route_never_starts :
  forall (p : Point) (l : list Point) (w : World),
    Forall (fun q => computeDistance q p <= 5) l ->
    filterRoute (fun q => q) (p :: l) = [p]
    /\ (l <> [] ->
        route (state (startFlightPressed (p :: l) w)) = [Fixed p]
        /\ flightStarted (state (startFlightPressed (p :: l) w))
           = flightStarted (state w)
        /\ position (state (startFlightPressed (p :: l) w)) = position (state w)
        /\ mode (state (startFlightPressed (p :: l) w)) = mode (state w)
        /\ alerts (startFlightPressed (p :: l) w) = alerts w).
Proof.
  intros p l w H.
  pose proof (filterRoute_cluster (fun q => q) p l H) as Hf.
  split; [exact Hf |].
  intros Hne. unfold startFlightPressed.
  destruct l as [| q l']; [contradiction |].
  change (List.length (p :: q :: l') <? 2)%nat with false. cbv iota.
  assert (Hr : route (state (setRoute (p :: q :: l') w)) = [Fixed p]).
  { destruct (setRoute_fields (p :: q :: l') w) as (_ & _ & ->).
    rewrite Hf. reflexivity. }
  rewrite startFlight_rejected by (rewrite Hr; simpl; lia).
  split; [exact Hr |]. repeat split; reflexivity.
Qed.

Lemma cluster_route_never_starts_witness :
  filterRoute (fun q => q) [tokyo; tokyo; tokyo] = [tokyo].
Proof.
  apply (cluster_route_never_starts tokyo [tokyo; tokyo] initialWorld).
  repeat constructor; rewrite computeDistance_same; lra.
Defined.

(** ** When the tick throws *)

Lemma navigate_None_iff (dt : R) (w : World) :
  navigate dt w = None
  <-> (List.length (route (state w)) <= waypointIndex (state w))%nat.
Proof.
  unfold navigate. rewrite <- nth_error_None.
  destruct (nth_error (route (state w)) (waypointIndex (state w))) as [wp |].
  - split; [| discriminate].
    destruct (computeDistance (position (state w))
                (resolve (position (state w)) wp) <? 10);
      [destruct (waypointReached wp _ _ w) as [[w2 t2] d2] |]; discriminate.
  - split; reflexivity.
Qed.

Lemma horizontalMovement_None_iff (dt : R) (w : World) :
  horizontalMovement dt w = None
  <-> hoverMode (state w) = false
      /\ flightStarted (state w) = true
      /\ route (state w) <> []
      /\ mode (state w) <> Landing
      /\ (List.length (route (state w)) <= waypointIndex (state w))%nat.
Proof.
  unfold horizontalMovement.
  destruct (hoverMode (state w)); cbn [negb andb].
  { split; [discriminate | intros (H & _); discriminate]. }
  destruct (flightStarted (state w)); cbn [andb].
  2: { split; [discriminate | intros (_ & H & _); discriminate]. }
  destruct (route (state w)) as [| wp0 rest] eqn:Hr; cbn [List.length Nat.ltb Nat.leb].
  { split; [discriminate | intros (_ & _ & H & _); contradiction]. }
  change (0 <? S (List.length rest))%nat with true. cbv iota.
  destruct (mode (state w)) eqn:Hm;
    try (rewrite navigate_None_iff, Hr; split;
         [ intros H; repeat split; (discriminate || exact H)
         | intros (_ & _ & _ & _ & H); exact H ]).
  split; [discriminate | intros (_ & _ & _ & H & _); contradiction].
Qed.

(** X4. A call of the tick function throws (a [TypeError], on reading
    [route[waypointIndex]]) exactly when the vehicle is not crashed, is in
    flight and not hovering, is not in landing mode, and its waypoint index
    is at or past the end of a non-empty route; in every other state it
    returns.  When it throws, nothing has been written. *)
Theorem updateFlightPhysics_throws_iff :
  forall (dt : R) (rnd : nat -> R) (w : World),
    (updateFlightPhysics dt rnd w = None
     <-> crashed (state w) = false
         /\ hoverMode (state w) = false
         /\ flightStarted (state w) = true
         /\ route (state w) <> []
         /\ mode (state w) <> Landing
         /\ (List.length (route (state w)) <= waypointIndex (state w))%nat)
    /\ (updateFlightPhysics dt rnd w = None -> runPhysics dt rnd w = w).
Proof.
  intros dt rnd w. split.
  - unfold updateFlightPhysics.
    destruct (crashed (state w)).
    + split; [discriminate | intros (H & _); discriminate].
    + rewrite <- horizontalMovement_None_iff with (dt := dt).
      destruct (horizontalMovement dt w) as [w1 |].
      * destruct (afterJam dt rnd w1) as [w2 verticalAccel].
        split; [discriminate | intros (_ & H); discriminate].
      * split; [intros _; split; reflexivity | reflexivity].
  - intros H. unfold runPhysics. rewrite H. reflexivity.
Qed.

(** ** The waypoint index *)

Lemma waypointReached_index (wp : Waypoint) (target : Point) (d : R) (w : World) :
  (waypointIndex (state w) < List.length (route (state w)))%nat ->
  (waypointIndex (state (fst (fst (waypointReached wp target d w))))
   <= List.length (route (state (fst (fst (waypointReached wp target d w))))))%nat.
Proof.
  intros H. unfold waypointReached.
  destruct w as [[] integ lastErr al con cl]. cbn in H. writes.
  match goal with
  | |- context [(List.length ?r <=? S ?i)%nat] =>
      destruct (Nat.leb_spec (List.length r) (S i)) as [Hend | Hmore]
  end.
  - match goal with
    | |- context [if ?b && ?c then _ else _] => destruct (b && c)
    end.
    + match goal with
      | |- context [match ?h with Some _ => _ | None => _ end] => destruct h
      end; writes; cbn; lia.
    + writes. cbn. lia.
  - writes. cbn. lia.
Qed.

Lemma upd_steer_route (dt v : R) (target : Point) (w : World) :
  route (state (upd (steer dt v target) w)) = route (state w)
  /\ waypointIndex (state (upd (steer dt v target) w)) = waypointIndex (state w).
Proof.
  destruct (upd_steer_writes dt v target w) as (vx' & vy' & pos' & ->).
  split; reflexivity.
Qed.

Lemma navigate_index (dt : R) (w w1 : World) :
  navigate dt w = Some w1 ->
  (waypointIndex (state w1) <= List.length (route (state w1)))%nat.
Proof.
  unfold navigate.
  destruct (nth_error (route (state w)) (waypointIndex (state w))) as [wp |] eqn:Hn;
    [| discriminate].
  assert (Hlt : (waypointIndex (state w) < List.length (route (state w)))%nat)
    by (apply nth_error_Some; rewrite Hn; discriminate).
  set (target := resolve (position (state w)) wp).
  set (d := computeDistance (position (state w)) target).
  destruct (d <? 10).
  - pose proof (waypointReached_index wp target d w Hlt) as Hidx.
    destruct (waypointReached wp target d w) as [[w2 target2] d2].
    cbn [fst] in Hidx. intros H. apply Some_inj in H. subst w1.
    match goal with
    | |- context [upd (steer ?a ?b ?c) ?x] =>
        destruct (upd_steer_route a b c x) as [-> ->]
    end.
    exact Hidx.
  - intros H. apply Some_inj in H. subst w1.
    match goal with
    | |- context [upd (steer ?a ?b ?c) ?x] =>
        destruct (upd_steer_route a b c x) as [-> ->]
    end.
    cbn. lia.
Qed.

Lemma horizontalMovement_index (dt : R) (w w1 : World) :
  (waypointIndex (state w) <= List.length (route (state w)))%nat ->
  horizontalMovement dt w = Some w1 ->
  (waypointIndex (state w1) <= List.length (route (state w1)))%nat.
Proof.
  intros Hle. unfold horizontalMovement.
  destruct (negb (hoverMode (state w)) && flightStarted (state w)
            && (0 <? List.length (route (state w)))%nat).
  - destruct (mode (state w)); try apply navigate_index.
    intros H. apply Some_inj in H. subst w1. unfold landingApproach.
    match goal with
    | |- context [upd (steer ?a ?b ?c) ?x] =>
        destruct (upd_steer_route a b c x) as [-> ->]
    end.
    exact Hle.
  - intros H. apply Some_inj in H. subst w1. exact Hle.
Qed.

(** The statements after the horizontal movement leave the route and the
    index alone. *)
Lemma afterHorizontal_route (dt : R) (rnd : nat -> R) (prevPos : Point)
    (w1 : World) :
  let w' := upd (powerAndCounters dt prevPos (snd (afterJam dt rnd w1)))
              (fst (afterJam dt rnd w1)) in
  route (state w') = route (state w1)
  /\ waypointIndex (state w') = waypointIndex (state w1).
Proof.
  cbv zeta. rewrite state_upd.
  destruct (powerAndCounters_writes dt prevPos (snd (afterJam dt rnd w1))
              (state (fst (afterJam dt rnd w1))))
    as (rpm' & temp & dist & time & E3).
  destruct (afterJam_writes dt rnd w1)
    as (ta & md & cr & fs & vx' & vy' & vs & alt & pos' & rpm & gps & integ
        & lastErr & con & E2).
  rewrite E3, E2. split; reflexivity.
Qed.

(** X5. A tick keeps the waypoint index within the route (at most its
    length); and with the index strictly inside the route the call does not
    throw. *)
Theorem waypointIndex_stays_in_route :
  forall (dt : R) (rnd : nat -> R) (w : World),
    (waypointIndex (state w) <= List.length (route (state w)))%nat ->
    (waypointIndex (state (runPhysics dt rnd w))
     <= List.length (route (state (runPhysics dt rnd w))))%nat
    /\ ((waypointIndex (state w) < List.length (route (state w)))%nat ->
        exists w' : World, updateFlightPhysics dt rnd w = Some w').
Proof.
  intros dt rnd w Hle. split.
  - unfold runPhysics.
    destruct (crashed (state w)) eqn:Hc.
    + rewrite (updateFlightPhysics_crashed dt rnd w Hc). exact Hle.
    + destruct (horizontalMovement dt w) as [w1 |] eqn:Hh.
      * rewrite (updateFlightPhysics_parts dt rnd w w1 Hc Hh).
        destruct (afterHorizontal_route dt rnd (position (state w)) w1) as [-> ->].
        apply (horizontalMovement_index dt w w1 Hle Hh).
      * rewrite (updateFlightPhysics_throws dt rnd w Hc Hh). exact Hle.
  - intros Hlt.
    destruct (updateFlightPhysics dt rnd w) as [w' |] eqn:Hu;
      [exists w'; reflexivity |].
    exfalso.
    destruct (crashed (state w)) eqn:Hc.
    + rewrite (updateFlightPhysics_crashed dt rnd w Hc) in Hu. discriminate.
    + destruct (horizontalMovement dt w) as [w1 |] eqn:Hh.
      * rewrite (updateFlightPhysics_parts dt rnd w w1 Hc Hh) in Hu. discriminate.
      * apply horizontalMovement_None_iff in Hh.
        destruct Hh as (_ & _ & _ & _ & Hh). lia.
Qed.

Lemma waypointIndex_stays_in_route_witness :
  (waypointIndex (state (runPhysics 0.1 rndHalf groundedWithRoute))
   <= List.length (route (state (runPhysics 0.1 rndHalf groundedWithRoute))))%nat.
Proof.
  apply (waypointIndex_stays_in_route 0.1 rndHalf groundedWithRoute).
  simpl. lia.
Defined.

(** ** Quantities kept in their range *)

(** An invariant of the commands and of the tick holds in every state that
    they produce from the initial one. *)
Lemma run_invariant (P : World -> Prop) :
  P initialWorld ->
  (forall (c : Command) (w : World), P w -> P (exec c w)) ->
  (forall (rnd : nat -> R) (w : World), P w -> P (tick rnd w)) ->
  forall events : list Event, P (run events).
Proof.
  intros Hinit Hexec Htick events. unfold run.
  revert Hinit. generalize initialWorld as w.
  induction events as [| e events IH]; intros w Hw; [exact Hw |].
  cbn [fold_left]. apply IH. destruct e as [c | rnd]; cbn [step]; auto.
Qed.

(** No command writes the GPS quality, the battery temperature or the
    engine speed. *)
Lemma exec_keeps_sensors (c : Command) (w : World) :
  gpsQuality (state (exec c w)) = gpsQuality (state w)
  /\ batteryTemperature (state (exec c w)) = batteryTemperature (state w)
  /\ engineRPM (state (exec c w)) = engineRPM (state w).
Proof.
  destruct c;
    try (unfold exec, setRoute, stopFlight, setHome, takeOff, land, hover,
           updateParameters, updateWind, setJamZone, clearJamZone, setRepeat,
           reset, north, south, east, west, altUp, altDown;
         repeat match goal with
                | |- context [if ?b then _ else _] => destruct b
                | |- context [match ?o with Some _ => _ | None => _ end] =>
                    destruct o
                end;
         (split; [| split]; reflexivity)).
  (* StartFlight *)
  unfold exec, startFlight.
  destruct (List.length (route (state w)) <? 2)%nat.
  { split; [| split]; reflexivity. }
  destruct (flightStarted (state w)) eqn:Hfs;
    cbn -[filterRoute]; rewrite Hfs; cbn -[filterRoute].
  { split; [| split]; reflexivity. }
  destruct (homePosition (state w)); (split; [| split]; reflexivity).
Qed.

(** What the statements after the horizontal movement make of the GPS
    quality, the battery temperature and the integral of the altitude
    error. *)
Lemma jamInterference_gps (rnd : nat -> R) (w : World) :
  0 <= gpsQuality (state (jamInterference rnd w)) <= 1
  /\ (0.1 <= gpsQuality (state w) ->
      0.1 <= gpsQuality (state (jamInterference rnd w))).
Proof.
  unfold jamInterference, jamCrash, jamErrors.
  destruct (jamZone (state w)) as [z |].
  - destruct (Rltb_spec (computeDistance (position (state w)) (center z)) (radius z)).
    + assert (Hc : forall e g, 0.1 <= clamp (g - 0.1 * e) 0.1 1 <= 1)
        by (intros; apply clamp_bounds; lra).
      destruct (computeDistance (position (state w)) (center z) <? 0.1 * radius z);
        writes; match goal with |- context [clamp (?g - 0.1 * ?e) 0.1 1] =>
                  pose proof (Hc e g) end; split; intros; lra.
    + writes.
      match goal with |- context [clamp ?v 0 1] =>
        pose proof (clamp_bounds v 0 1 ltac:(lra)) as Hb;
        assert (Hm : Rmin 1 v <= clamp v 0 1) by (unfold clamp; apply Rmax_r)
      end.
      split; [exact Hb |]. intros Hg.
      match goal with |- 0.1 <= clamp ?v 0 1 =>
        apply Rle_trans with (Rmin 1 v); [apply Rmin_glb; lra | exact Hm]
      end.
  - writes.
    match goal with |- context [clamp ?v 0.8 1] =>
      pose proof (clamp_bounds v 0.8 1 ltac:(lra)) end.
    split; intros; lra.
Qed.

Lemma beforeJam_gps (dt : R) (rnd : nat -> R) (w : World) :
  gpsQuality (state (fst (verticalControl dt rnd (modeControl w))))
  = gpsQuality (state w).
Proof.
  destruct (modeControl_writes w)
    as (ta & md & alt0 & vs0 & fs0 & cr0 & integ0 & con0 & Em).
  destruct (verticalControl_writes dt rnd (modeControl w))
    as (vs1 & alt1 & integ1 & lastErr1 & Ev & _).
  rewrite Ev, Em. reflexivity.
Qed.

Lemma horizontalMovement_sensors (dt : R) (w w1 : World) :
  horizontalMovement dt w = Some w1 ->
  gpsQuality (state w1) = gpsQuality (state w)
  /\ batteryTemperature (state w1) = batteryTemperature (state w)
  /\ engineRPM (state w1) = engineRPM (state w)
  /\ altitude (state w1) = altitude (state w)
  /\ totalDistance (state w1) = totalDistance (state w)
  /\ flightTime (state w1) = flightTime (state w)
  /\ flightStarted (state w1) = flightStarted (state w)
  /\ crashed (state w1) = crashed (state w)
  /\ jamZone (state w1) = jamZone (state w).
Proof.
  intros Hh.
  destruct (horizontalMovement_writes dt w w1 Hh)
    as (idx & rt & md0 & ta0 & ds & vx0 & vy0 & pos0 & con0 & ->).
  repeat split; reflexivity.
Qed.

Lemma updateFlightPhysics_gps (dt : R) (rnd : nat -> R) (w w' : World) :
  crashed (state w) = false ->
  updateFlightPhysics dt rnd w = Some w' ->
  0 <= gpsQuality (state w') <= 1
  /\ (0.1 <= gpsQuality (state w) -> 0.1 <= gpsQuality (state w')).
Proof.
  intros Hc Hu.
  destruct (horizontalMovement dt w) as [w1 |] eqn:Hh;
    [| rewrite (updateFlightPhysics_throws dt rnd w Hc Hh) in Hu; discriminate].
  rewrite (updateFlightPhysics_parts dt rnd w w1 Hc Hh) in Hu.
  apply Some_inj in Hu. subst w'. rewrite state_upd.
  destruct (powerAndCounters_frame dt (position (state w))
              (snd (afterJam dt rnd w1)) (state (fst (afterJam dt rnd w1))))
    as (_ & _ & _ & _ & _ & _ & _ & _ & Hgps & _).
  rewrite Hgps. unfold afterJam.
  pose proof (beforeJam_gps dt rnd w1) as Hg.
  destruct (verticalControl dt rnd (modeControl w1)) as [w2 verticalAccel].
  cbn [fst] in *.
  destruct (horizontalMovement_sensors dt w w1 Hh) as (Hg1 & _).
  rewrite <- Hg1, <- Hg. apply jamInterference_gps.
Qed.

(** X6. Whatever the GPS quality was, a tick that the vehicle goes through
    (not crashed, no exception) leaves it between 0 and 1; and in every
    state that commands and ticks produce from the initial one it is between
    0.1 and 1. *)
Theorem gpsQuality_range :
  (forall (dt : R) (rnd : nat -> R) (w w' : World),
      crashed (state w) = false ->
      updateFlightPhysics dt rnd w = Some w' ->
      0 <= gpsQuality (state w') <= 1)
  /\ (forall events : list Event,
         0.1 <= gpsQuality (state (run events)) <= 1).
Proof.
  split.
  - intros dt rnd w w' Hc Hu.
    apply (updateFlightPhysics_gps dt rnd w w' Hc Hu).
  - apply (run_invariant (fun w => 0.1 <= gpsQuality (state w) <= 1)).
    + simpl. lra.
    + intros c w Hw. destruct (exec_keeps_sensors c w) as (-> & _). exact Hw.
    + intros rnd w Hw. unfold tick, runPhysics.
      destruct (updateFlightPhysics 0.1 rnd w) as [w' |] eqn:Hu; [| exact Hw].
      destruct (crashed (state w)) eqn:Hc.
      * rewrite (updateFlightPhysics_crashed 0.1 rnd w Hc) in Hu.
        apply Some_inj in Hu. subst w'. exact Hw.
      * destruct (updateFlightPhysics_gps 0.1 rnd w w' Hc Hu) as [[_ Hhi] Hlo].
        split; [apply Hlo; apply Hw | exact Hhi].
Qed.

(** ** The battery temperature *)

Lemma powerAndCounters_temperature (dt : R) (prevPos : Point)
    (verticalAccel : R) (s : State) :
  30 <= batteryTemperature (powerAndCounters dt prevPos verticalAccel s) <= 60.
Proof.
  destruct s. unfold powerAndCounters.
  set (load := totalLoadOf verticalAccel _). writes.
  split_tests; writes; apply clamp_bounds; lra.
Qed.

Lemma updateFlightPhysics_temperature (dt : R) (rnd : nat -> R) (w w' : World) :
  crashed (state w) = false ->
  updateFlightPhysics dt rnd w = Some w' ->
  30 <= batteryTemperature (state w') <= 60.
Proof.
  intros Hc Hu.
  destruct (horizontalMovement dt w) as [w1 |] eqn:Hh;
    [| rewrite (updateFlightPhysics_throws dt rnd w Hc Hh) in Hu; discriminate].
  rewrite (updateFlightPhysics_parts dt rnd w w1 Hc Hh) in Hu.
  apply Some_inj in Hu. subst w'. rewrite state_upd.
  apply powerAndCounters_temperature.
Qed.

(** X7. Whatever the battery temperature was, a tick that the vehicle goes
    through leaves it between 30 and 60 degrees; and it is in that range in
    every state that commands and ticks produce from the initial one. *)
Theorem batteryTemperature_range :
  (forall (dt : R) (rnd : nat -> R) (w w' : World),
      crashed (state w) = false ->
      updateFlightPhysics dt rnd w = Some w' ->
      30 <= batteryTemperature (state w') <= 60)
  /\ (forall events : list Event,
         30 <= batteryTemperature (state (run events)) <= 60).
Proof.
  split.
  - exact updateFlightPhysics_temperature.
  - apply (run_invariant (fun w => 30 <= batteryTemperature (state w) <= 60)).
    + simpl. lra.
    + intros c w Hw. destruct (exec_keeps_sensors c w) as (_ & -> & _). exact Hw.
    + intros rnd w Hw. unfold tick, runPhysics.
      destruct (updateFlightPhysics 0.1 rnd w) as [w' |] eqn:Hu; [| exact Hw].
      destruct (crashed (state w)) eqn:Hc.
      * rewrite (updateFlightPhysics_crashed 0.1 rnd w Hc) in Hu.
        apply Some_inj in Hu. subst w'. exact Hw.
      * apply (updateFlightPhysics_temperature 0.1 rnd w w' Hc Hu).
Qed.

(** ** The altitude controller *)

Lemma verticalControl_integral (dt : R) (rnd : nat -> R) (w : World) :
  - 10 <= altErrorIntegral (fst (verticalControl dt rnd w)) <= 10.
Proof.
  destruct w as [[] integ lastErr al con cl].
  unfold verticalControl. writes.
  match goal with
  | |- context [if ?c <? 0 then _ else _] => destruct (c <? 0)
  end; writes; unfold maxIntegral; apply clamp_bounds; lra.
Qed.

Lemma updateFlightPhysics_integral (dt : R) (rnd : nat -> R) (w w' : World) :
  crashed (state w) = false ->
  updateFlightPhysics dt rnd w = Some w' ->
  - 10 <= altErrorIntegral w' <= 10.
Proof.
  intros Hc Hu.
  destruct (horizontalMovement dt w) as [w1 |] eqn:Hh;
    [| rewrite (updateFlightPhysics_throws dt rnd w Hc Hh) in Hu; discriminate].
  rewrite (updateFlightPhysics_parts dt rnd w w1 Hc Hh) in Hu.
  apply Some_inj in Hu. subst w'.
  unfold upd. cbn [altErrorIntegral]. unfold afterJam.
  pose proof (verticalControl_integral dt rnd (modeControl w1)) as Hi.
  destruct (verticalControl dt rnd (modeControl w1)) as [w2 verticalAccel].
  cbn [fst] in *.
  destruct (jamInterference_writes rnd w2)
    as (cr & fs & vx' & vy' & vs & alt & pos' & rpm & gps & con & ->).
  exact Hi.
Qed.

Lemma exec_integral (c : Command) (w : World) :
  altErrorIntegral (exec c w) = altErrorIntegral w
  \/ altErrorIntegral (exec c w) = 0.
Proof.
  destruct c;
    try (left; unfold exec, setRoute, stopFlight, setHome, land, hover,
           updateParameters, updateWind, setJamZone, clearJamZone, setRepeat,
           reset, north, south, east, west, altUp, altDown;
         repeat match goal with
                | |- context [if ?b then _ else _] => destruct b
                | |- context [match ?o with Some _ => _ | None => _ end] =>
                    destruct o
                end;
         reflexivity).
  - (* StartFlight *)
    unfold exec, startFlight.
    destruct (List.length (route (state w)) <? 2)%nat;
      [left; reflexivity | right; reflexivity].
  - (* TakeOffCmd *)
    unfold exec, takeOff.
    destruct (flightStarted (state w)); [left | right]; reflexivity.
Qed.

(** X8. The acceleration that the altitude controller commands is always
    between -3 and 3 m/s2.  Whatever the integral of the altitude error was,
    a tick that the vehicle goes through leaves it between -10 and 10, and
    it is in that range in every state that commands and ticks produce from
    the initial one. *)
Theorem altitude_controller_bounded :
  (forall (dt : R) (rnd : nat -> R) (w : World),
      -3 <= snd (verticalControl dt rnd w) <= 3)
  /\ (forall (dt : R) (rnd : nat -> R) (w w' : World),
         crashed (state w) = false ->
         updateFlightPhysics dt rnd w = Some w' ->
         - 10 <= altErrorIntegral w' <= 10)
  /\ (forall events : list Event,
         - 10 <= altErrorIntegral (run events) <= 10).
Proof.
  split; [exact verticalAccel_bounds | split].
  - exact updateFlightPhysics_integral.
  - apply (run_invariant (fun w => - 10 <= altErrorIntegral w <= 10)).
    + simpl. lra.
    + intros c w Hw. destruct (exec_integral c w) as [-> | ->]; [exact Hw | lra].
    + intros rnd w Hw. unfold tick, runPhysics.
      destruct (updateFlightPhysics 0.1 rnd w) as [w' |] eqn:Hu; [| exact Hw].
      destruct (crashed (state w)) eqn:Hc.
      * rewrite (updateFlightPhysics_crashed 0.1 rnd w Hc) in Hu.
        apply Some_inj in Hu. subst w'. exact Hw.
      * apply (updateFlightPhysics_integral 0.1 rnd w w' Hc Hu).
Qed.

(** ** The acceleration limit *)

Lemma steer_velocity (dt v : R) (target : Point) (s : State) :
  exists ax ay : R,
    vx (steer dt v target s) = vx s + ax * dt
    /\ vy (steer dt v target s) = vy s + ay * dt
    /\ ax * ax + ay * ay <= maxAcceleration * maxAcceleration.
Proof.
  unfold steer. cbn [vx vy set_position set_vy set_vx].
  set (ax := cos _ * v - vx s). set (ay := sin _ * v - vy s).
  set (aMag := sqrt (ax * ax + ay * ay)).
  assert (Hsq : 0 <= ax * ax + ay * ay) by nra.
  assert (Hm : aMag * aMag = ax * ax + ay * ay) by (apply sqrt_sqrt; exact Hsq).
  assert (Hm0 : 0 <= aMag) by apply sqrt_pos.
  unfold maxAcceleration in *.
  destruct (Rltb_spec 5 aMag) as [Hbig | Hsmall].
  - exists (ax * (5 / aMag)), (ay * (5 / aMag)).
    split; [reflexivity | split; [reflexivity |]].
    assert (Hk : aMag * (5 / aMag) = 5) by (field; lra).
    replace (ax * (5 / aMag) * (ax * (5 / aMag)) + ay * (5 / aMag) * (ay * (5 / aMag)))
      with ((ax * ax + ay * ay) * ((5 / aMag) * (5 / aMag))) by ring.
    rewrite <- Hm.
    replace (aMag * aMag * (5 / aMag * (5 / aMag)))
      with (aMag * (5 / aMag) * (aMag * (5 / aMag))) by ring.
    rewrite Hk. lra.
  - exists ax, ay. split; [reflexivity | split; [reflexivity |]].
    rewrite <- Hm. nra.
Qed.

Lemma velocity_step_bound (ax ay dt : R) :
  ax * ax + ay * ay <= maxAcceleration * maxAcceleration ->
  sqrt ((ax * dt) * (ax * dt) + (ay * dt) * (ay * dt))
  <= maxAcceleration * Rabs dt.
Proof.
  intros H. unfold maxAcceleration in *.
  assert (Habs : Rabs dt * Rabs dt = dt * dt).
  { rewrite <- Rabs_mult. apply Rabs_pos_eq. nra. }
  pose proof (Rabs_pos dt) as Hp.
  rewrite <- (sqrt_square (5 * Rabs dt)) by lra.
  apply sqrt_le_1; nra.
Qed.

Lemma steer_limit (dt v : R) (target : Point) (s : State) :
  sqrt ((vx (steer dt v target s) - vx s) * (vx (steer dt v target s) - vx s)
        + (vy (steer dt v target s) - vy s) * (vy (steer dt v target s) - vy s))
  <= maxAcceleration * Rabs dt.
Proof.
  destruct (steer_velocity dt v target s) as (ax & ay & -> & -> & H).
  replace (vx s + ax * dt - vx s) with (ax * dt) by ring.
  replace (vy s + ay * dt - vy s) with (ay * dt) by ring.
  apply velocity_step_bound. exact H.
Qed.

Lemma navigate_velocity_source (dt : R) (w w1 : World) :
  navigate dt w = Some w1 ->
  exists (v : R) (target : Point) (s : State),
    state w1 = steer dt v target s /\ vx s = vx (state w) /\ vy s = vy (state w).
Proof.
  unfold navigate.
  destruct (nth_error (route (state w)) (waypointIndex (state w))) as [wp |];
    [| discriminate].
  set (target := resolve (position (state w)) wp).
  set (d := computeDistance (position (state w)) target).
  destruct (d <? 10).
  - destruct (waypointReached_writes wp target d w)
      as (idx & rt & md & ta & con & E).
    destruct (waypointReached wp target d w) as [[w2 target2] d2].
    cbn [fst] in E. subst w2. intros H. apply Some_inj in H. subst w1.
    rewrite !state_upd. do 3 eexists. split; [reflexivity |].
    split; reflexivity.
  - intros H. apply Some_inj in H. subst w1.
    rewrite !state_upd. do 3 eexists. split; [reflexivity |].
    split; reflexivity.
Qed.

(** X9. The turn towards the target changes the horizontal velocity by at
    most 5 m/s2 times the tick duration, in magnitude, whatever the target,
    the target speed and the current velocity; and so does the whole
    horizontal movement of a tick. *)
Theorem acceleration_is_limited :
  (forall (dt v : R) (target : Point) (s : State),
      sqrt ((vx (steer dt v target s) - vx s) * (vx (steer dt v target s) - vx s)
            + (vy (steer dt v target s) - vy s) * (vy (steer dt v target s) - vy s))
      <= maxAcceleration * Rabs dt)
  /\ (forall (dt : R) (w w1 : World),
         horizontalMovement dt w = Some w1 ->
         sqrt ((vx (state w1) - vx (state w)) * (vx (state w1) - vx (state w))
               + (vy (state w1) - vy (state w)) * (vy (state w1) - vy (state w)))
         <= maxAcceleration * Rabs dt).
Proof.
  split; [exact steer_limit |].
  intros dt w w1. unfold horizontalMovement.
  destruct (negb (hoverMode (state w)) && flightStarted (state w)
            && (0 <? List.length (route (state w)))%nat).
  - destruct (mode (state w));
      try (intros H; destruct (navigate_velocity_source dt w w1 H)
             as (v & target & s & -> & <- & <-); apply steer_limit).
    intros H. apply Some_inj in H. subst w1. unfold landingApproach.
    rewrite state_upd. apply steer_limit.
  - intros H. apply Some_inj in H. subst w1.
    replace (vx (state w) - vx (state w)) with 0 by ring.
    replace (vy (state w) - vy (state w)) with 0 by ring.
    replace (0 * 0 + 0 * 0) with 0 by ring. rewrite sqrt_0.
    unfold maxAcceleration. pose proof (Rabs_pos dt). lra.
Qed.

(** ** The two counters *)

Lemma powerAndCounters_counters (dt : R) (prevPos : Point) (verticalAccel : R)
    (s : State) :
  let s' := powerAndCounters dt prevPos verticalAccel s in
  totalDistance s' = totalDistance s + computeDistance prevPos (position s)
  /\ flightTime s'
     = if flightStarted s then flightTime s + dt else flightTime s.
Proof.
  destruct s. unfold powerAndCounters.
  set (load := totalLoadOf verticalAccel _). writes.
  match goal with
  | |- context [if ?c <? 0 then _ else _] => destruct (c <? 0)
  end; writes;
    match goal with
    | |- context [if 3000 <? ?c then _ else _] => destruct (3000 <? c)
    end; writes;
    match goal with
    | |- context [if ?c then _ else _] => destruct c
    end; writes; split; reflexivity.
Qed.

Lemma updateFlightPhysics_counters (dt : R) (rnd : nat -> R) (w w' : World) :
  crashed (state w) = false ->
  updateFlightPhysics dt rnd w = Some w' ->
  totalDistance (state w')
  = totalDistance (state w)
    + computeDistance (position (state w)) (position (state w'))
  /\ flightTime (state w')
     = if flightStarted (state w') then flightTime (state w) + dt
       else flightTime (state w).
Proof.
  intros Hc Hu.
  destruct (horizontalMovement dt w) as [w1 |] eqn:Hh.
  - rewrite (updateFlightPhysics_parts dt rnd w w1 Hc Hh) in Hu.
    apply Some_inj in Hu. subst w'.
    destruct (horizontalMovement_writes dt w w1 Hh)
      as (idx & rt & md0 & ta0 & ds & vx0 & vy0 & pos0 & con0 & E1).
    destruct (afterJam_writes dt rnd w1)
      as (ta & md & cr & fs & vx' & vy' & vs & alt & pos' & rpm & gps & integ
          & lastErr & con & E2).
    set (verticalAccel := snd (afterJam dt rnd w1)).
    rewrite state_upd.
    destruct (powerAndCounters_frame dt (position (state w)) verticalAccel
                (state (fst (afterJam dt rnd w1))))
      as (Hp & _ & _ & _ & _ & _ & Hfs & _).
    destruct (powerAndCounters_counters dt (position (state w)) verticalAccel
                (state (fst (afterJam dt rnd w1)))) as [Hd Ht].
    rewrite Hp, Hfs, Hd, Ht. rewrite E2, E1. split; reflexivity.
  - rewrite (updateFlightPhysics_throws dt rnd w Hc Hh) in Hu. discriminate.
Qed.

(** X10. Over a call of the tick function the distance counter grows by the
    distance between the position before the call and the position after it
    (jumps made by the jam errors included), so it never decreases; the
    flight time grows by [dt] when the call completes on a vehicle that is
    not crashed and is in flight at its end, and is left as it was in every
    other case. *)
Theorem counters_of_a_tick :
  forall (dt : R) (rnd : nat -> R) (w : World),
    let w' := runPhysics dt rnd w in
    totalDistance (state w')
    = totalDistance (state w)
      + computeDistance (position (state w)) (position (state w'))
    /\ totalDistance (state w) <= totalDistance (state w')
    /\ (flightTime (state w') = flightTime (state w)
        \/ flightTime (state w') = flightTime (state w) + dt)
    /\ (flightStarted (state w') = false ->
        flightTime (state w') = flightTime (state w))
    /\ (crashed (state w) = false ->
        flightStarted (state w') = true ->
        updateFlightPhysics dt rnd w <> None ->
        flightTime (state w') = flightTime (state w) + dt).
Proof.
  intros dt rnd w w'. subst w'. unfold runPhysics.
  assert (Hsame :
            totalDistance (state w)
            = totalDistance (state w)
              + computeDistance (position (state w)) (position (state w))).
  { rewrite computeDistance_same. lra. }
  destruct (crashed (state w)) eqn:Hc.
  - rewrite (updateFlightPhysics_crashed dt rnd w Hc).
    repeat split; auto; try lra; discriminate.
  - destruct (updateFlightPhysics dt rnd w) as [w' |] eqn:Hu.
    + destruct (updateFlightPhysics_counters dt rnd w w' Hc Hu) as [Hd Ht].
      pose proof (computeDistance_nonneg (position (state w)) (position (state w'))).
      split; [exact Hd |]. split; [lra |].
      destruct (flightStarted (state w')); repeat split; auto;
        try discriminate.
    + repeat split; auto; try lra. intros _ _ H. contradiction.
Qed.

(** ** The flight mode and the flags over a tick *)

Lemma steer_mode (dt v : R) (target : Point) (s : State) :
  mode (steer dt v target s) = mode s.
Proof.
  destruct (steer_writes dt v target s) as (vx' & vy' & pos' & ->). reflexivity.
Qed.

Lemma waypointReached_mode (wp : Waypoint) (target : Point) (d : R) (w : World) :
  mode (state (fst (fst (waypointReached wp target d w)))) = mode (state w)
  \/ mode (state (fst (fst (waypointReached wp target d w)))) = Landing.
Proof.
  destruct w as [[] integ lastErr al con cl].
  unfold waypointReached. split_tests; writes; auto.
Qed.

Lemma navigate_mode (dt : R) (w w1 : World) :
  navigate dt w = Some w1 ->
  mode (state w1) = mode (state w) \/ mode (state w1) = Landing.
Proof.
  unfold navigate.
  destruct (nth_error (route (state w)) (waypointIndex (state w))) as [wp |];
    [| discriminate].
  set (target := resolve (position (state w)) wp).
  set (d := computeDistance (position (state w)) target).
  destruct (d <? 10).
  - pose proof (waypointReached_mode wp target d w) as Hm.
    destruct (waypointReached wp target d w) as [[w2 target2] d2].
    cbn [fst] in Hm. intros H. apply Some_inj in H. subst w1.
    rewrite !state_upd, steer_mode. exact Hm.
  - intros H. apply Some_inj in H. subst w1.
    rewrite !state_upd, steer_mode. left. reflexivity.
Qed.

Lemma horizontalMovement_mode (dt : R) (w w1 : World) :
  horizontalMovement dt w = Some w1 ->
  mode (state w1) = mode (state w)
  \/ (mode (state w1) = Landing /\ flightStarted (state w) = true).
Proof.
  unfold horizontalMovement.
  destruct (hoverMode (state w)); cbn [negb andb];
    [intros H; apply Some_inj in H; subst w1; left; reflexivity |].
  destruct (flightStarted (state w)); cbn [andb];
    [| intros H; apply Some_inj in H; subst w1; left; reflexivity].
  destruct (0 <? List.length (route (state w)))%nat;
    [| intros H; apply Some_inj in H; subst w1; left; reflexivity].
  destruct (mode (state w)) eqn:Hm;
    try (intros H; destruct (navigate_mode dt w w1 H) as [E | E];
         [left; congruence | right; split; [exact E | reflexivity]]).
  intros H. apply Some_inj in H. subst w1. unfold landingApproach.
  rewrite state_upd, steer_mode. left. exact Hm.
Qed.

Lemma modeControl_mode (w : World) :
  match mode (state w) with
  | TakeOff =>
      mode (state (modeControl w)) = TakeOff
      \/ mode (state (modeControl w)) = Cruise
  | Landing =>
      mode (state (modeControl w)) = Landing
      \/ (mode (state (modeControl w)) = OnGround
          /\ flightStarted (state (modeControl w)) = false)
  | _ => modeControl w = w
  end.
Proof.
  destruct w as [[] integ lastErr al con cl].
  unfold modeControl. split_tests; writes; auto.
Qed.

Lemma modeControl_flightStarted (w : World) :
  flightStarted (state (modeControl w)) = true ->
  flightStarted (state w) = true.
Proof.
  destruct w as [[] integ lastErr al con cl].
  unfold modeControl. split_tests; writes; intros; congruence.
Qed.

Lemma jamInterference_flightStarted (rnd : nat -> R) (w : World) :
  flightStarted (state (jamInterference rnd w)) = true ->
  flightStarted (state w) = true.
Proof.
  destruct w as [[] integ lastErr al con cl].
  unfold jamInterference, jamCrash, jamErrors.
  split_tests; writes; intros; congruence.
Qed.

Lemma afterJam_mode (dt : R) (rnd : nat -> R) (w : World) :
  mode (state (fst (afterJam dt rnd w))) = mode (state (modeControl w))
  /\ (flightStarted (state (fst (afterJam dt rnd w))) = true ->
      flightStarted (state (modeControl w)) = true).
Proof.
  unfold afterJam.
  destruct (verticalControl_writes dt rnd (modeControl w))
    as (vs1 & alt1 & integ1 & lastErr1 & Ev & _).
  destruct (verticalControl dt rnd (modeControl w)) as [w2 verticalAccel].
  cbn [fst] in *.
  pose proof (jamInterference_flightStarted rnd w2) as Hfs.
  destruct (jamInterference_writes rnd w2)
    as (cr & fs & vx' & vy' & vs & alt & pos' & rpm & gps & con & Ej).
  split.
  - rewrite Ej, Ev. reflexivity.
  - intros H. apply Hfs in H. rewrite Ev in H. exact H.
Qed.

Lemma runPhysics_mode (dt : R) (rnd : nat -> R) (w w1 : World) :
  crashed (state w) = false ->
  horizontalMovement dt w = Some w1 ->
  mode (state (runPhysics dt rnd w)) = mode (state (modeControl w1))
  /\ (flightStarted (state (runPhysics dt rnd w)) = true ->
      flightStarted (state (modeControl w1)) = true).
Proof.
  intros Hc Hh. unfold runPhysics.
  rewrite (updateFlightPhysics_parts dt rnd w w1 Hc Hh), state_upd.
  destruct (powerAndCounters_frame dt (position (state w))
              (snd (afterJam dt rnd w1)) (state (fst (afterJam dt rnd w1))))
    as (_ & _ & _ & _ & _ & _ & Hfs & _ & _ & Hm & _).
  rewrite Hfs, Hm. apply afterJam_mode.
Qed.

Lemma horizontalMovement_flightStarted (dt : R) (w w1 : World) :
  horizontalMovement dt w = Some w1 ->
  flightStarted (state w1) = flightStarted (state w).
Proof.
  intros Hh.
  destruct (horizontalMovement_writes dt w w1 Hh)
    as (idx & rt & md0 & ta0 & ds & vx0 & vy0 & pos0 & con0 & ->).
  reflexivity.
Qed.

(** X11. What a tick does to the flight mode and to the "in flight" flag.
    It never enters the take-off mode; it enters the cruise mode from the
    take-off mode only; it leaves the landing mode for the ground mode only;
    it enters the landing mode only on a vehicle in flight (the end of the
    route); the ground mode is entered with the flag cleared; and the flag
    is never raised. *)
Theorem mode_transitions_of_a_tick :
  forall (dt : R) (rnd : nat -> R) (w : World),
    let m := mode (state w) in
    let w' := runPhysics dt rnd w in
    let m' := mode (state w') in
    (m' = TakeOff -> m = TakeOff)
    /\ (m' = Cruise -> m = TakeOff \/ m = Cruise)
    /\ (m = Landing -> m' = Landing \/ m' = OnGround)
    /\ (m' = Landing -> m <> Landing -> flightStarted (state w) = true)
    /\ (m' = OnGround -> m <> OnGround -> flightStarted (state w') = false)
    /\ (flightStarted (state w') = true -> flightStarted (state w) = true).
Proof.
  intros dt rnd w m w' m'. subst m m' w'.
  destruct (crashed (state w)) eqn:Hc.
  { unfold runPhysics. rewrite (updateFlightPhysics_crashed dt rnd w Hc).
    repeat split; intros; auto; congruence. }
  destruct (horizontalMovement dt w) as [w1 |] eqn:Hh.
  2:{ unfold runPhysics. rewrite (updateFlightPhysics_throws dt rnd w Hc Hh).
      repeat split; intros; auto; congruence. }
  destruct (runPhysics_mode dt rnd w w1 Hc Hh) as [-> Hfs].
  pose proof (horizontalMovement_mode dt w w1 Hh) as H1.
  pose proof (horizontalMovement_flightStarted dt w w1 Hh) as H0.
  pose proof (modeControl_mode w1) as H2.
  pose proof (modeControl_flightStarted w1) as H3.
  destruct (flightStarted (state (runPhysics dt rnd w))) eqn:Hf.
  - specialize (Hfs eq_refl). specialize (H3 Hfs). rewrite H0 in H3.
    destruct (mode (state w1)) eqn:E1; try rewrite H2 in *;
      repeat split; intros; try congruence;
      destruct H1 as [H1 | [H1 _]]; destruct (mode (state w)); try congruence;
      intuition congruence.
  - clear Hfs H3.
    destruct (mode (state w1)) eqn:E1; try rewrite H2 in *;
      repeat split; intros; try congruence;
      destruct H1 as [H1 | [H1 H1']]; destruct (mode (state w)); try congruence;
      intuition congruence.
Qed.

(** ** The end of a landing *)

Lemma modeControl_landing (w : World) :
  mode (state w) = Landing ->
  targetAltitude (state (modeControl w)) = 0
  /\ (1 < altitude (state w) ->
      mode (state (modeControl w)) = Landing
      /\ crashed (state (modeControl w)) = crashed (state w)
      /\ flightStarted (state (modeControl w)) = flightStarted (state w))
  /\ (altitude (state w) <= 1 -> engineRPM (state w) <= 8000 ->
      mode (state (modeControl w)) = OnGround
      /\ flightStarted (state (modeControl w)) = false
      /\ crashed (state (modeControl w)) = crashed (state w))
  /\ (altitude (state w) <= 1 -> 8000 < engineRPM (state w) ->
      mode (state (modeControl w)) = Landing
      /\ crashed (state (modeControl w)) = true
      /\ flightStarted (state (modeControl w)) = flightStarted (state w)).
Proof.
  destruct w as [[] integ lastErr al con cl]. cbn [state mode].
  intros ->. unfold modeControl. writes.
  destruct (Rleb_spec altitude0 1); [destruct (Rltb_spec 8000 engineRPM0) |];
    writes; repeat split; intros; try reflexivity; lra.
Qed.

Lemma jamInterference_crashed (rnd : nat -> R) (w : World) :
  crashed (state w) = true ->
  crashed (state (jamInterference rnd w)) = true.
Proof.
  destruct w as [[] integ lastErr al con cl].
  unfold jamInterference, jamCrash, jamErrors.
  split_tests; writes; intros; congruence.
Qed.

Lemma afterJam_targetAltitude (dt : R) (rnd : nat -> R) (w : World) :
  targetAltitude (state (fst (afterJam dt rnd w)))
  = targetAltitude (state (modeControl w))
  /\ (crashed (state (modeControl w)) = true ->
      crashed (state (fst (afterJam dt rnd w))) = true).
Proof.
  unfold afterJam.
  destruct (verticalControl_writes dt rnd (modeControl w))
    as (vs1 & alt1 & integ1 & lastErr1 & Ev & _).
  destruct (verticalControl dt rnd (modeControl w)) as [w2 verticalAccel].
  cbn [fst] in *.
  pose proof (jamInterference_crashed rnd w2) as Hcr.
  destruct (jamInterference_writes rnd w2)
    as (cr & fs & vx' & vy' & vs & alt & pos' & rpm & gps & con & Ej).
  split.
  - rewrite Ej, Ev. reflexivity.
  - intros H. apply Hcr. rewrite Ev. exact H.
Qed.

Lemma horizontalMovement_landing (dt : R) (w : World) :
  mode (state w) = Landing ->
  exists w1 : World,
    horizontalMovement dt w = Some w1
    /\ mode (state w1) = Landing
    /\ altitude (state w1) = altitude (state w)
    /\ engineRPM (state w1) = engineRPM (state w)
    /\ crashed (state w1) = crashed (state w).
Proof.
  intros Hm.
  destruct (horizontalMovement dt w) as [w1 |] eqn:Hh.
  - exists w1. split; [reflexivity |].
    destruct (horizontalMovement_mode dt w w1 Hh) as [E | [E _]];
      (split; [congruence |]);
      destruct (horizontalMovement_writes dt w w1 Hh)
        as (idx & rt & md0 & ta0 & ds & vx0 & vy0 & pos0 & con0 & ->);
      repeat split; reflexivity.
  - apply horizontalMovement_None_iff in Hh.
    destruct Hh as (_ & _ & _ & Hh & _). contradiction.
Qed.

(** X12. A tick on a vehicle that is not crashed and is in the landing mode
    always completes, with the target altitude 0.  Above 1 m the mode stays;
    at 1 m or below the landing ends in that very tick: with the engine at
    8000 rpm or less the vehicle is on the ground and no longer in flight,
    with a faster engine it is crashed (and stays in the landing mode). *)
Theorem landing_ends_at_one_metre :
  forall (dt : R) (rnd : nat -> R) (w : World),
    crashed (state w) = false ->
    mode (state w) = Landing ->
    let w' := runPhysics dt rnd w in
    updateFlightPhysics dt rnd w = Some w'
    /\ targetAltitude (state w') = 0
    /\ (1 < altitude (state w) -> mode (state w') = Landing)
    /\ (altitude (state w) <= 1 -> engineRPM (state w) <= 8000 ->
        mode (state w') = OnGround /\ flightStarted (state w') = false)
    /\ (altitude (state w) <= 1 -> 8000 < engineRPM (state w) ->
        mode (state w') = Landing /\ crashed (state w') = true).
Proof.
  intros dt rnd w Hc Hm w'. subst w'.
  destruct (horizontalMovement_landing dt w Hm)
    as (w1 & Hh & Hm1 & Halt & Hrpm & Hcr).
  destruct (runPhysics_mode dt rnd w w1 Hc Hh) as [Emode Hfs].
  destruct (modeControl_landing w1 Hm1) as (Hta & Hhigh & Hland & Hcrash).
  rewrite Halt in *. rewrite Hrpm in *.
  assert (Hrun : runPhysics dt rnd w
                 = upd (powerAndCounters dt (position (state w))
                          (snd (afterJam dt rnd w1)))
                     (fst (afterJam dt rnd w1))).
  { unfold runPhysics.
    rewrite (updateFlightPhysics_parts dt rnd w w1 Hc Hh). reflexivity. }
  assert (Hframe :
            targetAltitude (state (runPhysics dt rnd w))
            = targetAltitude (state (modeControl w1))
            /\ (crashed (state (modeControl w1)) = true ->
                crashed (state (runPhysics dt rnd w)) = true)).
  { rewrite Hrun, state_upd.
    destruct (powerAndCounters_writes dt (position (state w))
                (snd (afterJam dt rnd w1)) (state (fst (afterJam dt rnd w1))))
      as (rpm & temp & dist & time & ->).
    cbn [targetAltitude crashed set_flightTime set_totalDistance
         set_batteryTemperature set_batteryLevel set_engineRPM].
    apply afterJam_targetAltitude. }
  destruct Hframe as [Eta Ecr].
  split.
  { rewrite Hrun. apply (updateFlightPhysics_parts dt rnd w w1 Hc Hh). }
  split; [congruence |].
  rewrite Emode. split; [| split].
  - intros H. apply Hhigh. exact H.
  - intros Ha Hr. destruct (Hland Ha Hr) as (E1 & E2 & _).
    split; [exact E1 |].
    destruct (flightStarted (state (runPhysics dt rnd w))); [| reflexivity].
    rewrite <- E2. symmetry. apply Hfs. reflexivity.
  - intros Ha Hr. destruct (Hcrash Ha Hr) as (E1 & E2 & _).
    split; [exact E1 | apply Ecr; exact E2].
Qed.

Lemma landing_ends_at_one_metre_witness :
  mode (state (runPhysics 0.1 rndHalf (land (takeOff initialWorld)))) = OnGround
  /\ flightStarted (state (runPhysics 0.1 rndHalf (land (takeOff initialWorld))))
     = false.
Proof.
  apply (landing_ends_at_one_metre 0.1 rndHalf (land (takeOff initialWorld)));
    try reflexivity; simpl; lra.
Defined.

(** ** Where a flight starts *)

Lemma startFlight_flags (w : World) :
  startFlight w = w
  \/ (flightStarted (state (startFlight w)) = true
      /\ hoverMode (state (startFlight w)) = false
      /\ mode (state (startFlight w))
         = if flightStarted (state w) then mode (state w) else TakeOff).
Proof.
  unfold startFlight.
  destruct (List.length (route (state w)) <? 2)%nat; [left; reflexivity |].
  right.
  destruct (flightStarted (state w)) eqn:Hfs;
    cbn -[filterRoute]; rewrite Hfs; cbn -[filterRoute].
  { split; [| split]; reflexivity. }
  destruct (homePosition (state w)); (split; [| split]; reflexivity).
Qed.

Lemma exec_flight_mode (c : Command) (w : World) :
  flightStarted (state (exec c w)) = false
  \/ (flightStarted (state (exec c w)) = flightStarted (state w)
      /\ mode (state (exec c w)) = mode (state w))
  \/ mode (state (exec c w)) = TakeOff
  \/ mode (state (exec c w)) = Landing.
Proof.
  destruct c;
    try (unfold exec, setRoute, stopFlight, setHome, takeOff, land, hover,
           updateParameters, updateWind, setJamZone, clearJamZone, setRepeat,
           reset, north, south, east, west, altUp, altDown;
         repeat match goal with
                | |- context [if ?b then _ else _] => destruct b
                | |- context [match ?o with Some _ => _ | None => _ end] =>
                    destruct o
                end;
         first [ left; reflexivity
               | right; left; split; reflexivity
               | right; right; left; reflexivity
               | right; right; right; reflexivity ]).
  - (* StartFlight *)
    cbn [exec].
    destruct (startFlight_flags w) as [-> | (Hfs & _ & Hm)].
    + right. left. split; reflexivity.
    + destruct (flightStarted (state w)).
      * right. left. split; assumption.
      * right. right. left. exact Hm.
  - (* TakeOffCmd *)
    unfold exec, takeOff. destruct (flightStarted (state w)) eqn:Hfs.
    + right. left. split; [exact Hfs | reflexivity].
    + right. right. left. reflexivity.
Qed.

Lemma exec_flightStarted (c : Command) (w : World) :
  c <> StartFlight -> c <> TakeOffCmd ->
  flightStarted (state (exec c w)) = true ->
  flightStarted (state w) = true.
Proof.
  intros HnotStart HnotTakeOff.
  destruct c; try contradiction;
    unfold exec, setRoute, stopFlight, setHome, land, hover,
      updateParameters, updateWind, setJamZone, clearJamZone, setRepeat,
      reset, north, south, east, west, altUp, altDown;
    repeat match goal with
           | |- context [if ?b then _ else _] => destruct b
           | |- context [match ?o with Some _ => _ | None => _ end] =>
               destruct o
           end;
    intros H; first [exact H | discriminate H].
Qed.

Lemma runPhysics_flightStarted (dt : R) (rnd : nat -> R) (w : World) :
  flightStarted (state (runPhysics dt rnd w)) = true ->
  flightStarted (state w) = true.
Proof.
  destruct (crashed (state w)) eqn:Hc.
  { unfold runPhysics. rewrite (updateFlightPhysics_crashed dt rnd w Hc). auto. }
  destruct (horizontalMovement dt w) as [w1 |] eqn:Hh.
  - destruct (runPhysics_mode dt rnd w w1 Hc Hh) as [_ Hfs].
    intros H. apply Hfs, modeControl_flightStarted in H.
    rewrite (horizontalMovement_flightStarted dt w w1 Hh) in H. exact H.
  - unfold runPhysics. rewrite (updateFlightPhysics_throws dt rnd w Hc Hh). auto.
Qed.

Lemma runPhysics_ground (dt : R) (rnd : nat -> R) (w : World) :
  (flightStarted (state w) = true -> mode (state w) <> OnGround) ->
  flightStarted (state (runPhysics dt rnd w)) = true ->
  mode (state (runPhysics dt rnd w)) <> OnGround.
Proof.
  intros Hinv Hfs' Hm'.
  pose proof (runPhysics_flightStarted dt rnd w Hfs') as Hfs.
  specialize (Hinv Hfs).
  destruct (crashed (state w)) eqn:Hc.
  { unfold runPhysics in Hm'.
    rewrite (updateFlightPhysics_crashed dt rnd w Hc) in Hm'. contradiction. }
  destruct (horizontalMovement dt w) as [w1 |] eqn:Hh.
  - destruct (runPhysics_mode dt rnd w w1 Hc Hh) as [Em Hf].
    specialize (Hf Hfs'). rewrite Em in Hm'.
    pose proof (modeControl_mode w1) as H2.
    destruct (horizontalMovement_mode dt w w1 Hh) as [E | [E _]].
    + destruct (mode (state w1)) eqn:E1; try rewrite H2 in *;
        try congruence.
      * destruct H2; congruence.
      * destruct H2 as [H2 | [_ H2]]; congruence.
    + rewrite E in H2. destruct H2 as [H2 | [_ H2]]; congruence.
  - unfold runPhysics in Hm'.
    rewrite (updateFlightPhysics_throws dt rnd w Hc Hh) in Hm'. contradiction.
Qed.

(** X13. A vehicle that is not in flight is put in flight by the start
    command (given a stored route of two points at least) or by the take-off
    command, and by nothing else: no other command and no tick raises the
    flag.  In every state that commands and ticks produce from the initial
    one, a vehicle in flight is not in the ground mode. *)
Theorem flight_starts_on_command_only :
  (forall (e : Event) (w : World),
      flightStarted (state (step w e)) = true ->
      flightStarted (state w) = true
      \/ (e = Cmd StartFlight /\ (2 <= List.length (route (state w)))%nat)
      \/ e = Cmd TakeOffCmd)
  /\ (forall events : list Event,
         flightStarted (state (run events)) = true ->
         mode (state (run events)) <> OnGround).
Proof.
  split.
  - intros [c | rnd] w H; cbn [step] in H.
    + destruct c;
        try (left; revert H; apply exec_flightStarted; discriminate).
      * destruct (Nat.ltb_spec (List.length (route (state w))) 2) as [Hl | Hl].
        -- left. cbn [exec] in H.
           rewrite (startFlight_rejected w Hl) in H. exact H.
        -- right. left. split; [reflexivity | exact Hl].
      * right. right. reflexivity.
    + left. revert H. apply runPhysics_flightStarted.
  - apply (run_invariant
             (fun w => flightStarted (state w) = true ->
                       mode (state w) <> OnGround)).
    + discriminate.
    + intros c w Hinv Hfs.
      destruct (exec_flight_mode c w) as [E | [[E1 E2] | [E | E]]];
        try congruence.
      rewrite E2. apply Hinv. congruence.
    + intros rnd w. apply runPhysics_ground.
Qed.

(** ** The start button *)

Lemma spaced_map_Fixed (pos : Point) (l : list Point) :
  spaced (fun p => p) l -> spaced (resolve pos) (map Fixed l).
Proof.
  induction l as [| a [| b tl] IH]; intros Hs; try exact I.
  destruct Hs as [Hab Htl]. split; [exact Hab | apply IH; exact Htl].
Qed.

Lemma map_freeze_Fixed (pos : Point) (l : list Point) :
  map (freeze pos) (map Fixed l) = map Fixed l.
Proof. induction l as [| a l IH]; [reflexivity | simpl; rewrite IH; reflexivity]. Qed.

(** The start command on a stored route that the filter leaves as it is. *)
Lemma startFlight_accepted (w : World) :
  (2 <= List.length (route (state w)))%nat ->
  spaced (resolve (position (state w))) (route (state w)) ->
  flightStarted (state (startFlight w)) = true
  /\ hoverMode (state (startFlight w)) = false
  /\ (flightStarted (state w) = true ->
      route (state (startFlight w)) = route (state w)
      /\ waypointIndex (state (startFlight w)) = waypointIndex (state w)
      /\ position (state (startFlight w)) = position (state w)
      /\ mode (state (startFlight w)) = mode (state w)
      /\ crashed (state (startFlight w)) = crashed (state w))
  /\ (flightStarted (state w) = false ->
      route (state (startFlight w))
      = map (freeze (position (state w))) (route (state w))
      /\ waypointIndex (state (startFlight w)) = 1%nat
      /\ position (state (startFlight w))
         = resolve (position (state w)) (nth 0 (route (state w)) Live)
      /\ mode (state (startFlight w)) = TakeOff
      /\ crashed (state (startFlight w)) = false).
Proof.
  intros Hlen Hs. unfold startFlight.
  destruct (Nat.ltb_spec (List.length (route (state w))) 2) as [Hl | _];
    [lia |].
  destruct (flightStarted (state w)) eqn:Hfs;
    cbn -[filterRoute]; rewrite Hfs; cbn -[filterRoute];
    rewrite (filterRoute_fixed _ _ Hs).
  - repeat split; try reflexivity; discriminate.
  - destruct (homePosition (state w));
      repeat split; try reflexivity; discriminate.
Qed.

(** X14. The start button with clicked points of which the filter keeps two
    at least: the filtered points become the route and the vehicle is in
    flight, out of the hover mode.  On a vehicle that was not in flight the
    flight is a new one: the vehicle is put on the first point, in the
    take-off mode, heading for the second point, its crashed flag cleared.
    On a vehicle already in flight nothing else is reset: it stays where
    and as it is (crashed, if it was) and heads for the first point of the
    new route. *)
Theorem start_button_outcome :
  forall (l : list Point) (w : World),
    (2 <= List.length (filterRoute (fun p => p) l))%nat ->
    let r := filterRoute (fun p => p) l in
    let w' := startFlightPressed l w in
    route (state w') = map Fixed r
    /\ flightStarted (state w') = true
    /\ hoverMode (state w') = false
    /\ alerts w' = alerts w
    /\ (flightStarted (state w) = false ->
        waypointIndex (state w') = 1%nat
        /\ position (state w') = nth 0 r (position (state w))
        /\ mode (state w') = TakeOff
        /\ crashed (state w') = false)
    /\ (flightStarted (state w) = true ->
        waypointIndex (state w') = 0%nat
        /\ position (state w') = position (state w)
        /\ mode (state w') = mode (state w)
        /\ crashed (state w') = crashed (state w)).
Proof.
  intros l w Hlen r w'. subst w'. unfold startFlightPressed.
  pose proof (filterRoute_length (fun p => p) l) as Hle.
  destruct (Nat.ltb_spec (List.length l) 2) as [Hl | _]; [lia |].
  set (w0 := setRoute l w).
  assert (Hr0 : route (state w0) = map Fixed r) by reflexivity.
  assert (Hlen0 : (2 <= List.length (route (state w0)))%nat).
  { rewrite Hr0, length_map. exact Hlen. }
  assert (Hs0 : spaced (resolve (position (state w0))) (route (state w0))).
  { rewrite Hr0. apply spaced_map_Fixed, filterRoute_spaced. }
  destruct (startFlight_accepted w0 Hlen0 Hs0)
    as (Hfs & Hhover & Hflying & Hfresh).
  assert (Halerts : alerts (startFlight w0) = alerts w).
  { unfold startFlight.
    destruct (List.length (route (state w0)) <? 2)%nat; [reflexivity |].
    destruct (negb (flightStarted (state _))); reflexivity. }
  change (flightStarted (state w0)) with (flightStarted (state w)) in *.
  change (position (state w0)) with (position (state w)) in *.
  change (waypointIndex (state w0)) with 0%nat in *.
  change (mode (state w0)) with (mode (state w)) in *.
  change (crashed (state w0)) with (crashed (state w)) in *.
  cbn [logCommand state alerts].
  split; [| split; [exact Hfs | split; [exact Hhover | split; [exact Halerts |]]]].
  - destruct (flightStarted (state w)) eqn:E.
    + destruct (Hflying eq_refl) as (-> & _). exact Hr0.
    + destruct (Hfresh eq_refl) as (-> & _).
      rewrite Hr0. apply map_freeze_Fixed.
  - split.
    + intros E. destruct (Hfresh E) as (_ & Hi & Hp & Hm & Hc).
      split; [exact Hi |]. split; [| split; assumption].
      rewrite Hp, Hr0. destruct r; reflexivity.
    + intros E. destruct (Hflying E) as (_ & Hi & Hp & Hm & Hc).
      repeat split; assumption.
Qed.

Lemma start_button_outcome_witness :
  route (state (startFlightPressed [tokyo; tokyoNorth] initialWorld))
  = map Fixed (filterRoute (fun p => p) [tokyo; tokyoNorth]).
Proof.
  apply (start_button_outcome [tokyo; tokyoNorth] initialWorld).
  rewrite filterRoute_pair. simpl. lia.
Defined.

(** ** The return-home button *)

Lemma filterRoute_two (a b : Point) :
  filterRoute (fun p => p) [a; b]
  = if 5 <? computeDistance b a then [a; b] else [a].
Proof.
  unfold filterRoute. cbn [fold_left]. unfold filterStep at 2.
  rewrite keeps_nil. cbn [app]. unfold filterStep. rewrite keeps_cons.
  cbn [last]. destruct (5 <? computeDistance b a); reflexivity.
Qed.

(** X15. The return-home button.  With no home set it raises an alert and
    changes nothing.  With a home more than 5 m away it stores the route
    from the current position to the home and starts (or goes on with) the
    flight: a vehicle that was not in flight heads for the home, one that
    was in flight first heads for the point where it was when the button
    was pressed.  With the home 5 m away or less the stored route is
    replaced by the current position alone and nothing else happens: no
    flight is started, no alert is raised. *)
Theorem return_home_outcome :
  forall w : World,
    let pos := position (state w) in
    let w' := returnHomePressed w in
    (homePosition (state w) = None ->
     state w' = state w /\ alerts w' = alerts w ++ ["Please set Home first"%string])
    /\ (forall home : Point,
           homePosition (state w) = Some home ->
           5 < computeDistance home pos ->
           route (state w') = [Fixed pos; Fixed home]
           /\ flightStarted (state w') = true
           /\ position (state w') = pos
           /\ homePosition (state w') = Some home
           /\ waypointIndex (state w')
              = (if flightStarted (state w) then 0 else 1)%nat
           /\ alerts w' = alerts w)
    /\ (forall home : Point,
           homePosition (state w) = Some home ->
           computeDistance home pos <= 5 ->
           route (state w') = [Fixed pos]
           /\ waypointIndex (state w') = 0%nat
           /\ flightStarted (state w') = flightStarted (state w)
           /\ position (state w') = pos
           /\ mode (state w') = mode (state w)
           /\ alerts w' = alerts w).
Proof.
  intros w pos w'. subst w'. unfold returnHomePressed. fold pos.
  split; [| split].
  - intros ->. split; reflexivity.
  - intros home Hh Hfar. rewrite Hh.
    set (w0 := setRoute [pos; home] w).
    assert (Hr0 : route (state w0) = [Fixed pos; Fixed home]).
    { unfold w0. destruct (setRoute_fields [pos; home] w) as (_ & _ & ->).
      rewrite filterRoute_two, Rltb_true by exact Hfar. reflexivity. }
    assert (Hlen0 : (2 <= List.length (route (state w0)))%nat)
      by (rewrite Hr0; simpl; lia).
    assert (Hs0 : spaced (resolve (position (state w0))) (route (state w0))).
    { rewrite Hr0. simpl. split; [exact Hfar | exact I]. }
    destruct (startFlight_accepted w0 Hlen0 Hs0)
      as (Hfs & _ & Hflying & Hfresh).
    assert (Halerts : alerts (startFlight w0) = alerts w).
    { unfold startFlight.
      destruct (List.length (route (state w0)) <? 2)%nat; [reflexivity |].
      destruct (negb (flightStarted (state _))); reflexivity. }
    assert (Hhome : homePosition (state (startFlight w0))
                    = homePosition (state w0)).
    { apply (exec_homePosition StartFlight w0); try discriminate.
      change (homePosition (state w0)) with (homePosition (state w)).
      rewrite Hh. discriminate. }
    change (homePosition (state w0)) with (homePosition (state w)) in Hhome.
    rewrite Hh in Hhome.
    change (flightStarted (state w0)) with (flightStarted (state w)) in *.
    change (position (state w0)) with pos in *.
    change (waypointIndex (state w0)) with 0%nat in *.
    cbn [logCommand state alerts].
    destruct (flightStarted (state w)) eqn:E.
    + destruct (Hflying eq_refl) as (Hr & Hi & Hp & _).
      rewrite Hr, Hi, Hp, ?Hr0.
      repeat split; first [assumption | reflexivity].
    + destruct (Hfresh eq_refl) as (Hr & Hi & Hp & _).
      rewrite Hr, Hi, Hp, ?Hr0.
      repeat split; first [assumption | reflexivity].
  - intros home -> Hnear.
    set (w0 := setRoute [pos; home] w).
    assert (Hr0 : route (state w0) = [Fixed pos]).
    { unfold w0. destruct (setRoute_fields [pos; home] w) as (_ & _ & ->).
      rewrite filterRoute_two, Rltb_false by exact Hnear. reflexivity. }
    rewrite startFlight_rejected by (rewrite Hr0; simpl; lia).
    cbn [logCommand state alerts].
    split; [exact Hr0 |]. repeat split; reflexivity.
Qed.

(** ** A vehicle that is not navigating *)

Lemma afterJam_outside (dt : R) (rnd : nat -> R) (w : World) :
  (jamZone (state w) = None
   \/ exists z : JamZone,
        jamZone (state w) = Some z
        /\ radius z <= computeDistance (position (state w)) (center z)) ->
  exists g : R,
    fst (afterJam dt rnd w)
    = upd (set_gpsQuality g) (fst (verticalControl dt rnd (modeControl w))).
Proof.
  intros Hout. unfold afterJam.
  destruct (beforeJam_position dt rnd w) as [Hp Hj].
  destruct (verticalControl dt rnd (modeControl w)) as [w2 verticalAccel].
  cbn [fst] in *.
  destruct Hout as [Hnone | (z & Hz & Hd)].
  - rewrite jamInterference_none by congruence.
    unfold upd. eexists. reflexivity.
  - rewrite (jamInterference_outside rnd w2 z) by congruence.
    unfold upd. eexists. reflexivity.
Qed.

Lemma horizontalMovement_skipped (dt : R) (w : World) :
  flightStarted (state w) = false \/ hoverMode (state w) = true
  \/ route (state w) = [] ->
  horizontalMovement dt w = Some w.
Proof.
  intros [H | [H | H]].
  - apply horizontalMovement_idle. left. exact H.
  - apply horizontalMovement_idle. right. exact H.
  - unfold horizontalMovement. rewrite H. cbn [List.length Nat.ltb Nat.leb].
    rewrite andb_false_r. reflexivity.
Qed.

(** X16. A vehicle that is not crashed and is on the ground, hovering or
    without a route, and that no jam zone covers, is not moved by the tick:
    its position and its horizontal velocity stay as they are and the
    distance counter does not grow, whatever the wind. *)
Theorem idle_vehicle_holds_position :
  forall (dt : R) (rnd : nat -> R) (w : World),
    crashed (state w) = false ->
    flightStarted (state w) = false \/ hoverMode (state w) = true
    \/ route (state w) = [] ->
    (jamZone (state w) = None
     \/ exists z : JamZone,
          jamZone (state w) = Some z
          /\ radius z <= computeDistance (position (state w)) (center z)) ->
    let w' := runPhysics dt rnd w in
    updateFlightPhysics dt rnd w = Some w'
    /\ position (state w') = position (state w)
    /\ vx (state w') = vx (state w)
    /\ vy (state w') = vy (state w)
    /\ totalDistance (state w') = totalDistance (state w).
Proof.
  intros dt rnd w Hc Hidle Hout w'. subst w'.
  pose proof (horizontalMovement_skipped dt w Hidle) as Hh.
  assert (Hrun : updateFlightPhysics dt rnd w = Some (runPhysics dt rnd w)).
  { unfold runPhysics.
    rewrite (updateFlightPhysics_parts dt rnd w w Hc Hh). reflexivity. }
  split; [exact Hrun |].
  assert (Hpv : position (state (runPhysics dt rnd w)) = position (state w)
                /\ vx (state (runPhysics dt rnd w)) = vx (state w)
                /\ vy (state (runPhysics dt rnd w)) = vy (state w)).
  { unfold runPhysics.
    rewrite (updateFlightPhysics_parts dt rnd w w Hc Hh), state_upd.
    destruct (powerAndCounters_frame dt (position (state w))
                (snd (afterJam dt rnd w)) (state (fst (afterJam dt rnd w))))
      as (Hp & _ & _ & Hvx & Hvy & _).
    rewrite Hp, Hvx, Hvy.
    destruct (afterJam_outside dt rnd w Hout) as (g & ->).
    destruct (modeControl_writes w)
      as (ta & md & alt0 & vs0 & fs0 & cr0 & integ0 & con0 & Em).
    destruct (verticalControl_writes dt rnd (modeControl w))
      as (vs1 & alt1 & integ1 & lastErr1 & Ev & _).
    rewrite state_upd, Ev, Em. repeat split; reflexivity. }
  destruct Hpv as (Hp & Hvx & Hvy).
  split; [exact Hp | split; [exact Hvx | split; [exact Hvy |]]].
  destruct (updateFlightPhysics_counters dt rnd w _ Hc Hrun) as [Hd _].
  rewrite Hd, Hp, computeDistance_same. lra.
Qed.

Lemma idle_vehicle_holds_position_witness :
  position (state (runPhysics 0.1 rndHalf
                     (exec (UpdateWind 30 90) (takeOff initialWorld))))
  = position (state (exec (UpdateWind 30 90) (takeOff initialWorld))).
Proof.
  apply (idle_vehicle_holds_position 0.1 rndHalf
           (exec (UpdateWind 30 90) (takeOff initialWorld))).
  - reflexivity.
  - right. right. reflexivity.
  - left. reflexivity.
Defined.

(** ** The GPS quality in and out of a jam zone *)

Lemma jamInterference_gps_exact (rnd : nat -> R) (w : World) :
  gpsQuality (state (jamInterference rnd w))
  = match jamZone (state w) with
    | Some z =>
        let dJam := computeDistance (position (state w)) (center z) in
        if dJam <? radius z
        then clamp (gpsQuality (state w) - 0.1 * expFactorOf z dJam) 0.1 1
        else clamp (gpsQuality (state w) + 0.005) 0 1
    | None => clamp (gpsQuality (state w) + (rnd 1%nat - 0.5) * 0.001) 0.8 1
    end.
Proof.
  unfold jamInterference, jamCrash, jamErrors.
  destruct (jamZone (state w)) as [z |]; [| reflexivity].
  cbv zeta.
  destruct (computeDistance (position (state w)) (center z) <? radius z);
    [| reflexivity].
  destruct (computeDistance (position (state w)) (center z) <? 0.1 * radius z);
    reflexivity.
Qed.

Lemma runPhysics_gps_exact (dt : R) (rnd : nat -> R) (w w1 : World) :
  crashed (state w) = false ->
  horizontalMovement dt w = Some w1 ->
  gpsQuality (state (runPhysics dt rnd w))
  = match jamZone (state w) with
    | Some z =>
        let dJam := computeDistance (position (state w1)) (center z) in
        if dJam <? radius z
        then clamp (gpsQuality (state w) - 0.1 * expFactorOf z dJam) 0.1 1
        else clamp (gpsQuality (state w) + 0.005) 0 1
    | None => clamp (gpsQuality (state w) + (rnd 1%nat - 0.5) * 0.001) 0.8 1
    end.
Proof.
  intros Hc Hh. unfold runPhysics.
  rewrite (updateFlightPhysics_parts dt rnd w w1 Hc Hh), state_upd.
  destruct (powerAndCounters_frame dt (position (state w))
              (snd (afterJam dt rnd w1)) (state (fst (afterJam dt rnd w1))))
    as (_ & _ & _ & _ & _ & _ & _ & _ & Hgps & _).
  rewrite Hgps. unfold afterJam.
  pose proof (beforeJam_gps dt rnd w1) as Hg.
  destruct (beforeJam_position dt rnd w1) as [Hp Hj].
  destruct (verticalControl dt rnd (modeControl w1)) as [w2 verticalAccel].
  cbn [fst] in *.
  destruct (horizontalMovement_sensors dt w w1 Hh)
    as (Hg1 & _ & _ & _ & _ & _ & _ & _ & Hj1).
  rewrite jamInterference_gps_exact, Hj, Hj1, Hp, Hg, Hg1. reflexivity.
Qed.

(** X17. The GPS quality after a tick, by where the horizontal movement of
    that tick has brought the vehicle (at [w1]).  With no jam zone set it is
    taken into [0.8, 1] at once.  Inside the zone it falls by more than 0.05,
    down to the floor 0.1.  Outside the zone it rises by 0.005, up to 1: the
    quality that a zone has taken away comes back in one tick when the zone
    is cleared, and slowly when the vehicle leaves it. *)
Theorem gps_in_and_out_of_the_zone :
  forall (dt : R) (rnd : nat -> R) (w w1 : World),
    crashed (state w) = false ->
    horizontalMovement dt w = Some w1 ->
    let g := gpsQuality (state w) in
    let g' := gpsQuality (state (runPhysics dt rnd w)) in
    (jamZone (state w) = None -> 0.8 <= g' <= 1)
    /\ (forall z : JamZone,
           jamZone (state w) = Some z ->
           computeDistance (position (state w1)) (center z) < radius z ->
           g' = clamp (g - 0.1 * expFactorOf z
                                   (computeDistance (position (state w1))
                                      (center z))) 0.1 1
           /\ g' <= Rmax 0.1 (g - 0.05))
    /\ (forall z : JamZone,
           jamZone (state w) = Some z ->
           radius z <= computeDistance (position (state w1)) (center z) ->
           g' = clamp (g + 0.005) 0 1
           /\ (0 <= g <= 1 -> g' = Rmin 1 (g + 0.005))).
Proof.
  intros dt rnd w w1 Hc Hh g g'. subst g g'.
  rewrite (runPhysics_gps_exact dt rnd w w1 Hc Hh).
  split; [| split].
  - intros ->. apply clamp_bounds. lra.
  - intros z -> Hd. cbv zeta. rewrite Rltb_true by exact Hd.
    split; [reflexivity |].
    pose proof (computeDistance_nonneg (position (state w1)) (center z)) as H0.
    pose proof (expFactorOf_inside z _ (conj H0 Hd)) as He.
    unfold clamp. apply Rmax_lub; [apply Rmax_l |].
    eapply Rle_trans; [apply Rmin_r |].
    eapply Rle_trans; [| apply Rmax_r]. lra.
  - intros z -> Hd. cbv zeta. rewrite Rltb_false by exact Hd.
    split; [reflexivity |].
    intros Hg. unfold clamp. apply Rmax_right.
    apply Rmin_glb; lra.
Qed.

Lemma gps_in_and_out_of_the_zone_witness :
  0.8 <= gpsQuality (state (runPhysics 0.1 rndHalf initialWorld)) <= 1.
Proof.
  apply (gps_in_and_out_of_the_zone 0.1 rndHalf initialWorld initialWorld);
    reflexivity.
Defined.

(** ** The telemetry *)


Lemma atan2_range (y x : R) : - PI < atan2 y x <= PI.
Proof.
  pose proof PI_RGT_0 as Hpi.
  pose proof (atan_bound (y / x)) as [Hlo Hhi].
  unfold atan2.
  destruct (Rltb_spec 0 x) as [Hx | Hx]; [lra |].
  destruct (Rltb_spec x 0) as [Hx' | Hx'].
  - destruct (Rleb_spec 0 y) as [Hy | Hy].
    + assert (atan (y / x) <= 0).
      { destruct Hy as [Hy | <-].
        - left. rewrite <- atan_0. apply atan_increasing.
          replace (y / x) with (- (y / - x)) by (field; lra).
          pose proof (Rdiv_lt_0_compat y (- x)). lra.
        - unfold Rdiv. rewrite Rmult_0_l, atan_0. lra. }
      lra.
    + assert (0 < atan (y / x)).
      { rewrite <- atan_0. apply atan_increasing.
        replace (y / x) with ((- y) / (- x)) by (field; lra).
        apply Rdiv_lt_0_compat; lra. }
      lra.
  - destruct (Rltb_spec 0 y); [lra |].
    destruct (Rltb_spec y 0); lra.
Qed.

Lemma Int_part_unit (r : R) : 0 <= r < 1 -> Int_part r = 0%Z.
Proof.
  intros [H0 H1]. destruct (base_Int_part r) as [Hle Hgt].
  assert (IZR (Int_part r) < IZR 1) by (simpl; lra).
  assert (IZR (-1) < IZR (Int_part r)) by (simpl; lra).
  apply lt_IZR in H. apply lt_IZR in H2. lia.
Qed.

Lemma Int_part_one (r : R) : 1 <= r < 2 -> Int_part r = 1%Z.
Proof.
  intros [H0 H1]. destruct (base_Int_part r) as [Hle Hgt].
  assert (IZR (Int_part r) < IZR 2) by (simpl; lra).
  assert (IZR 0 < IZR (Int_part r)) by (simpl; lra).
  apply lt_IZR in H. apply lt_IZR in H2. lia.
Qed.

(** X19. The course of the telemetry is the bearing of the horizontal
    velocity in degrees, taken into [0, 360): the angle of [atan2] itself
    when it is not negative, that angle plus 360 when it is. *)
Theorem course_is_a_compass_bearing :
  forall s : State,
    let degrees := atan2 (vx s) (vy s) * 180 / PI in
    0 <= course s < 360
    /\ course s = (if 0 <=? degrees then degrees else degrees + 360).
Proof.
  intros s degrees.
  pose proof PI_RGT_0 as Hpi.
  pose proof (atan2_range (vx s) (vy s)) as [Hlo Hhi].
  assert (Hd : -180 < degrees <= 180).
  { unfold degrees. split.
    - apply Rmult_lt_reg_r with PI; [exact Hpi |].
      replace (atan2 (vx s) (vy s) * 180 / PI * PI)
        with (atan2 (vx s) (vy s) * 180) by (field; lra).
      lra.
    - apply Rmult_le_reg_r with PI; [exact Hpi |].
      replace (atan2 (vx s) (vy s) * 180 / PI * PI)
        with (atan2 (vx s) (vy s) * 180) by (field; lra).
      lra. }
  assert (Hc : course s = (if 0 <=? degrees then degrees else degrees + 360)).
  { unfold course, jsRem, truncate. fold degrees.
    rewrite Rleb_true by lra.
    destruct (Rleb_spec 0 degrees) as [Hpos | Hneg].
    - rewrite Int_part_one by lra. simpl. lra.
    - rewrite Int_part_unit by lra. simpl. lra. }
  split; [| exact Hc].
  rewrite Hc. destruct (Rleb_spec 0 degrees); lra.
Qed.

(** ** The last waypoint *)

Lemma waypointReached_last (wp : Waypoint) (target : Point) (d : R) (w : World) :
  List.length (route (state w)) = S (waypointIndex (state w)) ->
  let w2 := fst (fst (waypointReached wp target d w)) in
  (repeatMission (state w) && (1 <? List.length (route (state w)))%nat = true ->
   route (state w2)
   = [Live; match homePosition (state w) with
            | Some home => Fixed home
            | None => nth 0 (route (state w)) wp
            end]
   /\ waypointIndex (state w2) = 1%nat
   /\ mode (state w2) = mode (state w))
  /\ (repeatMission (state w) && (1 <? List.length (route (state w)))%nat = false ->
      route (state w2) = route (state w)
      /\ waypointIndex (state w2) = List.length (route (state w))
      /\ mode (state w2) = Landing
      /\ targetAltitude (state w2) = 0).
Proof.
  destruct w as [[] integ lastErr al con cl]. cbn [state route waypointIndex].
  intros Hlen. unfold waypointReached. writes.
  rewrite Hlen, Nat.leb_refl.
  destruct (repeatMission0 && (1 <? S waypointIndex0)%nat).
  - split; [intros _ | discriminate].
    destruct homePosition0; writes; repeat split; reflexivity.
  - split; [discriminate | intros _]. writes. repeat split; reflexivity.
Qed.

Lemma navigate_reached (dt : R) (w : World) (wp : Waypoint) :
  nth_error (route (state w)) (waypointIndex (state w)) = Some wp ->
  computeDistance (position (state w)) (resolve (position (state w)) wp) < 10 ->
  let w2 :=
    fst (fst (waypointReached wp (resolve (position (state w)) wp)
                (computeDistance (position (state w))
                   (resolve (position (state w)) wp)) w)) in
  exists w1 : World,
    navigate dt w = Some w1
    /\ route (state w1) = route (state w2)
    /\ waypointIndex (state w1) = waypointIndex (state w2)
    /\ mode (state w1) = mode (state w2)
    /\ targetAltitude (state w1) = targetAltitude (state w2).
Proof.
  intros Hn Hd. cbv zeta. unfold navigate. rewrite Hn.
  rewrite Rltb_true by exact Hd.
  destruct (waypointReached wp (resolve (position (state w)) wp)
              (computeDistance (position (state w))
                 (resolve (position (state w)) wp)) w) as [[w2 target2] d2].
  cbn [fst]. eexists. split; [reflexivity |].
  match goal with
  | |- context [upd (steer ?a ?b ?c) ?x] =>
      destruct (upd_steer_writes a b c x) as (vx' & vy' & pos' & ->)
  end.
  repeat split; reflexivity.
Qed.

Lemma runPhysics_targetAltitude (dt : R) (rnd : nat -> R) (w w1 : World) :
  crashed (state w) = false ->
  horizontalMovement dt w = Some w1 ->
  targetAltitude (state (runPhysics dt rnd w))
  = targetAltitude (state (modeControl w1)).
Proof.
  intros Hc Hh. unfold runPhysics.
  rewrite (updateFlightPhysics_parts dt rnd w w1 Hc Hh), state_upd.
  destruct (powerAndCounters_writes dt (position (state w))
              (snd (afterJam dt rnd w1)) (state (fst (afterJam dt rnd w1))))
    as (rpm & temp & dist & time & ->).
  cbn [targetAltitude set_flightTime set_totalDistance
       set_batteryTemperature set_batteryLevel set_engineRPM].
  apply afterJam_targetAltitude.
Qed.

(** X20. The tick in which a vehicle in flight comes within 10 m of the
    last waypoint of its route.  With the repeat flag set and a route of two
    points at least, the route is replaced by two elements, the position
    object itself and the home (or, with no home set, the old first
    element), and the vehicle heads for the second: what is repeated is the
    way back, not the route.  Otherwise the route is kept, the index goes
    past its end, the target altitude is 0 and the vehicle is in the landing
    mode (or, landed in that same tick, on the ground). *)
Theorem arrival_at_the_last_waypoint :
  forall (dt : R) (rnd : nat -> R) (w : World) (wp : Waypoint),
    crashed (state w) = false ->
    hoverMode (state w) = false ->
    flightStarted (state w) = true ->
    mode (state w) <> Landing ->
    nth_error (route (state w)) (waypointIndex (state w)) = Some wp ->
    List.length (route (state w)) = S (waypointIndex (state w)) ->
    computeDistance (position (state w)) (resolve (position (state w)) wp) < 10 ->
    let w' := runPhysics dt rnd w in
    (repeatMission (state w) = true ->
     (1 < List.length (route (state w)))%nat ->
     route (state w')
     = [Live; match homePosition (state w) with
              | Some home => Fixed home
              | None => nth 0 (route (state w)) wp
              end]
     /\ waypointIndex (state w') = 1%nat)
    /\ (repeatMission (state w) = false
        \/ List.length (route (state w)) = 1%nat ->
        route (state w') = route (state w)
        /\ waypointIndex (state w') = List.length (route (state w))
        /\ targetAltitude (state w') = 0
        /\ (mode (state w') = Landing \/ mode (state w') = OnGround)).
Proof.
  intros dt rnd w wp Hc Hhover Hfs Hmode Hn Hlen Hd w'. subst w'.
  destruct (navigate_reached dt w wp Hn Hd) as (w1 & Hnav & Hr & Hi & Hm & Hta).
  destruct (waypointReached_last wp (resolve (position (state w)) wp)
              (computeDistance (position (state w))
                 (resolve (position (state w)) wp)) w Hlen)
    as [Hrepeat Hland].
  assert (Hh : horizontalMovement dt w = Some w1).
  { unfold horizontalMovement. rewrite Hhover, Hfs, Hlen.
    cbn [negb andb List.length Nat.ltb Nat.leb].
    destruct (mode (state w)); try exact Hnav. contradiction. }
  assert (Hrun : route (state (runPhysics dt rnd w)) = route (state w1)
                 /\ waypointIndex (state (runPhysics dt rnd w))
                    = waypointIndex (state w1)).
  { unfold runPhysics. rewrite (updateFlightPhysics_parts dt rnd w w1 Hc Hh).
    apply afterHorizontal_route. }
  destruct Hrun as [-> ->]. rewrite Hr, Hi.
  split.
  - intros Hrep Hlong.
    assert (E : repeatMission (state w)
                && (1 <? List.length (route (state w)))%nat = true).
    { rewrite Hrep. apply Nat.ltb_lt in Hlong. rewrite Hlong. reflexivity. }
    destruct (Hrepeat E) as (H1 & H2 & _). split; assumption.
  - intros Hno.
    assert (E : repeatMission (state w)
                && (1 <? List.length (route (state w)))%nat = false).
    { destruct Hno as [-> | ->]; [reflexivity | apply andb_false_r]. }
    destruct (Hland E) as (H1 & H2 & H3 & H4).
    split; [exact H1 | split; [exact H2 |]].
    assert (Hm1 : mode (state w1) = Landing) by congruence.
    rewrite (runPhysics_targetAltitude dt rnd w w1 Hc Hh).
    destruct (runPhysics_mode dt rnd w w1 Hc Hh) as [-> _].
    destruct (modeControl_landing w1 Hm1) as (Hta0 & _).
    split; [exact Hta0 |].
    pose proof (modeControl_mode w1) as Hmc. rewrite Hm1 in Hmc.
    destruct Hmc as [Hmc | [Hmc _]]; [left | right]; exact Hmc.
Qed.

Lemma arrival_at_the_last_waypoint_witness :
  route (state (runPhysics 0.1 rndHalf arrivingAtLast)) = [Live; Fixed tokyo]
  /\ waypointIndex (state (runPhysics 0.1 rndHalf arrivingAtLast)) = 1%nat.
Proof.
  apply (arrival_at_the_last_waypoint 0.1 rndHalf arrivingAtLast
           (Fixed tokyoNorth)); try reflexivity.
  - discriminate.
  - change (computeDistance tokyoNorth tokyoNorth < 10).
    rewrite computeDistance_same. lra.
  - simpl. lia.
Defined.

(** ** Taking off with a finished route *)

Lemma takeOff_fields (w : World) :
  flightStarted (state w) = false ->
  crashed (state (takeOff w)) = crashed (state w)
  /\ hoverMode (state (takeOff w)) = false
  /\ flightStarted (state (takeOff w)) = true
  /\ route (state (takeOff w)) = route (state w)
  /\ waypointIndex (state (takeOff w)) = waypointIndex (state w)
  /\ mode (state (takeOff w)) = TakeOff
  /\ altitude (state (takeOff w)) = 0
  /\ targetAltitude (state (takeOff w)) = 100.
Proof.
  intros Hfs. unfold takeOff. rewrite Hfs. repeat split; reflexivity.
Qed.

(** X21. A vehicle on the ground whose waypoint index is at or past the end
    of a stored route (as a finished mission leaves it) does not take off:
    after the take-off command every call of the tick function throws, and
    no number of ticks changes anything; the vehicle stays at altitude 0
    with the flag "in flight" raised, and the page shows it as FLYING. *)
Theorem take_off_after_a_mission_freezes :
  forall w : World,
    crashed (state w) = false ->
    flightStarted (state w) = false ->
    route (state w) <> [] ->
    (List.length (route (state w)) <= waypointIndex (state w))%nat ->
    (forall (dt : R) (rnd : nat -> R),
        updateFlightPhysics dt rnd (takeOff w) = None)
    /\ (forall rnds : list (nat -> R),
           fold_left step (map Tick rnds) (takeOff w) = takeOff w)
    /\ altitude (state (takeOff w)) = 0
    /\ flightStarted (state (takeOff w)) = true
    /\ dataStatus (state (takeOff w)) = "FLYING"%string.
Proof.
  intros w Hc Hfs Hne Hidx.
  destruct (takeOff_fields w Hfs)
    as (Ecr & Ehover & Efs & Eroute & Eidx & Emode & Ealt & _).
  assert (Hstatus : dataStatus (state (takeOff w)) = "FLYING"%string).
  { unfold dataStatus. rewrite Efs.
    destruct (Req_dec_T (altitude (state (takeOff w))) 0); reflexivity. }
  assert (Hthrow : forall (dt : R) (rnd : nat -> R),
             updateFlightPhysics dt rnd (takeOff w) = None).
  { intros dt rnd. apply updateFlightPhysics_throws; [congruence |].
    apply horizontalMovement_None_iff.
    rewrite Ehover, Efs, Eroute, Eidx, Emode.
    repeat split; try assumption. discriminate. }
  split; [exact Hthrow |]. split; [| split; [| split]; assumption].
  intros rnds. induction rnds as [| rnd rnds IH]; [reflexivity |].
  cbn [map fold_left step]. unfold tick, runPhysics.
  rewrite Hthrow. exact IH.
Qed.

Lemma take_off_after_a_mission_freezes_witness :
  fold_left step [Tick rndHalf; Tick rndZero] (takeOff missionComplete)
  = takeOff missionComplete.
Proof.
  destruct (take_off_after_a_mission_freezes missionComplete)
    as (_ & Hfrozen & _).
  - reflexivity.
  - reflexivity.
  - discriminate.
  - simpl. lia.
  - exact (Hfrozen [rndHalf; rndZero]).
Defined.

(** ** Flights with no jam zone *)

Lemma run_invariant_when (ok : Event -> Prop) (P : World -> Prop) :
  P initialWorld ->
  (forall (e : Event) (w : World), ok e -> P w -> P (step w e)) ->
  forall events : list Event, Forall ok events -> P (run events).
Proof.
  intros Hinit Hstep events. unfold run.
  revert Hinit. generalize initialWorld as w.
  induction events as [| e events IH]; intros w Hw Hok; [exact Hw |].
  inversion Hok; subst. cbn [fold_left]. apply IH; auto.
Qed.

Lemma exec_vertical (c : Command) (w : World) :
  (forall z : JamZone, c <> SetJamZone z) ->
  (jamZone (state (exec c w)) = jamZone (state w)
   \/ jamZone (state (exec c w)) = None)
  /\ (altitude (state (exec c w)) = altitude (state w)
      \/ altitude (state (exec c w)) = 0)
  /\ (verticalSpeed (state (exec c w)) = verticalSpeed (state w)
      \/ verticalSpeed (state (exec c w)) = 0).
Proof.
  intros Hok.
  destruct c;
    try (exfalso; apply (Hok jamZoneInfo); reflexivity);
    try (unfold exec, setRoute, stopFlight, setHome, takeOff, land, hover,
           updateParameters, updateWind, clearJamZone, setRepeat,
           reset, north, south, east, west, altUp, altDown;
         repeat match goal with
                | |- context [if ?b then _ else _] => destruct b
                | |- context [match ?o with Some _ => _ | None => _ end] =>
                    destruct o
                end;
         (split; [| split]);
         first [left; reflexivity | right; reflexivity]).
  (* StartFlight *)
  unfold exec, startFlight.
  destruct (List.length (route (state w)) <? 2)%nat.
  { split; [| split]; left; reflexivity. }
  destruct (flightStarted (state w)) eqn:Hfs;
    cbn -[filterRoute]; rewrite Hfs; cbn -[filterRoute].
  { split; [| split]; left; reflexivity. }
  destruct (homePosition (state w)); (split; [| split]; left; reflexivity).
Qed.

Lemma modeControl_verticalSpeed (w : World) :
  verticalSpeed (state (modeControl w)) = verticalSpeed (state w)
  \/ verticalSpeed (state (modeControl w)) = 0.
Proof.
  destruct w as [[] integ lastErr al con cl].
  unfold modeControl. split_tests; writes; auto.
Qed.

Lemma verticalControl_speed (dt : R) (rnd : nat -> R) (w : World) :
  0 <= dt <= 0.1 ->
  -3 <= verticalSpeed (state w) <= 3 ->
  -3 <= verticalSpeed (state (fst (verticalControl dt rnd w))) <= 3.
Proof.
  intros Hdt Hvs.
  pose proof (verticalAccel_bounds dt rnd w) as Ha.
  destruct (verticalControl_floor dt rnd w) as [Hfloor Hfree].
  cbv zeta in Hfloor, Hfree.
  set (a := snd (verticalControl dt rnd w)) in *.
  destruct (Rlt_le_dec (integratedAltitude dt a (state w)) 0) as [Hneg | Hpos].
  - destruct (Hfloor Hneg) as [_ ->]. lra.
  - destruct (Hfree Hpos) as [_ ->]. unfold integratedSpeed. nra.
Qed.

Lemma powerAndCounters_engineRPM (dt : R) (prevPos : Point)
    (verticalAccel : R) (s : State) :
  engineRPM (powerAndCounters dt prevPos verticalAccel s)
  = engineRPM s
    + (2000 + 500 * totalLoadOf verticalAccel s - engineRPM s) * 0.05.
Proof.
  destruct s. unfold powerAndCounters.
  set (load := totalLoadOf verticalAccel _). writes.
  match goal with
  | |- context [if ?c <? 0 then _ else _] => destruct (c <? 0)
  end; writes;
    match goal with
    | |- context [if 3000 <? ?c then _ else _] => destruct (3000 <? c)
    end; writes;
    match goal with
    | |- context [if ?c then _ else _] => destruct c
    end; writes; reflexivity.
Qed.

Lemma runPhysics_unjammed (dt : R) (rnd : nat -> R) (w : World) :
  0 <= dt <= 0.1 ->
  jamZone (state w) = None ->
  0 <= altitude (state w) ->
  -3 <= verticalSpeed (state w) <= 3 ->
  2000 <= engineRPM (state w) ->
  jamZone (state (runPhysics dt rnd w)) = None
  /\ 0 <= altitude (state (runPhysics dt rnd w))
  /\ -3 <= verticalSpeed (state (runPhysics dt rnd w)) <= 3
  /\ 2000 <= engineRPM (state (runPhysics dt rnd w)).
Proof.
  intros Hdt Hz Halt Hvs Hrpm.
  destruct (crashed (state w)) eqn:Hc.
  { unfold runPhysics. rewrite (updateFlightPhysics_crashed dt rnd w Hc).
    auto. }
  destruct (horizontalMovement dt w) as [w1 |] eqn:Hh.
  2:{ unfold runPhysics. rewrite (updateFlightPhysics_throws dt rnd w Hc Hh).
      auto. }
  destruct (horizontalMovement_sensors dt w w1 Hh)
    as (_ & _ & Hrpm1 & _ & _ & _ & _ & _ & Hj1).
  assert (Hz1 : jamZone (state w1) = None) by congruence.
  split; [| split; [| split]].
  4:{ unfold runPhysics.
      rewrite (updateFlightPhysics_parts dt rnd w w1 Hc Hh), state_upd.
      rewrite powerAndCounters_engineRPM.
      pose proof (totalLoadOf_nonneg (snd (afterJam dt rnd w1))
                    (state (fst (afterJam dt rnd w1)))) as Hload.
      destruct (afterJam_outside dt rnd w1 (or_introl Hz1)) as (g & E).
      assert (Erpm : engineRPM (state (fst (afterJam dt rnd w1)))
                     = engineRPM (state w)).
      { rewrite E, state_upd.
        destruct (modeControl_writes w1)
          as (ta & md & alt0 & vs0 & fs0 & cr0 & integ0 & con0 & Em).
        destruct (verticalControl_writes dt rnd (modeControl w1))
          as (vs1 & alt1 & integ1 & lastErr1 & Ev & _).
        rewrite Ev, Em. exact Hrpm1. }
      rewrite Erpm. lra. }
  - unfold runPhysics.
    rewrite (updateFlightPhysics_parts dt rnd w w1 Hc Hh), state_upd.
    destruct (powerAndCounters_frame dt (position (state w))
                (snd (afterJam dt rnd w1)) (state (fst (afterJam dt rnd w1))))
      as (_ & _ & _ & _ & _ & _ & _ & _ & _ & _ & ->).
    destruct (afterJam_writes dt rnd w1)
      as (ta & md & cr & fs & vx' & vy' & vs & alt & pos' & rpm & gps & integ
          & lastErr & con & ->).
    exact Hz1.
  - apply (runPhysics_outside_altitude dt rnd w w1 Hc Hh). left. exact Hz1.
  - unfold runPhysics.
    rewrite (updateFlightPhysics_parts dt rnd w w1 Hc Hh), state_upd.
    destruct (powerAndCounters_frame dt (position (state w))
                (snd (afterJam dt rnd w1)) (state (fst (afterJam dt rnd w1))))
      as (_ & _ & -> & _).
    destruct (afterJam_outside dt rnd w1 (or_introl Hz1)) as (g & ->).
    rewrite state_upd. cbn [verticalSpeed set_gpsQuality].
    apply verticalControl_speed; [exact Hdt |].
    assert (Hvs1 : verticalSpeed (state w1) = verticalSpeed (state w)).
    { destruct (horizontalMovement_writes dt w w1 Hh)
        as (idx & rt & md0 & ta0 & ds & vx0 & vy0 & pos0 & con0 & ->).
      reflexivity. }
    destruct (modeControl_verticalSpeed w1) as [-> | ->]; [| lra].
    rewrite Hvs1. exact Hvs.
Qed.

(** X22. As long as no jam zone has been set, the vehicle is never below
    the ground, never climbs or sinks faster than 3 m/s, and its engine never
    turns slower than 2000 rpm: in every state that ticks and commands other
    than the jam zone one produce from the initial state, the altitude is
    not negative, the vertical speed is between -3 and 3 and the engine
    speed is 2000 at least. *)
Theorem unjammed_flight_stays_above_ground :
  forall events : list Event,
    Forall (fun e => forall z : JamZone, e <> Cmd (SetJamZone z)) events ->
    jamZone (state (run events)) = None
    /\ 0 <= altitude (state (run events))
    /\ -3 <= verticalSpeed (state (run events)) <= 3
    /\ 2000 <= engineRPM (state (run events)).
Proof.
  apply (run_invariant_when
           (fun e => forall z : JamZone, e <> Cmd (SetJamZone z))
           (fun w => jamZone (state w) = None
                     /\ 0 <= altitude (state w)
                     /\ -3 <= verticalSpeed (state w) <= 3
                     /\ 2000 <= engineRPM (state w))).
  - simpl. repeat split; try reflexivity; lra.
  - intros [c | rnd] w Hok (Hz & Halt & Hvs & Hrpm); cbn [step].
    + assert (Hc : forall z : JamZone, c <> SetJamZone z).
      { intros z E. apply (Hok z). rewrite E. reflexivity. }
      destruct (exec_vertical c w Hc) as (Ez & Ealt & Evs).
      destruct (exec_keeps_sensors c w) as (_ & _ & Erpm).
      split; [destruct Ez; congruence |].
      split; [destruct Ealt as [-> | ->]; lra |].
      split; [destruct Evs as [-> | ->]; lra |].
      rewrite Erpm. exact Hrpm.
    + apply runPhysics_unjammed; try assumption. lra.
Qed.

Lemma unjammed_flight_stays_above_ground_witness :
  0 <= altitude (state (run [Cmd TakeOffCmd; Tick rndHalf; Tick rndZero])).
Proof.
  apply (unjammed_flight_stays_above_ground
           [Cmd TakeOffCmd; Tick rndHalf; Tick rndZero]).
  repeat constructor; intros z; discriminate.
Defined.

(** ** The ground speed *)

Lemma blend_norm (vx0 vy0 ux uy t M : R) :
  0 <= t <= 1 ->
  vx0 * vx0 + vy0 * vy0 <= M ->
  ux * ux + uy * uy <= M ->
  (vx0 + (ux - vx0) * t) * (vx0 + (ux - vx0) * t)
  + (vy0 + (uy - vy0) * t) * (vy0 + (uy - vy0) * t) <= M.
Proof.
  intros [Ht0 Ht1] Hv Hu.
  assert (Hd : 2 * (vx0 * ux + vy0 * uy) <= 2 * M).
  { pose proof (Rle_0_sqr (vx0 - ux)) as H1.
    pose proof (Rle_0_sqr (vy0 - uy)) as H2.
    unfold Rsqr in H1, H2. lra. }
  replace ((vx0 + (ux - vx0) * t) * (vx0 + (ux - vx0) * t)
           + (vy0 + (uy - vy0) * t) * (vy0 + (uy - vy0) * t))
    with ((1 - t) * (1 - t) * (vx0 * vx0 + vy0 * vy0)
          + t * (1 - t) * (2 * (vx0 * ux + vy0 * uy))
          + t * t * (ux * ux + uy * uy)) by ring.
  assert (H1 : (1 - t) * (1 - t) * (vx0 * vx0 + vy0 * vy0)
               <= (1 - t) * (1 - t) * M)
    by (apply Rmult_le_compat_l; [nra | exact Hv]).
  assert (H2 : t * (1 - t) * (2 * (vx0 * ux + vy0 * uy))
               <= t * (1 - t) * (2 * M))
    by (apply Rmult_le_compat_l; [nra | exact Hd]).
  assert (H3 : t * t * (ux * ux + uy * uy) <= t * t * M)
    by (apply Rmult_le_compat_l; [nra | exact Hu]).
  replace M with ((1 - t) * (1 - t) * M + t * (1 - t) * (2 * M) + t * t * M)
    at 4 by ring.
  lra.
Qed.

Lemma steer_blend (dt v : R) (target : Point) (s : State) :
  0 <= dt <= 1 ->
  exists (ux uy t : R),
    0 <= t <= 1
    /\ ux * ux + uy * uy = v * v
    /\ vx (steer dt v target s) = vx s + (ux - vx s) * t
    /\ vy (steer dt v target s) = vy s + (uy - vy s) * t.
Proof.
  intros Hdt. unfold steer. cbn [vx vy set_position set_vy set_vx].
  set (b := atan2 _ _).
  set (ax := cos b * v - vx s). set (ay := sin b * v - vy s).
  set (aMag := sqrt (ax * ax + ay * ay)).
  exists (cos b * v), (sin b * v).
  assert (Hnorm : cos b * v * (cos b * v) + sin b * v * (sin b * v) = v * v).
  { pose proof (sin2_cos2 b) as H. unfold Rsqr in H.
    replace (cos b * v * (cos b * v) + sin b * v * (sin b * v))
      with ((sin b * sin b + cos b * cos b) * (v * v)) by ring.
    rewrite H. ring. }
  unfold maxAcceleration.
  destruct (Rltb_spec 5 aMag) as [Hbig | Hsmall].
  - exists (5 / aMag * dt).
    assert (Hk : 0 <= 5 / aMag <= 1).
    { split; [apply Rdiv_nonneg; lra |].
      apply Rmult_le_reg_r with aMag; [lra |].
      replace (5 / aMag * aMag) with 5 by (field; lra). lra. }
    split; [nra |]. split; [exact Hnorm |].
    fold ax ay. split; ring.
  - exists dt. split; [exact Hdt |]. split; [exact Hnorm |].
    fold ax ay. split; ring.
Qed.

Lemma steer_speed (dt v : R) (target : Point) (s : State) (M : R) :
  0 <= dt <= 1 ->
  sqrt (vx s * vx s + vy s * vy s) <= M ->
  Rabs v <= M ->
  sqrt (vx (steer dt v target s) * vx (steer dt v target s)
        + vy (steer dt v target s) * vy (steer dt v target s)) <= M.
Proof.
  intros Hdt Hs Hv.
  destruct (steer_blend dt v target s Hdt) as (ux & uy & t & Ht & Hu & -> & ->).
  assert (HM : 0 <= M) by (pose proof (Rabs_pos v); lra).
  assert (Hs2 : vx s * vx s + vy s * vy s <= M * M).
  { rewrite <- (sqrt_sqrt (vx s * vx s + vy s * vy s)) by nra.
    pose proof (sqrt_pos (vx s * vx s + vy s * vy s)). nra. }
  assert (Hv2 : ux * ux + uy * uy <= M * M).
  { rewrite Hu.
    replace (v * v) with (Rabs v * Rabs v)
      by (rewrite <- Rabs_mult; apply Rabs_pos_eq; nra).
    pose proof (Rabs_pos v). nra. }
  rewrite <- (sqrt_square M) by exact HM.
  apply sqrt_le_1; [| nra |].
  - match goal with
    | |- 0 <= ?a * ?a + ?b * ?b =>
        pose proof (Rle_0_sqr a) as Ha; pose proof (Rle_0_sqr b) as Hb;
        unfold Rsqr in Ha, Hb; lra
    end.
  - apply blend_norm; assumption.
Qed.

Lemma desiredSpeedFor_range (baseSpeed d : R) (currentPos target : Point) :
  0 <= baseSpeed ->
  0 <= desiredSpeedFor baseSpeed d currentPos target <= Rmax minSpeed baseSpeed.
Proof.
  intros Hb. unfold desiredSpeedFor.
  destruct (10 <=? d); [| split; [exact Hb | apply Rmax_r]].
  cbv zeta. unfold brakedSpeed.
  set (E := baseSpeed ^ 2 / (2 * 2) + 10).
  set (dv := computeDistance currentPos _).
  assert (HE : 0 < E) by (unfold E; nra).
  assert (Hdv : 0 <= dv) by apply computeDistance_nonneg.
  split.
  - eapply Rle_trans; [| apply Rmax_l]. unfold minSpeed. lra.
  - apply Rmax_lub; [apply Rmax_l |].
    eapply Rle_trans; [| apply Rmax_r].
    destruct (Rltb_spec dv E) as [Hnear | Hfar]; [| lra].
    assert (Hq : 0 <= dv / E <= 1).
    { split; [apply Rdiv_nonneg; lra |].
      apply Rmult_le_reg_r with E; [exact HE |].
      replace (dv / E * E) with dv by (field; lra). lra. }
    nra.
Qed.

Lemma navigate_steer_source (dt : R) (w w1 : World) :
  navigate dt w = Some w1 ->
  exists (d : R) (target : Point) (s : State),
    state w1
    = steer dt (desiredSpeedFor (horizontalSpeed (state w)) d
                  (position (state w)) target) target s
    /\ vx s = vx (state w) /\ vy s = vy (state w).
Proof.
  unfold navigate.
  destruct (nth_error (route (state w)) (waypointIndex (state w))) as [wp |];
    [| discriminate].
  set (target := resolve (position (state w)) wp).
  set (d := computeDistance (position (state w)) target).
  destruct (d <? 10).
  - destruct (waypointReached_writes wp target d w)
      as (idx & rt & md & ta & con & E).
    destruct (waypointReached wp target d w) as [[w2 target2] d2].
    cbn [fst] in E. subst w2. intros H. apply Some_inj in H. subst w1.
    rewrite !state_upd. exists d2, target2. eexists.
    split; [reflexivity |]. split; reflexivity.
  - intros H. apply Some_inj in H. subst w1.
    rewrite !state_upd. exists d, target. eexists.
    split; [reflexivity |]. split; reflexivity.
Qed.

(** X23. The horizontal movement of a tick of at most one second never
    takes the ground speed above the larger of what it was and of the speed
    setting (itself taken up to the 0.5 m/s minimum): a vehicle that flies
    no faster than the setting keeps doing so. *)
Theorem ground_speed_stays_within_setting :
  forall (dt : R) (w w1 : World),
    0 <= dt <= 1 ->
    0 <= horizontalSpeed (state w) ->
    horizontalMovement dt w = Some w1 ->
    sqrt (vx (state w1) * vx (state w1) + vy (state w1) * vy (state w1))
    <= Rmax (sqrt (vx (state w) * vx (state w) + vy (state w) * vy (state w)))
            (Rmax minSpeed (horizontalSpeed (state w))).
Proof.
  intros dt w w1 Hdt Hbase. unfold horizontalMovement.
  destruct (negb (hoverMode (state w)) && flightStarted (state w)
            && (0 <? List.length (route (state w)))%nat).
  - destruct (mode (state w));
      try (intros H;
           destruct (navigate_steer_source dt w w1 H)
             as (d & target & s & -> & Hvx & Hvy);
           apply steer_speed;
           [ exact Hdt
           | rewrite Hvx, Hvy; apply Rmax_l
           | eapply Rle_trans; [| apply Rmax_r];
             destruct (desiredSpeedFor_range (horizontalSpeed (state w)) d
                         (position (state w)) target Hbase) as [H0 H1];
             rewrite Rabs_pos_eq by exact H0; exact H1 ]).
    intros H. apply Some_inj in H. subst w1. unfold landingApproach.
    rewrite state_upd. apply steer_speed; [exact Hdt | apply Rmax_l |].
    rewrite Rabs_pos_eq by exact Hbase.
    eapply Rle_trans; [apply Rmax_r | apply Rmax_r].
  - intros H. apply Some_inj in H. subst w1. apply Rmax_l.
Qed.

Lemma ground_speed_stays_within_setting_witness :
  exists w1 : World,
    horizontalMovement 0.1 arrivingAtLast = Some w1
    /\ sqrt (vx (state w1) * vx (state w1) + vy (state w1) * vy (state w1))
       <= Rmax (sqrt (vx (state arrivingAtLast) * vx (state arrivingAtLast)
                      + vy (state arrivingAtLast) * vy (state arrivingAtLast)))
               (Rmax minSpeed (horizontalSpeed (state arrivingAtLast))).
Proof.
  destruct (navigate_reached 0.1 arrivingAtLast (Fixed tokyoNorth))
    as (w1 & Hnav & _).
  - reflexivity.
  - change (computeDistance tokyoNorth tokyoNorth < 10).
    rewrite computeDistance_same. lra.
  - exists w1.
    assert (Hh : horizontalMovement 0.1 arrivingAtLast = Some w1)
      by exact Hnav.
    split; [exact Hh |].
    apply (ground_speed_stays_within_setting 0.1 arrivingAtLast w1).
    + lra.
    + simpl. lra.
    + exact Hh.
Defined.

(** ** The target altitude and the cruise altitude *)

Lemma waypointReached_targetAltitude (wp : Waypoint) (target : Point) (d : R)
    (w : World) :
  targetAltitude (state (fst (fst (waypointReached wp target d w))))
  = targetAltitude (state w)
  \/ targetAltitude (state (fst (fst (waypointReached wp target d w)))) = 0.
Proof.
  destruct w as [[] integ lastErr al con cl].
  unfold waypointReached. split_tests; writes; auto.
Qed.

Lemma steer_targetAltitude (dt v : R) (target : Point) (s : State) :
  targetAltitude (steer dt v target s) = targetAltitude s.
Proof.
  destruct (steer_writes dt v target s) as (vx' & vy' & pos' & ->). reflexivity.
Qed.

Lemma navigate_targetAltitude (dt : R) (w w1 : World) :
  navigate dt w = Some w1 ->
  targetAltitude (state w1) = targetAltitude (state w)
  \/ targetAltitude (state w1) = 0.
Proof.
  unfold navigate.
  destruct (nth_error (route (state w)) (waypointIndex (state w))) as [wp |];
    [| discriminate].
  set (target := resolve (position (state w)) wp).
  set (d := computeDistance (position (state w)) target).
  destruct (d <? 10).
  - pose proof (waypointReached_targetAltitude wp target d w) as Hm.
    destruct (waypointReached wp target d w) as [[w2 target2] d2].
    cbn [fst] in Hm. intros H. apply Some_inj in H. subst w1.
    rewrite !state_upd, steer_targetAltitude. exact Hm.
  - intros H. apply Some_inj in H. subst w1.
    rewrite !state_upd, steer_targetAltitude. left. reflexivity.
Qed.

Lemma horizontalMovement_targetAltitude (dt : R) (w w1 : World) :
  horizontalMovement dt w = Some w1 ->
  (targetAltitude (state w1) = targetAltitude (state w)
   \/ targetAltitude (state w1) = 0)
  /\ cruiseAltitude (state w1) = cruiseAltitude (state w).
Proof.
  intros Hh. split.
  - revert Hh. unfold horizontalMovement.
    destruct (negb (hoverMode (state w)) && flightStarted (state w)
              && (0 <? List.length (route (state w)))%nat).
    + destruct (mode (state w)); try apply navigate_targetAltitude.
      intros H. apply Some_inj in H. subst w1. unfold landingApproach.
      rewrite state_upd, steer_targetAltitude. left. reflexivity.
    + intros H. apply Some_inj in H. subst w1. left. reflexivity.
  - destruct (horizontalMovement_writes dt w w1 Hh)
      as (idx & rt & md0 & ta0 & ds & vx0 & vy0 & pos0 & con0 & ->).
    reflexivity.
Qed.

Lemma modeControl_targetAltitude (w : World) :
  (targetAltitude (state (modeControl w)) = targetAltitude (state w)
   \/ targetAltitude (state (modeControl w)) = 0
   \/ targetAltitude (state (modeControl w)) = cruiseAltitude (state w))
  /\ cruiseAltitude (state (modeControl w)) = cruiseAltitude (state w)
  /\ (mode (state w) = TakeOff ->
      mode (state (modeControl w)) = Cruise ->
      cruiseAltitude (state w) * 0.95 <= altitude (state w)).
Proof.
  destruct w as [[] integ lastErr al con cl].
  unfold modeControl. cbn [state mode].
  destruct mode0; writes;
    repeat match goal with
           | |- context [if ?a <? ?b then _ else _] =>
               destruct (Rltb_spec a b)
           | |- context [if ?a <=? ?b then _ else _] =>
               destruct (Rleb_spec a b)
           end; writes;
    (split; [auto | split; [reflexivity |]]);
    intros; try discriminate; assumption.
Qed.

Lemma runPhysics_altitudes (dt : R) (rnd : nat -> R) (w : World) :
  cruiseAltitude (state (runPhysics dt rnd w)) = cruiseAltitude (state w)
  /\ (targetAltitude (state (runPhysics dt rnd w)) = targetAltitude (state w)
      \/ targetAltitude (state (runPhysics dt rnd w)) = 0
      \/ targetAltitude (state (runPhysics dt rnd w))
         = cruiseAltitude (state w))
  /\ (mode (state w) = TakeOff ->
      mode (state (runPhysics dt rnd w)) = Cruise ->
      cruiseAltitude (state w) * 0.95 <= altitude (state w)).
Proof.
  destruct (crashed (state w)) eqn:Hc.
  { unfold runPhysics. rewrite (updateFlightPhysics_crashed dt rnd w Hc).
    repeat split; auto. congruence. }
  destruct (horizontalMovement dt w) as [w1 |] eqn:Hh.
  2:{ unfold runPhysics. rewrite (updateFlightPhysics_throws dt rnd w Hc Hh).
      repeat split; auto. congruence. }
  destruct (horizontalMovement_targetAltitude dt w w1 Hh) as [Hta1 Hca1].
  destruct (modeControl_targetAltitude w1) as (Hta2 & Hca2 & Hcruise).
  destruct (runPhysics_mode dt rnd w w1 Hc Hh) as [Em _].
  rewrite (runPhysics_targetAltitude dt rnd w w1 Hc Hh), Em.
  split; [| split].
  - unfold runPhysics.
    rewrite (updateFlightPhysics_parts dt rnd w w1 Hc Hh), state_upd.
    destruct (powerAndCounters_writes dt (position (state w))
                (snd (afterJam dt rnd w1)) (state (fst (afterJam dt rnd w1))))
      as (rpm & temp & dist & time & ->).
    destruct (afterJam_writes dt rnd w1)
      as (ta & md & cr & fs & vx' & vy' & vs & alt & pos' & rpm' & gps & integ
          & lastErr & con & ->).
    exact Hca1.
  - rewrite <- Hca1.
    destruct Hta2 as [-> | [-> | ->]]; auto.
    destruct Hta1 as [-> | ->]; auto.
  - intros Hm Hm'.
    destruct (horizontalMovement_sensors dt w w1 Hh)
      as (_ & _ & _ & Halt & _).
    rewrite <- Hca1, <- Halt.
    destruct (horizontalMovement_mode dt w w1 Hh) as [E | [E _]].
    + apply Hcruise; congruence.
    + pose proof (modeControl_mode w1) as Hmc. rewrite E in Hmc.
      destruct Hmc as [Hmc | [Hmc _]]; congruence.
Qed.

Lemma exec_altitudes (c : Command) (w : World) :
  (cruiseAltitude (state (exec c w)) = cruiseAltitude (state w)
   \/ cruiseAltitude (state (exec c w)) = 100)
  /\ (0 <= targetAltitude (state w) ->
      0 <= targetAltitude (state (exec c w))).
Proof.
  destruct c;
    try (unfold exec, setRoute, stopFlight, setHome, takeOff, land, hover,
           updateParameters, updateWind, setJamZone, clearJamZone, setRepeat,
           reset, north, south, east, west;
         repeat match goal with
                | |- context [if ?b then _ else _] => destruct b
                | |- context [match ?o with Some _ => _ | None => _ end] =>
                    destruct o
                end;
         (split; [first [left; reflexivity | right; reflexivity] |]);
         cbn; intros; lra).
  - (* StartFlight *)
    unfold exec, startFlight.
    destruct (List.length (route (state w)) <? 2)%nat.
    { split; [left; reflexivity | auto]. }
    destruct (flightStarted (state w)) eqn:Hfs;
      cbn -[filterRoute]; rewrite Hfs; cbn -[filterRoute].
    { split; [left; reflexivity | auto]. }
    destruct (homePosition (state w)); (split; [left; reflexivity | auto]).
  - (* AltDown *)
    split; [left; reflexivity |]. unfold exec, altDown. cbn. intros.
    apply Rmax_l.
Qed.

(** X24. In every state that commands and ticks produce from the initial
    one the cruise altitude is 100 m (no command and no tick sets another
    value) and the target altitude is not negative.  So a tick takes such a
    vehicle from the take-off mode to the cruise mode only from 95 m up. *)
Theorem cruise_altitude_is_100 :
  (forall events : list Event,
      cruiseAltitude (state (run events)) = 100
      /\ 0 <= targetAltitude (state (run events)))
  /\ (forall (events : list Event) (rnd : nat -> R),
         mode (state (run events)) = TakeOff ->
         mode (state (tick rnd (run events))) = Cruise ->
         95 <= altitude (state (run events))).
Proof.
  assert (Hinv : forall events : list Event,
             cruiseAltitude (state (run events)) = 100
             /\ 0 <= targetAltitude (state (run events))).
  { apply (run_invariant
             (fun w => cruiseAltitude (state w) = 100
                       /\ 0 <= targetAltitude (state w))).
    - simpl. split; [reflexivity | lra].
    - intros c w [Hca Hta].
      destruct (exec_altitudes c w) as [Ec Et].
      split; [destruct Ec; congruence | apply Et; exact Hta].
    - intros rnd w [Hca Hta]. unfold tick.
      destruct (runPhysics_altitudes 0.1 rnd w) as (Ec & Et & _).
      split; [congruence |].
      destruct Et as [-> | [-> | ->]]; lra. }
  split; [exact Hinv |].
  intros events rnd Hm Hm'.
  destruct (Hinv events) as [Hca _].
  destruct (runPhysics_altitudes 0.1 rnd (run events)) as (_ & _ & Hcruise).
  specialize (Hcruise Hm Hm'). rewrite Hca in Hcruise. lra.
Qed.

(** ** The GPS and battery fields of the telemetry *)

(** X25. The four GPS fields of the telemetry always agree: signal level 3,
    10 satellites, GPS in use and "Good" above a quality of 0.8; level 2,
    6 satellites, GPS in use and "Fair" above 0.5; level 1, 2 satellites,
    GPS not in use and "Poor" otherwise. *)
Theorem telemetry_gps_fields_agree :
  forall s : State,
    (0.8 < gpsQuality s
     /\ gpsLevel s = 3%nat /\ satelliteCount s = 10%nat
     /\ isGPSBeingUsed s = 1%nat /\ gpsSignal s = "Good"%string)
    \/ (0.5 < gpsQuality s <= 0.8
        /\ gpsLevel s = 2%nat /\ satelliteCount s = 6%nat
        /\ isGPSBeingUsed s = 1%nat /\ gpsSignal s = "Fair"%string)
    \/ (gpsQuality s <= 0.5
        /\ gpsLevel s = 1%nat /\ satelliteCount s = 2%nat
        /\ isGPSBeingUsed s = 0%nat /\ gpsSignal s = "Poor"%string).
Proof.
  intros s. unfold gpsLevel, satelliteCount, isGPSBeingUsed, gpsSignal.
  destruct (Rltb_spec 0.8 (gpsQuality s)) as [Hgood | Hfair].
  - left. rewrite (Rltb_true 0.5) by lra. repeat split; try reflexivity; lra.
  - destruct (Rltb_spec 0.5 (gpsQuality s)) as [Hfair' | Hpoor].
    + right. left. repeat split; try reflexivity; lra.
    + right. right. repeat split; try reflexivity; lra.
Qed.

(** X26. In every state that commands and ticks produce from the initial
    one, the battery voltage of the telemetry is between 11.1 V and 12.6 V
    and the battery current is 5 A at least. *)
Theorem telemetry_battery_range :
  forall events : list Event,
    11.1 <= batteryVoltage (state (run events)) <= 12.6
    /\ 5 <= batteryCurrent (state (run events)).
Proof.
  intros events. unfold batteryVoltage, batteryCurrent.
  pose proof (run_battery_range events) as Hb.
  pose proof (sqrt_pos (vx (state (run events)) * vx (state (run events))
                        + vy (state (run events)) * vy (state (run events)))).
  split; lra.
Qed.

(** ** What the flight does not depend on *)

Lemma flightView_idem (w : World) :
  flightView w = flightView (flightView w).
Proof. destruct w as [[] integ lastErr al con cl]. reflexivity. Qed.

Lemma flightView_guards (w : World) :
  hoverMode (state (flightView w)) = hoverMode (state w)
  /\ flightStarted (state (flightView w)) = flightStarted (state w)
  /\ route (state (flightView w)) = route (state w)
  /\ mode (state (flightView w)) = mode (state w)
  /\ crashed (state (flightView w)) = crashed (state w)
  /\ position (state (flightView w)) = position (state w).
Proof. repeat split; reflexivity. Qed.

(** A part of the tick that gives the same view from worlds of the same
    view. *)
Lemma stage_respects_view (f : World -> World) :
  (forall w : World, flightView (f w) = flightView (f (flightView w))) ->
  forall a b : World,
    flightView a = flightView b -> flightView (f a) = flightView (f b).
Proof. intros Hf a b E. rewrite (Hf a), (Hf b), E. reflexivity. Qed.

Lemma navigate_flightView (dt : R) (w : World) :
  option_map flightView (navigate dt w)
  = option_map flightView (navigate dt (flightView w)).
Proof.
  destruct w as [[] integ lastErr al con cl].
  unfold navigate, flightView. writes.
  destruct (nth_error route0 waypointIndex0) as [wp |]; [| reflexivity].
  match goal with
  | |- context [if ?d <? 10 then _ else _] => destruct (d <? 10)
  end.
  - unfold waypointReached. writes.
    repeat match goal with
           | |- context [if ?c then _ else _] => destruct c
           | |- context [match ?o with Some _ => _ | None => _ end] =>
               destruct o
           end; unfold steer; writes; reflexivity.
  - unfold steer. writes. reflexivity.
Qed.

Lemma landingApproach_flightView (dt : R) (w : World) :
  flightView (landingApproach dt w)
  = flightView (landingApproach dt (flightView w)).
Proof.
  destruct w as [[] integ lastErr al con cl].
  unfold landingApproach, flightView, steer. writes. reflexivity.
Qed.

Lemma horizontalMovement_flightView (dt : R) (w : World) :
  option_map flightView (horizontalMovement dt w)
  = option_map flightView (horizontalMovement dt (flightView w)).
Proof.
  unfold horizontalMovement.
  destruct (flightView_guards w) as (-> & -> & -> & -> & _).
  destruct (negb (hoverMode (state w)) && flightStarted (state w)
            && (0 <? List.length (route (state w)))%nat).
  - destruct (mode (state w)).
    + exact (navigate_flightView dt w).
    + exact (navigate_flightView dt w).
    + exact (navigate_flightView dt w).
    + cbn [option_map]. apply (f_equal Some), landingApproach_flightView.
  - cbn [option_map]. apply (f_equal Some), flightView_idem.
Qed.

Lemma modeControl_flightView (w : World) :
  flightView (modeControl w) = flightView (modeControl (flightView w)).
Proof.
  destruct w as [[] integ lastErr al con cl].
  unfold modeControl, flightView. writes.
  destruct mode0; writes;
    repeat match goal with
           | |- context [if ?a <? ?b then _ else _] =>
               destruct (a <? b); writes
           | |- context [if ?a <=? ?b then _ else _] =>
               destruct (a <=? b); writes
           end; reflexivity.
Qed.

Lemma verticalControl_flightView (dt : R) (rnd : nat -> R) (w : World) :
  flightView (fst (verticalControl dt rnd w))
  = flightView (fst (verticalControl dt rnd (flightView w)))
  /\ snd (verticalControl dt rnd w) = snd (verticalControl dt rnd (flightView w)).
Proof.
  destruct w as [[] integ lastErr al con cl].
  unfold verticalControl, flightView. writes.
  split; [| reflexivity].
  match goal with
  | |- context [if ?c <? 0 then _ else _] => destruct (c <? 0)
  end; writes; reflexivity.
Qed.

Lemma jamInterference_flightView (rnd : nat -> R) (w : World) :
  flightView (jamInterference rnd w)
  = flightView (jamInterference rnd (flightView w)).
Proof.
  destruct w as [[] integ lastErr al con cl].
  unfold jamInterference, jamCrash, jamErrors, flightView. writes.
  destruct jamZone0 as [z |]; [| writes; reflexivity].
  repeat match goal with
         | |- context [if ?c <? ?d then _ else _] => destruct (c <? d)
         end; writes; reflexivity.
Qed.

Lemma afterJam_flightView (dt : R) (rnd : nat -> R) (w : World) :
  flightView (fst (afterJam dt rnd w))
  = flightView (fst (afterJam dt rnd (flightView w)))
  /\ snd (afterJam dt rnd w) = snd (afterJam dt rnd (flightView w)).
Proof.
  unfold afterJam.
  destruct (verticalControl_flightView dt rnd (modeControl w)) as [Hv1 Ha1].
  destruct (verticalControl_flightView dt rnd (modeControl (flightView w)))
    as [Hv2 Ha2].
  rewrite <- modeControl_flightView in Hv2, Ha2.
  destruct (verticalControl dt rnd (modeControl w)) as [w2 a2].
  destruct (verticalControl dt rnd (modeControl (flightView w))) as [w3 a3].
  destruct (verticalControl dt rnd (flightView (modeControl w))) as [w4 a4].
  cbn [fst snd] in *. split; [| congruence].
  apply (stage_respects_view (jamInterference rnd)
           (jamInterference_flightView rnd)).
  congruence.
Qed.

Lemma powerAndCounters_view (dt : R) (prevPos : Point) (verticalAccel : R)
    (w : World) :
  flightView (upd (powerAndCounters dt prevPos verticalAccel) w)
  = flightView
      (upd (set_engineRPM
              (engineRPM (state w)
               + (2000 + 500 * totalLoadOf verticalAccel (state w)
                  - engineRPM (state w)) * 0.05)) w).
Proof.
  pose proof (powerAndCounters_engineRPM dt prevPos verticalAccel (state w))
    as Hrpm.
  destruct (powerAndCounters_writes dt prevPos verticalAccel (state w))
    as (rpm & temp & dist & time & E).
  rewrite E in Hrpm. cbn [engineRPM set_flightTime set_totalDistance
                          set_batteryTemperature set_batteryLevel
                          set_engineRPM] in Hrpm.
  rewrite <- Hrpm. unfold upd at 1. rewrite E.
  destruct w as [[] integ lastErr al con cl]. reflexivity.
Qed.

Lemma powerAndCounters_flightView (dt : R) (prevPos : Point) (verticalAccel : R)
    (w : World) :
  flightView (upd (powerAndCounters dt prevPos verticalAccel) w)
  = flightView (upd (powerAndCounters dt prevPos verticalAccel) (flightView w)).
Proof.
  rewrite !powerAndCounters_view.
  destruct w as [[] integ lastErr al con cl]. reflexivity.
Qed.

Lemma updateFlightPhysics_flightView (dt : R) (rnd : nat -> R) (w : World) :
  option_map flightView (updateFlightPhysics dt rnd w)
  = option_map flightView (updateFlightPhysics dt rnd (flightView w)).
Proof.
  destruct (flightView_guards w) as (_ & _ & _ & _ & Hc & Hp).
  destruct (crashed (state w)) eqn:Hcr.
  - rewrite (updateFlightPhysics_crashed dt rnd w Hcr).
    rewrite (updateFlightPhysics_crashed dt rnd (flightView w)) by congruence.
    cbn [option_map]. apply (f_equal Some), flightView_idem.
  - pose proof (horizontalMovement_flightView dt w) as Hh.
    destruct (horizontalMovement dt w) as [w1 |] eqn:H1;
      destruct (horizontalMovement dt (flightView w)) as [w1' |] eqn:H2;
      cbn [option_map] in Hh; try discriminate.
    + apply Some_inj in Hh.
      rewrite (updateFlightPhysics_parts dt rnd w w1 Hcr H1).
      rewrite (updateFlightPhysics_parts dt rnd (flightView w) w1')
        by congruence.
      rewrite Hp. cbn [option_map]. apply (f_equal Some).
      destruct (afterJam_flightView dt rnd w1) as [Hw Ha].
      destruct (afterJam_flightView dt rnd w1') as [Hw' Ha'].
      rewrite Ha, Hh, <- Ha'.
      apply (stage_respects_view _ (powerAndCounters_flightView dt _ _)).
      rewrite Hw, Hh, <- Hw'. reflexivity.
    + rewrite (updateFlightPhysics_throws dt rnd w Hcr H1).
      rewrite (updateFlightPhysics_throws dt rnd (flightView w))
        by congruence.
      reflexivity.
Qed.

(** X27. The flight does not depend on what the tick keeps for show: two
    worlds that differ only in the battery level, the battery temperature,
    the GPS quality, the flight time, the distance counter, the desired
    speed shown, and the time multiplier, full flight time and altitude
    stability of the sliders, still differ only in these after a tick with
    the same random draws, and the tick throws in both or in neither.  A
    vehicle with an empty battery flies like one with a full battery. *)
Theorem readouts_do_not_steer_the_flight :
  forall (dt : R) (rnd : nat -> R) (w1 w2 : World),
    flightView w1 = flightView w2 ->
    flightView (runPhysics dt rnd w1) = flightView (runPhysics dt rnd w2)
    /\ (updateFlightPhysics dt rnd w1 = None
        <-> updateFlightPhysics dt rnd w2 = None).
Proof.
  intros dt rnd w1 w2 E.
  assert (H : option_map flightView (updateFlightPhysics dt rnd w1)
              = option_map flightView (updateFlightPhysics dt rnd w2)).
  { rewrite (updateFlightPhysics_flightView dt rnd w1).
    rewrite (updateFlightPhysics_flightView dt rnd w2).
    rewrite E. reflexivity. }
  unfold runPhysics.
  destruct (updateFlightPhysics dt rnd w1) as [w1' |];
    destruct (updateFlightPhysics dt rnd w2) as [w2' |];
    cbn [option_map] in H; try discriminate.
  - apply Some_inj in H. split; [exact H |]. split; discriminate.
  - split; [exact E |]. split; reflexivity.
Qed.

Lemma readouts_do_not_steer_the_flight_witness :
  flightView (runPhysics 0.1 rndHalf airborneBatteryEmpty)
  = flightView (runPhysics 0.1 rndHalf airborne).
Proof.
  apply (readouts_do_not_steer_the_flight 0.1 rndHalf
           airborneBatteryEmpty airborne).
  reflexivity.
Defined.

(** ** A vehicle at rest *)

Lemma verticalControl_memory (dt : R) (rnd : nat -> R) (w : World) :
  altErrorIntegral (fst (verticalControl dt rnd w))
  = clamp (altErrorIntegral w
           + (targetAltitude (state w) - altitude (state w)) * dt)
      (- maxIntegral) maxIntegral
  /\ lastAltError (fst (verticalControl dt rnd w))
     = targetAltitude (state w) - altitude (state w).
Proof.
  destruct w as [[] integ lastErr al con cl].
  unfold verticalControl. writes.
  match goal with
  | |- context [if ?c <? 0 then _ else _] => destruct (c <? 0)
  end; writes; split; reflexivity.
Qed.

Lemma runPhysics_atRest (dt : R) (rnd : nat -> R) (w : World) :
  0 < dt ->
  atRest w ->
  atRest (runPhysics dt rnd w)
  /\ position (state (runPhysics dt rnd w)) = position (state w)
  /\ altitude (state (runPhysics dt rnd w)) = altitude (state w)
  /\ totalDistance (state (runPhysics dt rnd w)) = totalDistance (state w)
  /\ batteryLevel (state (runPhysics dt rnd w))
     = Rmax 0 (batteryLevel (state w)).
Proof.
  intros Hdt (Hc & Hidle & Hmode & Hz & Hwind & Hvx & Hvy & Hvs & Hta & Halt
              & Hint & Hlast).
  pose proof (horizontalMovement_skipped dt w Hidle) as Hh.
  assert (Hmc : modeControl w = w).
  { pose proof (modeControl_mode w) as H.
    destruct Hmode as [E | E]; rewrite E in H; exact H. }
  destruct (verticalControl_rest dt rnd w Hta Hint Hlast Hwind Hvs Halt)
    as (Hacc & Halt' & Hvs').
  destruct (verticalControl_memory dt rnd w) as [Hint' Hlast'].
  rewrite Hint, Hta in Hint'. rewrite Hta in Hlast'.
  replace (0 + (altitude (state w) - altitude (state w)) * dt) with 0
    in Hint' by ring.
  rewrite clamp_inside in Hint' by (unfold maxIntegral; lra).
  replace (altitude (state w) - altitude (state w)) with 0 in Hlast' by ring.
  destruct (verticalControl_writes dt rnd w)
    as (vs1 & alt1 & integ1 & lastErr1 & Ev & _).
  rewrite Ev in Halt', Hvs', Hint', Hlast'.
  cbn [state altErrorIntegral lastAltError altitude verticalSpeed
       set_altitude set_verticalSpeed] in Halt', Hvs', Hint', Hlast'.
  subst alt1 vs1 integ1 lastErr1.
  assert (Hrun : runPhysics dt rnd w
                 = upd (powerAndCounters dt (position (state w)) 0)
                     (jamInterference rnd (fst (verticalControl dt rnd w)))).
  { unfold runPhysics.
    rewrite (updateFlightPhysics_parts dt rnd w w Hc Hh).
    unfold afterJam. rewrite Hmc.
    destruct (verticalControl dt rnd w) as [w2 a2]. cbn [fst snd] in *.
    rewrite Hacc. reflexivity. }
  rewrite Hrun, Ev.
  rewrite jamInterference_none by exact Hz.
  set (w3 := upd _ (mkWorld _ _ _ _ _ _)).
  assert (Hload : totalLoadOf 0 (state w3) = 0).
  { unfold totalLoadOf, w3. rewrite state_upd.
    cbn [vx vy set_gpsQuality set_altitude set_verticalSpeed state].
    rewrite Hvx, Hvy, Rabs_R0.
    replace (0 * 0 + 0 * 0) with 0 by ring. rewrite sqrt_0. ring. }
  destruct (powerAndCounters_writes dt (position (state w)) 0 (state w3))
    as (rpm & temp & dist & time & E).
  destruct (powerAndCounters_counters dt (position (state w)) 0 (state w3))
    as [Hdist _].
  rewrite Hload in E.
  assert (Hpos3 : position (state w3) = position (state w)) by reflexivity.
  rewrite Hpos3, computeDistance_same in Hdist.
  rewrite state_upd in *.
  split; [| split; [| split; [| split]]].
  - unfold atRest. rewrite state_upd, E.
    repeat split; try assumption; reflexivity.
  - rewrite E. reflexivity.
  - rewrite E. reflexivity.
  - rewrite Hdist. unfold w3. rewrite state_upd.
    cbn [totalDistance set_gpsQuality set_altitude set_verticalSpeed state].
    lra.
  - rewrite E.
    cbn [batteryLevel set_flightTime set_totalDistance set_batteryTemperature
         set_batteryLevel].
    unfold w3. rewrite state_upd.
    cbn [batteryLevel set_gpsQuality set_altitude set_verticalSpeed state].
    f_equal. lra.
Qed.

(** X28. A vehicle at rest stays at rest: not crashed, not navigating, in
    the ground or cruise mode, with no jam zone and no wind, not moving, at
    its target altitude and with the controller's memory empty, it is in
    that same condition after any number of ticks, at the same position and
    altitude, with the same distance counter and (the level not being
    negative) the same battery level: holding an altitude in still air
    draws nothing from the battery. *)
Theorem vehicle_at_rest_stays_at_rest :
  forall (rnds : list (nat -> R)) (w : World),
    atRest w ->
    let w' := fold_left step (map Tick rnds) w in
    atRest w'
    /\ position (state w') = position (state w)
    /\ altitude (state w') = altitude (state w)
    /\ totalDistance (state w') = totalDistance (state w)
    /\ (0 <= batteryLevel (state w) ->
        batteryLevel (state w') = batteryLevel (state w)).
Proof.
  intros rnds. induction rnds as [| rnd rnds IH]; intros w Hrest.
  - cbn. repeat split; auto; apply Hrest.
  - cbn [map fold_left step]. unfold tick.
    destruct (runPhysics_atRest 0.1 rnd w ltac:(lra) Hrest)
      as (Hrest1 & Hp1 & Ha1 & Hd1 & Hb1).
    destruct (IH (runPhysics 0.1 rnd w) Hrest1) as (Hrest' & Hp & Ha & Hd & Hb).
    cbv zeta in *.
    split; [exact Hrest' |].
    split; [congruence |]. split; [congruence |]. split; [congruence |].
    intros Hpos. rewrite Rmax_right in Hb1 by exact Hpos.
    rewrite Hb by (rewrite Hb1; exact Hpos). exact Hb1.
Qed.

Lemma vehicle_at_rest_stays_at_rest_witness :
  batteryLevel (state (fold_left step [Tick rndHalf; Tick rndZero] initialWorld))
  = batteryLevel (state initialWorld).
Proof.
  destruct (vehicle_at_rest_stays_at_rest [rndHalf; rndZero] initialWorld)
    as (_ & _ & _ & _ & Hb).
  - unfold atRest. simpl. repeat split; auto; lra.
  - apply Hb. simpl. lra.
Defined.
